(** * Weather Intelligence Hub: a shallow embedding of the page helpers

    The dashboard has three pages, each a Python script with its own helper
    functions:

    - [pages/1_..._Weather_Analysis.py]: the static city table, the WMO
      code table, the flattening of the hourly forecast and the fetch
      button handler;
    - [pages/2Weather_Insights.py]: the context handed to the LLM and the
      generation wrapper;
    - [pages/3_..._Weather_Chatbot.py]: the chatbot's code table, its
      generation wrapper and the city extraction heuristic.

    Every page is embedded in a module of its own. Python dicts are finite
    maps ([gmap]), JSON numbers are rationals, a value of the chatbot's
    response that may be JSON's [null] is an [option], text is [string] (a
    byte sequence; the string primitives below are Python's on ASCII text), a
    call that may raise returns an [Outcome], and the external services
    (geocoder, weather API, LLM, pandas, datetime) are parameters.

    The first part holds the embedding, the second part the properties. *)

From Stdlib Require Import ZArith QArith String Ascii List Lia Bool Sorting.Sorted.
From stdpp Require Import gmap strings list fin_maps sorting.

Open Scope string_scope.

(** ** Python values shared by the pages *)

(** A JSON number. The API sends decimal literals; they are kept exact. *)
Abbreviation number := Q.

(** The exceptions the helpers can meet. *)
Inductive PyError : Type :=
  | KeyError (key : string)
  | IndexError
  | ValueError (text : string)
  | TypeError (text : string).

(** The result of a call: a value, or an exception propagating up. *)
Inductive Outcome (A : Type) : Type :=
  | Return (a : A)
  | Raise (e : PyError).

Arguments Return {A} a.
Arguments Raise {A} e.

#[global] Instance outcome_ret : MRet Outcome := fun A a => Return a.

#[global] Instance outcome_bind : MBind Outcome := fun A B k o =>
  match o with
  | Return a => k a
  | Raise e => Raise e
  end.

(** [d[key]] on a dict whose key may be absent. *)
Definition getitem {A : Type} (key : string) (field : option A) : Outcome A :=
  match field with
  | Some a => Return a
  | None => Raise (KeyError key)
  end.

(** [xs[i]] on a list. *)
Definition index_list {A : Type} (xs : list A) (i : nat) : Outcome A :=
  match xs !! i with
  | Some a => Return a
  | None => Raise IndexError
  end.

(** A comprehension or loop body run over [xs], stopping at the first
    exception. *)
Fixpoint for_each {A B : Type} (body : A -> Outcome B) (xs : list A)
  : Outcome (list B) :=
  match xs with
  | [] => Return []
  | x :: rest =>
      row ← body x;
      rows ← for_each body rest;
      Return (row :: rows)
  end.

(** [range(n)] for an integer [n]: empty when [n] is not positive. *)
Definition range (n : Z) : list nat := seq 0 (Z.to_nat n).

(** ** Python string primitives (on ASCII text) *)
Module PyStr.

Definition is_upper (c : ascii) : bool :=
  let n := nat_of_ascii c in (65 <=? n)%nat && (n <=? 90)%nat.

Definition lower_char (c : ascii) : ascii :=
  if is_upper c then ascii_of_nat (nat_of_ascii c + 32) else c.

(** The text is ASCII: every character is below 128. On such text the
    primitives of this module are Python's; [lower] and [isspace] know no
    other letters and spaces, and [lower] keeps every character in its
    place, which [str.lower] does not do for some letters outside ASCII. *)
Fixpoint is_ascii (s : string) : bool :=
  match s with
  | EmptyString => true
  | String c rest => (nat_of_ascii c <? 128)%nat && is_ascii rest
  end.

(** [s.lower()] *)
Fixpoint lower (s : string) : string :=
  match s with
  | EmptyString => EmptyString
  | String c rest => String (lower_char c) (lower rest)
  end.

(** [c.isspace()]: tab, newline, vertical tab, form feed, carriage
    return, the four separators 0x1c-0x1f and the space. *)
Definition isspace (c : ascii) : bool :=
  let n := nat_of_ascii c in
  ((9 <=? n)%nat && (n <=? 13)%nat)
  || ((28 <=? n)%nat && (n <=? 31)%nat)
  || (n =? 32)%nat.

(** [s.lstrip()] *)
Fixpoint lstrip (s : string) : string :=
  match s with
  | EmptyString => EmptyString
  | String c rest => if isspace c then lstrip rest else s
  end.

(** [s.rstrip()] *)
Fixpoint rstrip (s : string) : string :=
  match s with
  | EmptyString => EmptyString
  | String c rest =>
      match rstrip rest with
      | EmptyString => if isspace c then EmptyString else String c EmptyString
      | kept => String c kept
      end
  end.

(** [s.strip()] *)
Definition strip (s : string) : string := rstrip (lstrip s).

(** [s.find(pattern)], [None] standing for -1. *)
Definition find (pattern s : string) : option nat := String.index 0 pattern s.

(** [pattern in s] *)
Definition contains (pattern s : string) : bool :=
  match find pattern s with
  | Some _ => true
  | None => false
  end.

(** [s[start:]] *)
Fixpoint slice_from (start : nat) (s : string) : string :=
  match start, s with
  | O, _ => s
  | S n, EmptyString => EmptyString
  | S n, String _ rest => slice_from n rest
  end.

(** [s.split(sep)[0]] for a one-character separator: the text before the
    first [sep], the whole of [s] when there is none. *)
Fixpoint split_head (sep : ascii) (s : string) : string :=
  match s with
  | EmptyString => EmptyString
  | String c rest =>
      if Ascii.eqb c sep then EmptyString else String c (split_head sep rest)
  end.

(** Truthiness of a string: non-empty. *)
Definition truthy (s : string) : bool :=
  match s with
  | EmptyString => false
  | String _ _ => true
  end.

(** [s.split(sep)] for a one-character separator: the pieces between the
    separators, of which there is always at least one. *)
Fixpoint split (sep : ascii) (s : string) : list string :=
  match s with
  | EmptyString => [EmptyString]
  | String c rest =>
      if Ascii.eqb c sep then EmptyString :: split sep rest
      else
        match split sep rest with
        | piece :: pieces => String c piece :: pieces
        | [] => [String c EmptyString]
        end
  end.

End PyStr.

(** What a page shows through [st.error], [st.info] and [st.success]. The
    long help text of the city table is a constructor of its own. *)
Inductive UiEvent : Type :=
  | StError (text : string)
  | StInfoGuaranteedCities
  | StSuccess (text : string).

(** Outcome of an HTTP exchange ([requests.get], [raise_for_status] and
    [json] together): the decoded body, or a [RequestException]. *)
Inductive HttpResult (A : Type) : Type :=
  | HttpOk (body : A)
  | RequestException (text : string).

Arguments HttpOk {A} body.
Arguments RequestException {A} text.

(** ** Page 1: Weather Analysis *)
Module WeatherAnalysis.

(** (latitude, longitude, formatted name) *)
Abbreviation Coordinates := (number * number * string)%type.

Definition city_database : gmap string Coordinates :=
  list_to_map [
    ("atlanta", ((33.7490)%Q, (-84.3880)%Q, "Atlanta, Georgia, USA"));
    ("new york", ((40.7128)%Q, (-74.0060)%Q, "New York, New York, USA"));
    ("los angeles", ((34.0522)%Q, (-118.2437)%Q, "Los Angeles, California, USA"));
    ("chicago", ((41.8781)%Q, (-87.6298)%Q, "Chicago, Illinois, USA"));
    ("houston", ((29.7604)%Q, (-95.3698)%Q, "Houston, Texas, USA"));
    ("miami", ((25.7617)%Q, (-80.1918)%Q, "Miami, Florida, USA"));
    ("boston", ((42.3601)%Q, (-71.0589)%Q, "Boston, Massachusetts, USA"));
    ("seattle", ((47.6062)%Q, (-122.3321)%Q, "Seattle, Washington, USA"));
    ("san francisco", ((37.7749)%Q, (-122.4194)%Q, "San Francisco, California, USA"));
    ("denver", ((39.7392)%Q, (-104.9903)%Q, "Denver, Colorado, USA"));
    ("washington", ((38.9072)%Q, (-77.0369)%Q, "Washington, D.C., USA"));
    ("philadelphia", ((39.9526)%Q, (-75.1652)%Q, "Philadelphia, Pennsylvania, USA"));
    ("phoenix", ((33.4484)%Q, (-112.0740)%Q, "Phoenix, Arizona, USA"));
    ("las vegas", ((36.1699)%Q, (-115.1398)%Q, "Las Vegas, Nevada, USA"));
    ("portland", ((45.5152)%Q, (-122.6784)%Q, "Portland, Oregon, USA"));
    ("austin", ((30.2672)%Q, (-97.7431)%Q, "Austin, Texas, USA"));
    ("nashville", ((36.1627)%Q, (-86.7816)%Q, "Nashville, Tennessee, USA"));
    ("london", ((51.5074)%Q, (-0.1278)%Q, "London, United Kingdom"));
    ("paris", ((48.8566)%Q, (2.3522)%Q, "Paris, France"));
    ("tokyo", ((35.6762)%Q, (139.6503)%Q, "Tokyo, Japan"));
    ("sydney", ((33.8688)%Q, (151.2093)%Q, "Sydney, Australia"));
    ("toronto", ((43.6532)%Q, (-79.3832)%Q, "Toronto, Canada"));
    ("berlin", ((52.5200)%Q, (13.4050)%Q, "Berlin, Germany"));
    ("rome", ((41.9028)%Q, (12.4964)%Q, "Rome, Italy"));
    ("madrid", ((40.4168)%Q, (-3.7038)%Q, "Madrid, Spain"));
    ("amsterdam", ((52.3676)%Q, (4.9041)%Q, "Amsterdam, Netherlands"));
    ("dubai", ((25.2048)%Q, (55.2708)%Q, "Dubai, UAE"));
    ("singapore", ((1.3521)%Q, (103.8198)%Q, "Singapore"));
    ("hong kong", ((22.3193)%Q, (114.1694)%Q, "Hong Kong"));
    ("moscow", ((55.7558)%Q, (37.6173)%Q, "Moscow, Russia"));
    ("beijing", ((39.9042)%Q, (116.4074)%Q, "Beijing, China"));
    ("mumbai", ((19.0760)%Q, (72.8777)%Q, "Mumbai, India"));
    ("rio de janeiro", ((-22.9068)%Q, (-43.1729)%Q, "Rio de Janeiro, Brazil"));
    ("barcelona", ((41.3851)%Q, (2.1734)%Q, "Barcelona, Spain"));
    ("melbourne", ((-37.8136)%Q, (144.9631)%Q, "Melbourne, Australia"));
    ("vancouver", ((49.2827)%Q, (-123.1207)%Q, "Vancouver, Canada"));
    ("bangkok", ((13.7563)%Q, (100.5018)%Q, "Bangkok, Thailand"))
  ].

(** [fallback_city_lookup(city_name)]: the stored triple, or [None] after
    two messages on the page. *)
Definition fallback_city_lookup (city_name : string)
  : option Coordinates * list UiEvent :=
  let city_lower := PyStr.strip (PyStr.lower city_name) in
  match city_database !! city_lower with
  | Some (lat, lon, formatted_name) => (Some (lat, lon, formatted_name), [])
  | None =>
      (None,
       [StError ("❌ City '" ++ city_name ++ "' not found in database.");
        StInfoGuaranteedCities])
  end.

Definition weather_codes : gmap Z (string * string) :=
  list_to_map [
    (0, ("Clear sky", "☀️"));
    (1, ("Mainly clear", "🌤️"));
    (2, ("Partly cloudy", "⛅"));
    (3, ("Overcast", "☁️"));
    (45, ("Foggy", "🌫️"));
    (48, ("Foggy", "🌫️"));
    (51, ("Light drizzle", "🌦️"));
    (53, ("Moderate drizzle", "🌦️"));
    (55, ("Dense drizzle", "🌧️"));
    (61, ("Slight rain", "🌧️"));
    (63, ("Moderate rain", "🌧️"));
    (65, ("Heavy rain", "🌧️"));
    (71, ("Slight snow", "🌨️"));
    (73, ("Moderate snow", "🌨️"));
    (75, ("Heavy snow", "❄️"));
    (77, ("Snow grains", "❄️"));
    (80, ("Slight rain showers", "🌦️"));
    (81, ("Moderate rain showers", "🌧️"));
    (82, ("Violent rain showers", "⛈️"));
    (85, ("Slight snow showers", "🌨️"));
    (86, ("Heavy snow showers", "❄️"));
    (95, ("Thunderstorm", "⛈️"));
    (96, ("Thunderstorm with hail", "⛈️"));
    (99, ("Thunderstorm with hail", "⛈️"))
  ]%Z.

(** [get_weather_description(weather_code)]:
    [weather_codes.get(weather_code, ("Unknown", ...))]. *)
Definition get_weather_description (weather_code : Z) : string * string :=
  default ("Unknown", "🌡️") (weather_codes !! weather_code).

(** *** The forecast response

    The JSON body of the forecast endpoint: a dict whose blocks may be
    absent. A block that is present carries every field the page asks for,
    as parallel arrays for [hourly] and [daily]. *)
Record Current : Type := {
  current_temperature_2m : number;
  current_relative_humidity_2m : number;
  current_apparent_temperature : number;
  current_precipitation : number;
  current_weather_code : Z;
  current_cloud_cover : number;
  current_wind_speed_10m : number;
  current_wind_direction_10m : number
}.

Record Hourly : Type := {
  hourly_time : list string;
  hourly_temperature_2m : list number;
  hourly_relative_humidity_2m : list number;
  hourly_apparent_temperature : list number;
  hourly_precipitation_probability : list number;
  hourly_weather_code : list Z;
  hourly_cloud_cover : list number;
  hourly_wind_speed_10m : list number
}.

Record Daily : Type := {
  daily_time : list string;
  daily_weather_code : list Z;
  daily_temperature_2m_max : list number;
  daily_temperature_2m_min : list number;
  daily_precipitation_sum : list number;
  daily_wind_speed_10m_max : list number
}.

Record WeatherResponse : Type := {
  latitude : option number;
  longitude : option number;
  timezone : option string;
  current : option Current;
  hourly : option Hourly;
  daily : option Daily
}.

(** Truthiness of the response dict: it has at least one key. *)
Definition dict_truthy (r : WeatherResponse) : bool :=
  bool_decide (is_Some (latitude r)) || bool_decide (is_Some (longitude r))
  || bool_decide (is_Some (timezone r)) || bool_decide (is_Some (current r))
  || bool_decide (is_Some (hourly r)) || bool_decide (is_Some (daily r)).

(** Truthiness of a value that is [None] or a response dict. *)
Definition truthy (r : option WeatherResponse) : bool :=
  match r with
  | None => false
  | Some body => dict_truthy body
  end.

(** *** Flattening the hourly forecast *)
Section Pandas.

(** [pd.to_datetime] and [Timestamp.strftime] are pandas'. *)
Context {Timestamp : Type}.
Variable to_datetime : string -> Outcome Timestamp.
Variable strftime : Timestamp -> string -> string.

(** One row of the DataFrame. *)
Record HourlyRow : Type := {
  row_datetime : Timestamp;
  row_date : string;
  row_time : string;
  row_temperature : number;
  row_feels_like : number;
  row_humidity : number;
  row_precipitation_prob : number;
  row_wind_speed : number;
  row_clouds : number;
  row_weather_code : Z;
  row_weather_desc : string;
  row_weather_emoji : string
}.

(** A DataFrame is the list of its rows, in index order. *)
Definition DataFrame : Type := list HourlyRow.

(** The body of the loop of [process_hourly_forecast] at index [i]. *)
Definition hourly_row (hourly : Hourly) (i : nat) : Outcome HourlyRow :=
  code ← index_list (hourly_weather_code hourly) i;
  let '(weather_desc, weather_emoji) := get_weather_description code in
  stamp ← index_list (hourly_time hourly) i;
  datetime ← to_datetime stamp;
  temperature ← index_list (hourly_temperature_2m hourly) i;
  feels_like ← index_list (hourly_apparent_temperature hourly) i;
  humidity ← index_list (hourly_relative_humidity_2m hourly) i;
  precipitation_prob ← index_list (hourly_precipitation_probability hourly) i;
  wind_speed ← index_list (hourly_wind_speed_10m hourly) i;
  clouds ← index_list (hourly_cloud_cover hourly) i;
  Return {|
    row_datetime := datetime;
    row_date := strftime datetime "%Y-%m-%d";
    row_time := strftime datetime "%H:%M";
    row_temperature := temperature;
    row_feels_like := feels_like;
    row_humidity := humidity;
    row_precipitation_prob := precipitation_prob;
    row_wind_speed := wind_speed;
    row_clouds := clouds;
    row_weather_code := code;
    row_weather_desc := weather_desc;
    row_weather_emoji := weather_emoji
  |}.

(** [process_hourly_forecast(forecast_data, days)]. The inner [option] is
    Python's [None] against a DataFrame. *)
Definition process_hourly_forecast (forecast_data : option WeatherResponse)
    (days : Z) : Outcome (option DataFrame) :=
  match forecast_data with
  | None => Return None
  | Some body =>
      if negb (dict_truthy body) || negb (bool_decide (is_Some (hourly body)))
      then Return None
      else
        hourly ← getitem "hourly" (hourly body);
        let hours_to_show := (days * 24)%Z in
        data_list ← for_each (hourly_row hourly)
          (range (Z.min hours_to_show (Z.of_nat (length (hourly_time hourly)))));
        Return (Some data_list)
  end.

End Pandas.

Arguments HourlyRow Timestamp : clear implicits.
Arguments DataFrame Timestamp : clear implicits.

(** *** The most frequent condition *)

(** How often [value] occurs in a column. *)
Definition value_count (column : list string) (value : string) : nat :=
  length (filter (eq value) column).

(** [Series.mode()] of pandas on a column of text: the values of highest
    count, in sorted order. *)
Definition Series_mode (column : list string) : list string :=
  let values := remove_dups column in
  let highest := max_list (value_count column <$> values) in
  merge_sort String.le
    (filter (fun value => value_count column value = highest) values).

(** [df_forecast['weather_desc'].mode()[0]] *)
Definition most_common_weather {Timestamp : Type}
    (df_forecast : DataFrame Timestamp) : Outcome string :=
  match Series_mode (row_weather_desc <$> df_forecast) with
  | value :: _ => Return value
  | [] => Raise (KeyError "0")
  end.

(** *** Geocoding and the two fetches *)

(** A value of the query string of a request. *)
Inductive ParamValue : Type :=
  | PNumber (x : number)
  | PText (text : string)
  | PInt (n : Z).

Record Request : Type := {
  url : string;
  params : list (string * ParamValue);
  timeout : Z
}.

Section Services.

(** The geocoding key of the secrets file, empty when it is not set. *)
Variable api_key : string.

(** The geocoding request for a key and a query: the [results] array of
    the body, or [None] for any exception on the way. *)
Variable opencage : string -> string -> option (list Coordinates).

(** The weather API. *)
Variable requests_get : Request -> HttpResult WeatherResponse.

(** [get_coordinates(city_name)] *)
Definition get_coordinates (city_name : string)
  : option Coordinates * list UiEvent :=
  let geocoded :=
    if PyStr.truthy api_key then
      match opencage api_key city_name with
      | Some (result :: _) => Some result
      | Some [] => None
      | None => None
      end
    else None in
  match geocoded with
  | Some found => (Some found, [])
  | None => fallback_city_lookup city_name
  end.

Definition wind_speed_unit (temperature_unit : string) : string :=
  if String.eqb temperature_unit "fahrenheit" then "mph" else "kmh".

(** [fetch_current_weather(lat, lon, temperature_unit)] *)
Definition fetch_current_weather (lat lon : number) (temperature_unit : string)
  : option WeatherResponse * list UiEvent :=
  let request := {|
    url := "https://api.open-meteo.com/v1/forecast";
    params := [
      ("latitude", PNumber lat);
      ("longitude", PNumber lon);
      ("current", PText "temperature_2m,relative_humidity_2m,apparent_temperature,precipitation,weather_code,cloud_cover,wind_speed_10m,wind_direction_10m");
      ("temperature_unit", PText temperature_unit);
      ("wind_speed_unit", PText (wind_speed_unit temperature_unit));
      ("timezone", PText "auto")
    ];
    timeout := 10
  |} in
  match requests_get request with
  | HttpOk body => (Some body, [])
  | RequestException e =>
      (None, [StError ("❌ Error fetching weather data: " ++ e)])
  end.

(** [fetch_forecast(lat, lon, temperature_unit, days)] *)
Definition fetch_forecast (lat lon : number) (temperature_unit : string)
    (days : Z) : option WeatherResponse * list UiEvent :=
  let request := {|
    url := "https://api.open-meteo.com/v1/forecast";
    params := [
      ("latitude", PNumber lat);
      ("longitude", PNumber lon);
      ("hourly", PText "temperature_2m,relative_humidity_2m,apparent_temperature,precipitation_probability,weather_code,cloud_cover,wind_speed_10m");
      ("daily", PText "weather_code,temperature_2m_max,temperature_2m_min,precipitation_sum,wind_speed_10m_max");
      ("temperature_unit", PText temperature_unit);
      ("wind_speed_unit", PText (wind_speed_unit temperature_unit));
      ("timezone", PText "auto");
      ("forecast_days", PInt days)
    ];
    timeout := 10
  |} in
  match requests_get request with
  | HttpOk body => (Some body, [])
  | RequestException e =>
      (None, [StError ("❌ Error fetching forecast data: " ++ e)])
  end.

(** *** The fetch button *)

(** A value kept in [st.session_state]. *)
Inductive SessionValue : Type :=
  | SResponse (body : WeatherResponse)
  | SText (text : string)
  | SInt (n : Z).

(** The three widgets above the button. *)
Record Inputs : Type := {
  city_input : string;
  temp_unit_display : string;
  forecast_days : Z
}.

Definition temp_unit (inputs : Inputs) : string :=
  if PyStr.contains "Celsius" (temp_unit_display inputs)
  then "celsius" else "fahrenheit".

Definition unit_symbol (inputs : Inputs) : string :=
  if String.eqb (temp_unit inputs) "celsius" then "°C" else "°F".

Definition wind_unit (inputs : Inputs) : string :=
  if String.eqb (temp_unit inputs) "celsius" then "km/h" else "mph".

(** The block run when the fetch button is clicked: the session state
    after it, and what the page showed. *)
Definition fetch_button (inputs : Inputs)
    (session_state : gmap string SessionValue)
  : gmap string SessionValue * list UiEvent :=
  let '(coords, shown_geo) := get_coordinates (city_input inputs) in
  match coords with
  | Some (lat, lon, full_location) =>
      let '(current_weather, shown_current) :=
        fetch_current_weather lat lon (temp_unit inputs) in
      let '(forecast_data, shown_forecast) :=
        fetch_forecast lat lon (temp_unit inputs) (forecast_days inputs) in
      match current_weather, forecast_data with
      | Some current_body, Some forecast_body =>
          if dict_truthy current_body && dict_truthy forecast_body then
            (<["forecast_days" := SInt (forecast_days inputs)]>
               (<["wind_unit" := SText (wind_unit inputs)]>
                  (<["unit_symbol" := SText (unit_symbol inputs)]>
                     (<["city_name" := SText (city_input inputs)]>
                        (<["location" := SText full_location]>
                           (<["forecast_data" := SResponse forecast_body]>
                              (<["current_weather" := SResponse current_body]>
                                 session_state)))))),
             (shown_geo ++ shown_current ++ shown_forecast ++
              [StSuccess ("✅ Successfully fetched weather data for "
                          ++ city_input inputs ++ "!")%string])%list)
          else
            (session_state, (shown_geo ++ shown_current ++ shown_forecast)%list)
      | _, _ =>
          (session_state, (shown_geo ++ shown_current ++ shown_forecast)%list)
      end
  | None =>
      (session_state,
       (shown_geo ++
        [StError ("❌ City '" ++ city_input inputs
                  ++ "' not found. Please check the spelling and try again.")%string
        ])%list)
  end.

(** The results section is drawn when both responses are in the session. *)
Definition results_displayed (session_state : gmap string SessionValue) : bool :=
  bool_decide (is_Some (session_state !! "current_weather"))
  && bool_decide (is_Some (session_state !! "forecast_data")).

End Services.

(** *** The results section and the example buttons *)

(** The keys the fetch button writes. *)
Definition fetch_keys : list string := [
  "current_weather"; "forecast_data"; "location"; "city_name";
  "unit_symbol"; "wind_unit"; "forecast_days"
].

(** What the head of the results section reads from the session. *)
Record ResultsView : Type := {
  view_current : SessionValue;
  view_forecast : SessionValue;
  view_location : SessionValue;
  view_city_name : SessionValue;
  view_unit_symbol : SessionValue;
  view_wind_unit : SessionValue;
  view_forecast_days : SessionValue
}.

(** The head of the results section: nothing when the two responses are
    not in the session; otherwise the seven reads, of which only
    [city_name] has a default (the text typed in this run). *)
Definition read_results (city_input : string)
    (session_state : gmap string SessionValue)
  : option (Outcome ResultsView) :=
  if results_displayed session_state then
    Some (
      current ← getitem "current_weather" (session_state !! "current_weather");
      forecast ← getitem "forecast_data" (session_state !! "forecast_data");
      location ← getitem "location" (session_state !! "location");
      let city_name :=
        default (SText city_input) (session_state !! "city_name") in
      unit_symbol ← getitem "unit_symbol" (session_state !! "unit_symbol");
      wind_unit ← getitem "wind_unit" (session_state !! "wind_unit");
      forecast_days ← getitem "forecast_days" (session_state !! "forecast_days");
      Return {|
        view_current := current;
        view_forecast := forecast;
        view_location := location;
        view_city_name := city_name;
        view_unit_symbol := unit_symbol;
        view_wind_unit := wind_unit;
        view_forecast_days := forecast_days
      |})
  else None.

(** A click on one of the example cities, which are offered while the
    results section is not drawn. *)
Definition example_button (city : string)
    (session_state : gmap string SessionValue) : gmap string SessionValue :=
  <["example_city" := SText city]> session_state.

(** *** The chart of the weather conditions *)

(** The distinct values of a column, in order of first appearance. *)
Fixpoint unique (column : list string) : list string :=
  match column with
  | [] => []
  | value :: rest =>
      value :: List.filter (fun other => negb (String.eqb other value))
                 (unique rest)
  end.

(** A row of [weather_counts] once the page has added its two columns. *)
Record ConditionRow : Type := {
  Condition : string;
  Count : nat;
  Emoji : string;
  Display : string
}.

Section Chart.

Context {Timestamp : Type}.

(** [sort_values(ascending=False)] of pandas on the counts, inside
    [value_counts]: the counts in descending order; how it orders equal
    counts is its own matter. *)
Variable sort_counts : list (string * nat) -> list (string * nat).

(** [df_forecast['weather_desc'].value_counts().reset_index()] *)
Definition value_counts (column : list string) : list (string * nat) :=
  sort_counts ((fun value => (value, value_count column value)) <$> unique column).

(** [df_forecast.groupby('weather_desc')['weather_emoji'].first().values]:
    the icon of the first row of each condition, the conditions in sorted
    order. *)
Definition first_emojis (df_forecast : DataFrame Timestamp) : list string :=
  (fun key =>
     default ""
       (row_weather_emoji <$>
          head (List.filter
                  (fun row => String.eqb (row_weather_desc row) key)
                  df_forecast)))
  <$> merge_sort String.le (unique (row_weather_desc <$> df_forecast)).

(** The table behind the bar chart: the counts, the column of icons set
    from an array (which must have the length of the table) and the label
    made of icon and condition. *)
Definition weather_conditions (df_forecast : DataFrame Timestamp)
  : Outcome (list ConditionRow) :=
  let weather_counts := value_counts (row_weather_desc <$> df_forecast) in
  let emojis := first_emojis df_forecast in
  if (length emojis =? length weather_counts)%nat then
    Return (zip_with
              (fun counted emoji => {|
                 Condition := counted.1;
                 Count := counted.2;
                 Emoji := emoji;
                 Display := emoji ++ " " ++ counted.1
               |})
              weather_counts emojis)
  else Raise (ValueError "Length of values does not match length of index").

End Chart.

End WeatherAnalysis.

(** What the LLM client gives back inside a [try]: the generated text, or
    an exception whose [str] is [text]. *)
Inductive LlmResult : Type :=
  | Generated (text : string)
  | LlmFailed (text : string).

(** A line break. *)
Definition nl : string := String (ascii_of_nat 10) EmptyString.

(** ** Page 2: AI Weather Insights *)
Module WeatherInsights.

Definition codes : gmap Z string :=
  list_to_map [
    (0, "Clear sky"); (1, "Mainly clear"); (2, "Partly cloudy"); (3, "Overcast");
    (45, "Foggy"); (48, "Foggy"); (51, "Light drizzle"); (53, "Drizzle");
    (55, "Heavy drizzle"); (61, "Slight rain"); (63, "Rain"); (65, "Heavy rain");
    (71, "Slight snow"); (73, "Snow"); (75, "Heavy snow"); (77, "Snow grains");
    (80, "Rain showers"); (81, "Rain showers"); (82, "Heavy rain showers");
    (85, "Snow showers"); (86, "Heavy snow showers"); (95, "Thunderstorm");
    (96, "Thunderstorm with hail"); (99, "Heavy thunderstorm")
  ]%Z.

(** [get_weather_description(weather_code)] *)
Definition get_weather_description (weather_code : Z) : string :=
  default "Unknown" (codes !! weather_code).

(** The response of [fetch_weather_data]: the [current] and [daily] blocks
    with the fields this page requests, every reading a number (a
    response with JSON's [null] for a reading is not among these). *)
Record Current : Type := {
  current_temperature_2m : number;
  current_relative_humidity_2m : number;
  current_apparent_temperature : number;
  current_weather_code : Z;
  current_wind_speed_10m : number
}.

Record Daily : Type := {
  daily_time : list string;
  daily_weather_code : list Z;
  daily_temperature_2m_max : list number;
  daily_temperature_2m_min : list number;
  daily_precipitation_sum : list number;
  daily_wind_speed_10m_max : list number
}.

Record WeatherData : Type := {
  current : option Current;
  daily : option Daily
}.

(** The context handed to the LLM. *)
Record CurrentSummary : Type := {
  temperature : number;
  feels_like : number;
  humidity : number;
  wind_speed : number;
  condition : string
}.

Record DailySummary : Type := {
  date : string;
  temp_max : number;
  temp_min : number;
  precipitation : number;
  wind_max : number;
  day_condition : string
}.

Record Processed : Type := {
  city : string;
  current_summary : CurrentSummary;
  forecast : list DailySummary
}.

Section Preprocessing.

(** [round(x, 1)] is Python's, on the float the number was read as. *)
Variable round1 : number -> number.

(** [datetime.fromisoformat] and [datetime.strftime]. *)
Context {Datetime : Type}.
Variable fromisoformat : string -> Outcome Datetime.
Variable strftime : Datetime -> string -> string.

(** The body of the loop of [process_weather_for_llm] at index [i]. *)
Definition daily_summary (daily : Daily) (i : nat) : Outcome DailySummary :=
  day ← index_list (daily_time daily) i;
  parsed ← fromisoformat day;
  high ← index_list (daily_temperature_2m_max daily) i;
  low ← index_list (daily_temperature_2m_min daily) i;
  rain ← index_list (daily_precipitation_sum daily) i;
  wind ← index_list (daily_wind_speed_10m_max daily) i;
  code ← index_list (daily_weather_code daily) i;
  Return {|
    date := strftime parsed "%A, %B %d";
    temp_max := round1 high;
    temp_min := round1 low;
    precipitation := round1 rain;
    wind_max := round1 wind;
    day_condition := get_weather_description code
  |}.

(** [process_weather_for_llm(weather_data, city_name)] *)
Definition process_weather_for_llm (weather_data : WeatherData)
    (city_name : string) : Outcome Processed :=
  current ← getitem "current" (current weather_data);
  daily ← getitem "daily" (daily weather_data);
  let summary := {|
    temperature := round1 (current_temperature_2m current);
    feels_like := round1 (current_apparent_temperature current);
    humidity := current_relative_humidity_2m current;
    wind_speed := round1 (current_wind_speed_10m current);
    condition := get_weather_description (current_weather_code current)
  |} in
  days ← for_each (daily_summary daily)
    (range (Z.min 5 (Z.of_nat (length (daily_time daily)))));
  Return {| city := city_name; current_summary := summary; forecast := days |}.

End Preprocessing.

Section Generation.

(** The context is a dict of any shape; [json.dumps(_, indent=2)] prints it. *)
Context {ContextData : Type}.
Variable json_dumps : ContextData -> string.

(** The Gemini client for an API key: configure, build the model and call
    [generate_content] on a prompt. *)
Variable gemini : string -> string -> LlmResult.

Definition full_prompt (prompt : string) (context_data : ContextData) : string :=
  "You are a weather analysis expert and travel advisor." ++ nl ++
  nl ++
  "WEATHER DATA:" ++ nl ++
  json_dumps context_data ++ nl ++
  nl ++
  "USER REQUEST:" ++ nl ++
  prompt ++ nl ++
  nl ++
  "Provide a detailed, informative, and practical response. Be specific and use the actual data provided." ++ nl ++
  "Make your response engaging and easy to read." ++ nl.

(** [generate_ai_insights(prompt, context_data, gemini_key)] *)
Definition generate_ai_insights (prompt : string) (context_data : ContextData)
    (gemini_key : string) : string :=
  match gemini gemini_key (full_prompt prompt context_data) with
  | Generated text => text
  | LlmFailed e =>
      let error_msg := PyStr.lower e in
      if PyStr.contains "quota" error_msg || PyStr.contains "rate" error_msg
      then "⚠️ API rate limit reached. Please wait a moment and try again."
      else if PyStr.contains "safety" error_msg
      then "⚠️ Content filtered. Please rephrase your request."
      else "⚠️ Error: " ++ e
  end.

End Generation.

(** *** The inputs and panels of the four modes *)

(** The cities of the comparison box, one per line, and the warning shown
    under the box. *)
Definition compared_cities (cities_input : string)
  : list string * option string :=
  let cities :=
    PyStr.strip <$>
      List.filter (fun c => PyStr.truthy (PyStr.strip c))
        (PyStr.split (ascii_of_nat 10) cities_input) in
  if (length cities <? 2)%nat then (cities, Some "Enter at least 2 cities")
  else if (4 <? length cities)%nat then (take 4 cities, Some "Max 4 cities")
  else (cities, None).

(** [min(xs)] and [max(xs)] on numbers: the first smallest and the first
    largest entry, a ValueError on an empty list. *)
Definition py_min (xs : list number) : Outcome number :=
  match xs with
  | [] => Raise (ValueError "min() arg is an empty sequence")
  | x :: rest =>
      Return (fold_left
                (fun best y => if Qlt_le_dec y best then y else best) rest x)
  end.

Definition py_max (xs : list number) : Outcome number :=
  match xs with
  | [] => Raise (ValueError "max() arg is an empty sequence")
  | x :: rest =>
      Return (fold_left
                (fun best y => if Qlt_le_dec best y then y else best) rest x)
  end.

(** The two ends of the "Temp Range" metric of the packing mode. *)
Definition packing_temp_range (weather_context : Processed)
  : Outcome (number * number) :=
  let temps :=
    ((temp_max <$> forecast weather_context)
     ++ (temp_min <$> forecast weather_context))%list in
  low ← py_min temps;
  high ← py_max temps;
  Return (low, high).

End WeatherInsights.

(** ** Page 3: Weather Chatbot *)
Module WeatherChatbot.

(** The table inside [fetch_weather_for_chatbot]. *)
Definition weather_codes : gmap Z string :=
  list_to_map [
    (0, "Clear sky"); (1, "Mainly clear"); (2, "Partly cloudy"); (3, "Overcast");
    (45, "Foggy"); (61, "Rain"); (63, "Rain"); (65, "Heavy rain");
    (71, "Snow"); (73, "Snow"); (75, "Heavy snow"); (95, "Thunderstorm")
  ]%Z.

(** [weather_codes.get(code, "Unknown")], as both uses in
    [fetch_weather_for_chatbot] read the table. *)
Definition weather_desc (code : Z) : string :=
  default "Unknown" (weather_codes !! code).

Section Chat.

Context {WeatherInfo : Type}.
Variable json_dumps : WeatherInfo -> string.

(** [chat.send_message] of the session's chat handle. *)
Variable send_message : string -> LlmResult.

(** The text sent to the chat: the message alone, or the message under
    the weather data. A [weather_data] that is given is the non-empty dict
    built by [fetch_weather_for_chatbot]. *)
Definition chat_context (user_message : string)
    (weather_data : option WeatherInfo) : string :=
  match weather_data with
  | Some info =>
      nl ++
      "CURRENT WEATHER DATA:" ++ nl ++
      json_dumps info ++ nl ++
      nl ++
      "USER MESSAGE: " ++ user_message ++ nl ++
      nl ++
      "Provide a helpful response using the weather data. Be specific with actual numbers." ++ nl
  | None => user_message
  end.

(** [get_chatbot_response(chat, user_message, weather_data)] *)
Definition get_chatbot_response (user_message : string)
    (weather_data : option WeatherInfo) : string :=
  let context := chat_context user_message weather_data in
  match send_message context with
  | Generated text => text
  | LlmFailed e =>
      let error_str := PyStr.lower e in
      if PyStr.contains "quota" error_str
         || PyStr.contains "resource_exhausted" error_str
      then "⚠️ Rate limit reached. Please wait and try again."
      else if PyStr.contains "rate" error_str || PyStr.contains "429" error_str
      then "⚠️ Too many requests. Please slow down."
      else if PyStr.contains "safety" error_str
              || PyStr.contains "blocked" error_str
      then "⚠️ Content filtered. Please rephrase."
      else if PyStr.contains "invalid" error_str
              || PyStr.contains "api_key" error_str
      then "⚠️ API configuration issue."
      else "⚠️ Error: " ++ e ++ nl ++ nl ++ "Please try rephrasing!"
  end.

End Chat.

Definition patterns : list string := [
  "weather in ";
  "weather for ";
  "forecast for ";
  "forecast in ";
  "temperature in ";
  "how's the weather in ";
  "what's the weather like in "
].

(** [rest.split('?')[0].split(',')[0].split('.')[0]] *)
Definition cut_at_delimiters (rest : string) : string :=
  PyStr.split_head "." (PyStr.split_head "," (PyStr.split_head "?" rest)).

(** The city read after an occurrence of a pattern that starts at [idx]. *)
Definition city_after (message pattern : string) (idx : nat) : string :=
  let start_idx := idx + String.length pattern in
  let rest := PyStr.strip (PyStr.slice_from start_idx message) in
  PyStr.strip (cut_at_delimiters rest).

(** The loop of [extract_city_from_message] over the patterns left to
    try; [pattern in message_lower] holds exactly when [find] is not -1. *)
Fixpoint extract_city_loop (message message_lower : string)
    (todo : list string) : option string :=
  match todo with
  | [] => None
  | pattern :: later =>
      match PyStr.find pattern message_lower with
      | Some idx =>
          let city := city_after message pattern idx in
          if PyStr.truthy city then Some city
          else extract_city_loop message message_lower later
      | None => extract_city_loop message message_lower later
      end
  end.

(** [extract_city_from_message(message)] *)
Definition extract_city_from_message (message : string) : option string :=
  let message_lower := PyStr.lower message in
  extract_city_loop message message_lower patterns.

(** *** Fetching the weather for the chat *)

(** The body of the chatbot's forecast request. A block that is present
    carries every field the request names; the value of a field and an
    entry of an array may be JSON's [null], which [json()] decodes to
    Python's [None]. *)
Record Current : Type := {
  current_temperature_2m : option number;
  current_relative_humidity_2m : option number;
  current_apparent_temperature : option number;
  current_weather_code : option Z;
  current_wind_speed_10m : option number
}.

Record Hourly : Type := {
  hourly_time : list (option string);
  hourly_temperature_2m : list (option number);
  hourly_weather_code : list (option Z)
}.

Record ChatResponse : Type := {
  current : option Current;
  hourly : option Hourly
}.

(** The dict [weather_info] and the entries of its hourly list. *)
Record HourForecast : Type := {
  time : string;
  temp : number;
  hour_condition : string
}.

Record WeatherSnapshot : Type := {
  city : string;
  temperature : number;
  feels_like : number;
  condition : string;
  humidity : option number;
  wind_speed : number;
  forecast_next_hours : list HourForecast
}.

(** [weather_codes.get(value, "Unknown")] on a decoded value: [None] is
    no key of the table. *)
Definition weather_desc_of (value : option Z) : string :=
  match value with
  | Some code => weather_desc code
  | None => "Unknown"
  end.

(** What the geocoder does with a name. *)
Inductive Geocoded : Type :=
  | Located (latitude longitude : number)
  | NotLocated
  | GeocoderError.

Section Fetch.

Variable geocode : string -> Geocoded.
Variable requests_get : WeatherAnalysis.Request -> HttpResult ChatResponse.
Variable round1 : number -> number.
Context {Datetime : Type}.
Variable fromisoformat : string -> Outcome Datetime.
Variable strftime : Datetime -> string -> string.

(** [get_coordinates(city_name)] of this page *)
Definition get_coordinates (city_name : string) : option (number * number) :=
  match geocode city_name with
  | Located latitude longitude => Some (latitude, longitude)
  | NotLocated => None
  | GeocoderError => None
  end.

(** [round(value, 1)] on a decoded value: [None] cannot be rounded. *)
Definition round_value (value : option number) : Outcome number :=
  match value with
  | Some reading => Return (round1 reading)
  | None => Raise (TypeError "type NoneType doesn't define __round__ method")
  end.

(** [datetime.fromisoformat(value)] on a decoded value. *)
Definition parse_time (value : option string) : Outcome Datetime :=
  match value with
  | Some stamp => fromisoformat stamp
  | None => Raise (TypeError "fromisoformat: argument must be str")
  end.

(** The body of the loop over the next hours at index [i]. *)
Definition hour_forecast (hourly : Hourly) (i : nat) : Outcome HourForecast :=
  stamp ← index_list (hourly_time hourly) i;
  parsed ← parse_time stamp;
  reading ← index_list (hourly_temperature_2m hourly) i;
  rounded ← round_value reading;
  code ← index_list (hourly_weather_code hourly) i;
  Return {|
    time := strftime parsed "%H:%M";
    temp := rounded;
    hour_condition := weather_desc_of code
  |}.

(** What [fetch_weather_for_chatbot] makes of a response, before its
    [except] clause. *)
Definition weather_info_of (data : ChatResponse) (city : string)
  : Outcome WeatherSnapshot :=
  current ← getitem "current" (current data);
  temperature ← round_value (current_temperature_2m current);
  feels_like ← round_value (current_apparent_temperature current);
  wind_speed ← round_value (current_wind_speed_10m current);
  hourly ← getitem "hourly" (hourly data);
  hours ← for_each (hour_forecast hourly)
    (range (Z.min 24 (Z.of_nat (length (hourly_time hourly)))));
  Return {|
    city := city;
    temperature := temperature;
    feels_like := feels_like;
    condition := weather_desc_of (current_weather_code current);
    humidity := current_relative_humidity_2m current;
    wind_speed := wind_speed;
    forecast_next_hours := hours
  |}.

(** The request [fetch_weather_for_chatbot] sends for a position. *)
Definition chat_request (lat lon : number) : WeatherAnalysis.Request := {|
  WeatherAnalysis.url := "https://api.open-meteo.com/v1/forecast";
  WeatherAnalysis.params := [
    ("latitude", WeatherAnalysis.PNumber lat);
    ("longitude", WeatherAnalysis.PNumber lon);
    ("current", WeatherAnalysis.PText "temperature_2m,relative_humidity_2m,apparent_temperature,weather_code,wind_speed_10m");
    ("hourly", WeatherAnalysis.PText "temperature_2m,weather_code");
    ("temperature_unit", WeatherAnalysis.PText "celsius");
    ("forecast_days", WeatherAnalysis.PInt 3)
  ];
  WeatherAnalysis.timeout := 10
|}.

(** [fetch_weather_for_chatbot(city)]: every exception becomes [None]. *)
Definition fetch_weather_for_chatbot (city : string) : option WeatherSnapshot :=
  match get_coordinates city with
  | None => None
  | Some (lat, lon) =>
      match requests_get (chat_request lat lon) with
      | RequestException _ => None
      | HttpOk data =>
          match weather_info_of data city with
          | Return weather_info => Some weather_info
          | Raise _ => None
          end
      end
  end.

End Fetch.

(** *** The chat page *)

Record Message : Type := {
  role : string;
  content : string
}.

Definition quote : string := String (ascii_of_nat 34) EmptyString.

Definition welcome : string :=
  "👋 Hello! I'm your Weather Assistant!" ++ nl ++
  nl ++
  "I can help you with:" ++ nl ++
  "- 🌍 Real-time weather for any city (FREE!)" ++ nl ++
  "- 📊 Weather forecasts and trends" ++ nl ++
  "- ✈️ Travel planning advice" ++ nl ++
  "- 🎒 Activity recommendations" ++ nl ++
  "- 🧳 Packing suggestions" ++ nl ++
  "- ☔ Weather explanations" ++ nl ++
  nl ++
  "Just ask me anything! For example:" ++ nl ++
  "- " ++ quote ++ "What's the weather in Paris?" ++ quote ++ nl ++
  "- " ++ quote ++ "Should I bring an umbrella to London?" ++ quote ++ nl ++
  "- " ++ quote ++ "Compare weather in Tokyo and Seoul" ++ quote ++ nl ++
  nl ++
  "How can I help you today?".

Definition quick_options : list string :=
  "Choose city..." :: ["New York"; "London"; "Tokyo"; "Paris"; "Sydney"].

Definition suggestions : list string := [
  "Weather in Atlanta?";
  "Bring a jacket to Seattle?";
  "Best cities this week?";
  "What is humidity?";
  "Tips for hot weather"
].

Section Page.

(** The chat handle and the model object of the LLM client. *)
Context {ChatHandle Model Datetime : Type}.

(** The four keys of the session this page keeps. *)
Record ChatState : Type := {
  chat_messages : list Message;
  chat_session : option ChatHandle;
  chat_model : option Model;
  chatbot_initialized : bool
}.

(** The session as the page sets it up when the keys are not there. *)
Definition fresh_state : ChatState := {|
  chat_messages := [];
  chat_session := None;
  chat_model := None;
  chatbot_initialized := false
|}.

(** The world around one run of the script: the LLM key of the secrets
    ([None] when it is missing), the LLM client, the geocoder, the weather
    API and the library calls. *)
Record Services : Type := {
  gemini_key : option string;
  initialize_chatbot : string -> option (ChatHandle * Model);
  send_message : ChatHandle -> string -> LlmResult;
  json_dumps : WeatherSnapshot -> string;
  geocode : string -> Geocoded;
  requests_get : WeatherAnalysis.Request -> HttpResult ChatResponse;
  round1 : number -> number;
  fromisoformat : string -> Outcome Datetime;
  strftime : Datetime -> string -> string
}.

(** What the user did to start a run: nothing (a rerun), a message in the
    chat box, or one of the buttons of the sidebar, the quick fetch with
    the option selected and a suggestion by its position. *)
Inductive Event : Type :=
  | NoEvent
  | Prompt (text : string)
  | ClearChat
  | QuickFetch (selected : nat)
  | Suggestion (position : nat).

(** [chat.send_message] on the handle of the session, which is [None]
    until the chatbot was initialized once. *)
Definition send_to_session (services : Services)
    (session : option ChatHandle) (context : string) : LlmResult :=
  match session with
  | Some chat => send_message services chat context
  | None => LlmFailed "'NoneType' object has no attribute 'send_message'"
  end.

Definition append_message (state : ChatState) (role content : string)
  : ChatState := {|
  chat_messages := chat_messages state ++ [{| role := role; content := content |}];
  chat_session := chat_session state;
  chat_model := chat_model state;
  chatbot_initialized := chatbot_initialized state
|}.

(** The initialization block at the top of the page. *)
Definition initialize (services : Services) (key : string)
    (state : ChatState) : ChatState :=
  if chatbot_initialized state then state
  else
    match initialize_chatbot services key with
    | Some (chat, model) => {|
        chat_messages :=
          chat_messages state ++ [{| role := "assistant"; content := welcome |}];
        chat_session := Some chat;
        chat_model := Some model;
        chatbot_initialized := true
      |}
    | None => state
    end.

(** The weather looked up for a message, when a city is read in it. *)
Definition weather_for (services : Services) (prompt : string)
  : option WeatherSnapshot :=
  match extract_city_from_message prompt with
  | Some city =>
      fetch_weather_for_chatbot (geocode services) (requests_get services)
        (round1 services) (fromisoformat services) (strftime services) city
  | None => None
  end.

(** The block under the chat box, for a message that was typed. *)
Definition answer (services : Services) (prompt : string)
    (state : ChatState) : ChatState :=
  let asked := append_message state "user" prompt in
  let weather_data := weather_for services prompt in
  let response :=
    get_chatbot_response (json_dumps services)
      (send_to_session services (chat_session asked)) prompt weather_data in
  append_message asked "assistant" response.

(** One pass of the script over the session, and whether it ended in
    [st.rerun()]. What is drawn on the way is left out. *)
Definition script_pass (services : Services) (event : Event)
    (state : ChatState) : ChatState * bool :=
  match gemini_key services with
  | None => (state, false)
  | Some key =>
      if negb (PyStr.truthy key) then (state, false)
      else
        let ready := initialize services key state in
        let answered :=
          match event with
          | Prompt text =>
              if PyStr.truthy text then answer services text ready else ready
          | _ => ready
          end in
        match event with
        | ClearChat =>
            ({| chat_messages := [];
                chat_session := chat_session answered;
                chat_model := chat_model answered;
                chatbot_initialized := false |}, true)
        | QuickFetch selected =>
            match quick_options !! selected with
            | Some option =>
                if negb (String.eqb option "Choose city...") then
                  (append_message answered "user"
                     ("What's the current weather in " ++ option ++ "?"), true)
                else (answered, false)
            | None => (answered, false)
            end
        | Suggestion position =>
            match suggestions !! position with
            | Some suggestion => (append_message answered "user" suggestion, true)
            | None => (answered, false)
            end
        | _ => (answered, false)
        end
  end.

(** A run of the page for an event: the pass the event starts and, when
    that pass asks for it, the rerun that follows. *)
Definition run (services : Services) (event : Event) (state : ChatState)
  : ChatState :=
  let '(after, rerun) := script_pass services event state in
  if rerun then (script_pass services NoEvent after).1 else after.

(** The two numbers of the "Chat Stats" block. *)
Definition num_messages (state : ChatState) : nat :=
  length (chat_messages state).

Definition user_messages (state : ChatState) : nat :=
  length (List.filter (fun m => String.eqb (role m) "user")
            (chat_messages state)).

End Page.

Arguments ChatState ChatHandle Model : clear implicits.
Arguments Services ChatHandle Model Datetime : clear implicits.

End WeatherChatbot.

(** ** Stand-ins for the library calls

    Enough of pandas, [datetime] and [round] to run the helpers on sample
    responses: a timestamp is kept as its ISO text, and rounding is decimal
    rounding to one place, ties to even. *)
Module Fixtures.

Definition to_datetime (text : string) : Outcome string :=
  if (String.length text =? 16)%nat then Return text
  else Raise (ValueError text).

Definition fromisoformat (text : string) : Outcome string :=
  if (String.length text =? 10)%nat then Return text
  else Raise (ValueError text).

Definition strftime (stamp : string) (format : string) : string :=
  if String.eqb format "%Y-%m-%d" then String.substring 0 10 stamp
  else if String.eqb format "%H:%M" then String.substring 11 5 stamp
  else stamp.

Definition round1 (x : number) : number :=
  let scaled := (Qnum x * 10)%Z in
  let den := Z.pos (Qden x) in
  let quotient := (scaled / den)%Z in
  let twice := (2 * (scaled mod den))%Z in
  let rounded :=
    if (twice <? den)%Z then quotient
    else if (den <? twice)%Z then (quotient + 1)%Z
    else if Z.even quotient then quotient else (quotient + 1)%Z in
  Qmake rounded 10.

(** Two hours of forecast: overcast, then clear. *)
Definition two_hours : WeatherAnalysis.Hourly := {|
  WeatherAnalysis.hourly_time := ["2024-05-01T00:00"; "2024-05-01T01:00"];
  WeatherAnalysis.hourly_temperature_2m := [(18.4)%Q; (17.9)%Q];
  WeatherAnalysis.hourly_relative_humidity_2m := [(71)%Q; (74)%Q];
  WeatherAnalysis.hourly_apparent_temperature := [(18.1)%Q; (17.5)%Q];
  WeatherAnalysis.hourly_precipitation_probability := [(10)%Q; (5)%Q];
  WeatherAnalysis.hourly_weather_code := [3; 0]%Z;
  WeatherAnalysis.hourly_cloud_cover := [(100)%Q; (12)%Q];
  WeatherAnalysis.hourly_wind_speed_10m := [(9.3)%Q; (8.8)%Q]
|}.

Definition forecast_response : WeatherAnalysis.WeatherResponse := {|
  WeatherAnalysis.latitude := Some (33.75)%Q;
  WeatherAnalysis.longitude := Some (-84.39)%Q;
  WeatherAnalysis.timezone := Some "America/New_York";
  WeatherAnalysis.current := None;
  WeatherAnalysis.hourly := Some two_hours;
  WeatherAnalysis.daily := None
|}.

(** A response with the [daily] block only. *)
Definition response_without_hourly : WeatherAnalysis.WeatherResponse := {|
  WeatherAnalysis.latitude := Some (33.75)%Q;
  WeatherAnalysis.longitude := Some (-84.39)%Q;
  WeatherAnalysis.timezone := Some "America/New_York";
  WeatherAnalysis.current := None;
  WeatherAnalysis.hourly := None;
  WeatherAnalysis.daily := Some {|
    WeatherAnalysis.daily_time := [];
    WeatherAnalysis.daily_weather_code := [];
    WeatherAnalysis.daily_temperature_2m_max := [];
    WeatherAnalysis.daily_temperature_2m_min := [];
    WeatherAnalysis.daily_precipitation_sum := [];
    WeatherAnalysis.daily_wind_speed_10m_max := []
  |}
|}.

(** The two rows [process_hourly_forecast] makes of [two_hours]. *)
Definition two_rows : WeatherAnalysis.DataFrame string :=
  match WeatherAnalysis.process_hourly_forecast to_datetime strftime
          (Some forecast_response) 1 with
  | Return (Some rows) => rows
  | _ => []
  end.

(** A response of the insights page with two days of forecast. *)
Definition insights_response : WeatherInsights.WeatherData := {|
  WeatherInsights.current := Some {|
    WeatherInsights.current_temperature_2m := (21.37)%Q;
    WeatherInsights.current_relative_humidity_2m := (64)%Q;
    WeatherInsights.current_apparent_temperature := (20.84)%Q;
    WeatherInsights.current_weather_code := 0;
    WeatherInsights.current_wind_speed_10m := (11.52)%Q
  |};
  WeatherInsights.daily := Some {|
    WeatherInsights.daily_time := ["2024-05-01"; "2024-05-02"];
    WeatherInsights.daily_weather_code := [61; 3]%Z;
    WeatherInsights.daily_temperature_2m_max := [(24.31)%Q; (22.08)%Q];
    WeatherInsights.daily_temperature_2m_min := [(14.76)%Q; (13.12)%Q];
    WeatherInsights.daily_precipitation_sum := [(2.44)%Q; (0)%Q];
    WeatherInsights.daily_wind_speed_10m_max := [(17.63)%Q; (12.91)%Q]
  |}
|}.

(** A weather API that is down, and one that answers every request. *)
Definition api_down (request : WeatherAnalysis.Request)
  : HttpResult WeatherAnalysis.WeatherResponse :=
  RequestException "HTTPSConnectionPool: Read timed out.".

Definition api_up (request : WeatherAnalysis.Request)
  : HttpResult WeatherAnalysis.WeatherResponse :=
  HttpOk forecast_response.

Definition no_geocoder (key query : string)
  : option (list WeatherAnalysis.Coordinates) := None.

Definition atlanta_inputs : WeatherAnalysis.Inputs := {|
  WeatherAnalysis.city_input := "Atlanta";
  WeatherAnalysis.temp_unit_display := "Celsius (°C)";
  WeatherAnalysis.forecast_days := 3
|}.

(** A session that holds an earlier fetch. *)
Definition earlier_session : gmap string WeatherAnalysis.SessionValue :=
  <["current_weather" := WeatherAnalysis.SResponse forecast_response]>
    (<["forecast_data" := WeatherAnalysis.SResponse forecast_response]>
       (<["location" := WeatherAnalysis.SText "Paris, France"]> ∅)).

(** A response to the chatbot's request with two hours of forecast, a
    geocoder that knows Tokyo and a weather API that answers with it. The
    humidity and the code of the second hour are [null]. *)
Definition chat_response : WeatherChatbot.ChatResponse := {|
  WeatherChatbot.current := Some {|
    WeatherChatbot.current_temperature_2m := Some (19.46)%Q;
    WeatherChatbot.current_relative_humidity_2m := None;
    WeatherChatbot.current_apparent_temperature := Some (18.92)%Q;
    WeatherChatbot.current_weather_code := Some 2%Z;
    WeatherChatbot.current_wind_speed_10m := Some (7.25)%Q
  |};
  WeatherChatbot.hourly := Some {|
    WeatherChatbot.hourly_time :=
      [Some "2024-05-01T00:00"; Some "2024-05-01T01:00"];
    WeatherChatbot.hourly_temperature_2m := [Some (19.46)%Q; Some (18.73)%Q];
    WeatherChatbot.hourly_weather_code := [Some 2%Z; None]
  |}
|}.

Definition tokyo_geocoder (name : string) : WeatherChatbot.Geocoded :=
  if String.eqb name "Tokyo"
  then WeatherChatbot.Located (35.6762)%Q (139.6503)%Q
  else WeatherChatbot.NotLocated.

Definition chat_api (request : WeatherAnalysis.Request)
  : HttpResult WeatherChatbot.ChatResponse :=
  HttpOk chat_response.

(** A chat page whose LLM client cannot be initialized, and one whose
    client answers every message with the same sentence. *)
Definition services_without_llm : WeatherChatbot.Services unit unit string := {|
  WeatherChatbot.gemini_key := Some "key";
  WeatherChatbot.initialize_chatbot := fun _ => None;
  WeatherChatbot.send_message := fun _ _ => Generated "It is sunny.";
  WeatherChatbot.json_dumps := fun info => WeatherChatbot.city info;
  WeatherChatbot.geocode := tokyo_geocoder;
  WeatherChatbot.requests_get := chat_api;
  WeatherChatbot.round1 := round1;
  WeatherChatbot.fromisoformat := to_datetime;
  WeatherChatbot.strftime := strftime
|}.

Definition services_with_llm : WeatherChatbot.Services unit unit string := {|
  WeatherChatbot.gemini_key := Some "key";
  WeatherChatbot.initialize_chatbot := fun _ => Some (tt, tt);
  WeatherChatbot.send_message := fun _ _ => Generated "It is sunny.";
  WeatherChatbot.json_dumps := fun info => WeatherChatbot.city info;
  WeatherChatbot.geocode := tokyo_geocoder;
  WeatherChatbot.requests_get := chat_api;
  WeatherChatbot.round1 := round1;
  WeatherChatbot.fromisoformat := to_datetime;
  WeatherChatbot.strftime := strftime
|}.

(** Three hours of forecast, two of them overcast, and their rows. *)
Definition three_hours : WeatherAnalysis.Hourly := {|
  WeatherAnalysis.hourly_time :=
    ["2024-05-01T00:00"; "2024-05-01T01:00"; "2024-05-01T02:00"];
  WeatherAnalysis.hourly_temperature_2m := [(18.4)%Q; (17.9)%Q; (17.2)%Q];
  WeatherAnalysis.hourly_relative_humidity_2m := [(71)%Q; (74)%Q; (78)%Q];
  WeatherAnalysis.hourly_apparent_temperature := [(18.1)%Q; (17.5)%Q; (16.8)%Q];
  WeatherAnalysis.hourly_precipitation_probability := [(10)%Q; (5)%Q; (15)%Q];
  WeatherAnalysis.hourly_weather_code := [3; 0; 3]%Z;
  WeatherAnalysis.hourly_cloud_cover := [(100)%Q; (12)%Q; (96)%Q];
  WeatherAnalysis.hourly_wind_speed_10m := [(9.3)%Q; (8.8)%Q; (8.1)%Q]
|}.

Definition three_rows : WeatherAnalysis.DataFrame string :=
  match for_each (WeatherAnalysis.hourly_row to_datetime strftime three_hours)
          (range 3) with
  | Return rows => rows
  | Raise _ => []
  end.

(** A sort of the counts, largest first. *)
Definition by_count_descending (earlier later : string * nat) : Prop :=
  (later.2 ≤ earlier.2)%nat.

#[global] Instance by_count_descending_dec : RelDecision by_count_descending.
Proof. intros earlier later. unfold by_count_descending. apply _. Defined.

Definition sort_counts (counts : list (string * nat)) : list (string * nat) :=
  merge_sort by_count_descending counts.

End Fixtures.

(** ** The properties, as predicates on the embedding *)
Module Spec.

(** A call returns, that is, it does not raise. *)
Definition returns {A : Type} (o : Outcome A) : Prop := ∃ a, o = Return a.

(** *** Hourly forecast *)

(** A well-formed [hourly] block: every field array has at least as many
    entries as [time], and every entry of [time] is a timestamp pandas
    reads. *)
Definition well_formed_hourly {Timestamp : Type}
    (to_datetime : string -> Outcome Timestamp)
    (h : WeatherAnalysis.Hourly) : Prop :=
  let n := length (WeatherAnalysis.hourly_time h) in
  (n ≤ length (WeatherAnalysis.hourly_temperature_2m h))%nat
  ∧ (n ≤ length (WeatherAnalysis.hourly_relative_humidity_2m h))%nat
  ∧ (n ≤ length (WeatherAnalysis.hourly_apparent_temperature h))%nat
  ∧ (n ≤ length (WeatherAnalysis.hourly_precipitation_probability h))%nat
  ∧ (n ≤ length (WeatherAnalysis.hourly_weather_code h))%nat
  ∧ (n ≤ length (WeatherAnalysis.hourly_cloud_cover h))%nat
  ∧ (n ≤ length (WeatherAnalysis.hourly_wind_speed_10m h))%nat
  ∧ Forall (fun stamp => returns (to_datetime stamp))
      (WeatherAnalysis.hourly_time h).

(** Row [i] of the DataFrame is entry [i] of the block. *)
Definition row_of_hour {Timestamp : Type}
    (to_datetime : string -> Outcome Timestamp)
    (h : WeatherAnalysis.Hourly) (i : nat)
    (row : WeatherAnalysis.HourlyRow Timestamp) : Prop :=
  (stamp ← index_list (WeatherAnalysis.hourly_time h) i; to_datetime stamp)
    = Return (WeatherAnalysis.row_datetime row)
  ∧ WeatherAnalysis.hourly_temperature_2m h !! i
      = Some (WeatherAnalysis.row_temperature row)
  ∧ WeatherAnalysis.hourly_apparent_temperature h !! i
      = Some (WeatherAnalysis.row_feels_like row)
  ∧ WeatherAnalysis.hourly_relative_humidity_2m h !! i
      = Some (WeatherAnalysis.row_humidity row)
  ∧ WeatherAnalysis.hourly_precipitation_probability h !! i
      = Some (WeatherAnalysis.row_precipitation_prob row)
  ∧ WeatherAnalysis.hourly_wind_speed_10m h !! i
      = Some (WeatherAnalysis.row_wind_speed row)
  ∧ WeatherAnalysis.hourly_cloud_cover h !! i
      = Some (WeatherAnalysis.row_clouds row)
  ∧ WeatherAnalysis.hourly_weather_code h !! i
      = Some (WeatherAnalysis.row_weather_code row).

(** The input has no [hourly] block: it is [None], or a dict (empty or
    not) without the key. *)
Definition lacks_hourly (forecast_data : option WeatherAnalysis.WeatherResponse)
  : Prop :=
  match forecast_data with
  | None => True
  | Some body => WeatherAnalysis.hourly body = None
  end.

(** *** Mode *)

(** The first value of [todo] whose count in [column] is [highest]. *)
Fixpoint first_with_count (column : list string) (highest : nat)
    (todo : list string) : option string :=
  match todo with
  | [] => None
  | value :: later =>
      if decide (WeatherAnalysis.value_count column value = highest)
      then Some value
      else first_with_count column highest later
  end.

(** The mode as the specification words it: the most frequent value, ties
    broken by the value met first in iteration order. *)
Definition mode_first_encountered (column : list string) : option string :=
  first_with_count column
    (max_list (WeatherAnalysis.value_count column <$> column)) column.

Definition mode_breaks_ties_by_first_encounter {Timestamp : Type}
    (df : WeatherAnalysis.DataFrame Timestamp) : Prop :=
  ∃ value,
    mode_first_encountered (WeatherAnalysis.row_weather_desc <$> df) = Some value
    ∧ WeatherAnalysis.most_common_weather df = Return value.

(** *** The three code tables *)

Definition tables_agree (code : Z) : Prop :=
  (WeatherAnalysis.get_weather_description code).1
    = WeatherInsights.get_weather_description code
  ∧ WeatherInsights.get_weather_description code
    = WeatherChatbot.weather_desc code.

(** The codes on which the three tables hold the same label. *)
Definition common_codes : list Z := [0; 1; 2; 3; 45; 65; 75; 95]%Z.

(** *** City extraction *)

(** The three characters the city is cut at. *)
Definition is_delimiter (c : ascii) : bool :=
  Ascii.eqb c "?" || Ascii.eqb c "," || Ascii.eqb c ".".

(** [pattern] occurs in the lowercased message. *)
Definition has_lead_in (message : string) : Prop :=
  ∃ pattern, pattern ∈ WeatherChatbot.patterns
    ∧ PyStr.contains pattern (PyStr.lower message) = true.

(** [city] is the text that follows an occurrence of a lead-in phrase, cut
    at the first delimiter and stripped. *)
Definition follows_lead_in (message city : string) : Prop :=
  ∃ pattern idx, pattern ∈ WeatherChatbot.patterns
    ∧ PyStr.find pattern (PyStr.lower message) = Some idx
    ∧ city = PyStr.strip (WeatherChatbot.cut_at_delimiters
               (PyStr.slice_from (idx + String.length pattern) message)).

(** The claim as it is worded: a message with a lead-in phrase always
    yields the text that follows it. *)
Definition lead_in_always_yields_city (message : string) : Prop :=
  has_lead_in message →
  ∃ city, WeatherChatbot.extract_city_from_message message = Some city
    ∧ follows_lead_in message city.

(** A pattern gives no city: it does not occur, or nothing is left after
    its first occurrence once cut and stripped. *)
Definition gives_no_city (message pattern : string) : Prop :=
  match PyStr.find pattern (PyStr.lower message) with
  | Some idx => WeatherChatbot.city_after message pattern idx = ""
  | None => True
  end.

(** [city] is what the first pattern, in list order, that gives a city
    gives: the text after its first occurrence, cut at the first
    delimiter and stripped, which is not empty. *)
Definition first_yielding_lead_in (message city : string) : Prop :=
  ∃ earlier pattern later idx,
    WeatherChatbot.patterns = (earlier ++ pattern :: later)%list
    ∧ Forall (gives_no_city message) earlier
    ∧ PyStr.find pattern (PyStr.lower message) = Some idx
    ∧ city = PyStr.strip (WeatherChatbot.cut_at_delimiters
               (PyStr.slice_from (idx + String.length pattern) message))
    ∧ city ≠ "".

(** *** LLM failures *)

Definition rate_limit_messages : list string := [
  "⚠️ API rate limit reached. Please wait a moment and try again.";
  "⚠️ Rate limit reached. Please wait and try again.";
  "⚠️ Too many requests. Please slow down."
].

Definition content_filtered_messages : list string := [
  "⚠️ Content filtered. Please rephrase your request.";
  "⚠️ Content filtered. Please rephrase."
].

(** The lowercased error text contains one of [words]. *)
Definition mentions (words : list string) (error_text : string) : bool :=
  existsb (fun word => PyStr.contains word (PyStr.lower error_text)) words.

(** The classification as the specification words it, on an error text
    and the message returned for it. *)
Definition classified_as_specified (error_text message : string) : Prop :=
  if PyStr.contains "quota" error_text || PyStr.contains "rate" error_text
  then message ∈ rate_limit_messages
  else if PyStr.contains "safety" error_text
  then message ∈ content_filtered_messages
  else PyStr.contains error_text message = true.

(** *** The LLM context *)

(** A leaf of a JSON value. *)
Inductive Leaf : Type :=
  | LNumber (x : number)
  | LInteger (n : Z)
  | LText (text : string).

Definition source_leaves (weather_data : WeatherInsights.WeatherData)
  : list Leaf :=
  match WeatherInsights.current weather_data with
  | Some c =>
      [LNumber (WeatherInsights.current_temperature_2m c);
       LNumber (WeatherInsights.current_relative_humidity_2m c);
       LNumber (WeatherInsights.current_apparent_temperature c);
       LInteger (WeatherInsights.current_weather_code c);
       LNumber (WeatherInsights.current_wind_speed_10m c)]
  | None => []
  end ++
  match WeatherInsights.daily weather_data with
  | Some d =>
      (LText <$> WeatherInsights.daily_time d)
      ++ (LInteger <$> WeatherInsights.daily_weather_code d)
      ++ (LNumber <$> WeatherInsights.daily_temperature_2m_max d)
      ++ (LNumber <$> WeatherInsights.daily_temperature_2m_min d)
      ++ (LNumber <$> WeatherInsights.daily_precipitation_sum d)
      ++ (LNumber <$> WeatherInsights.daily_wind_speed_10m_max d)
  | None => []
  end.

Definition day_leaves (day : WeatherInsights.DailySummary) : list Leaf :=
  [LText (WeatherInsights.date day);
   LNumber (WeatherInsights.temp_max day);
   LNumber (WeatherInsights.temp_min day);
   LNumber (WeatherInsights.precipitation day);
   LNumber (WeatherInsights.wind_max day);
   LText (WeatherInsights.day_condition day)].

Definition context_leaves (processed : WeatherInsights.Processed) : list Leaf :=
  let now := WeatherInsights.current_summary processed in
  [LText (WeatherInsights.city processed);
   LNumber (WeatherInsights.temperature now);
   LNumber (WeatherInsights.feels_like now);
   LNumber (WeatherInsights.humidity now);
   LNumber (WeatherInsights.wind_speed now);
   LText (WeatherInsights.condition now)]
  ++ concat (day_leaves <$> WeatherInsights.forecast processed).

(** [leaf] appears in the source, possibly rounded. *)
Definition appears_in_source (round1 : number -> number)
    (weather_data : WeatherInsights.WeatherData) (leaf : Leaf) : Prop :=
  leaf ∈ source_leaves weather_data
  ∨ ∃ x, LNumber x ∈ source_leaves weather_data ∧ leaf = LNumber (round1 x).

(** The claim as it is worded: every field of the context appears,
    possibly rounded, in the source. *)
Definition context_only_from_source (round1 : number -> number)
    (weather_data : WeatherInsights.WeatherData)
    (processed : WeatherInsights.Processed) : Prop :=
  ∀ leaf, leaf ∈ context_leaves processed →
    appears_in_source round1 weather_data leaf.

(** A well-formed response of the insights page: both blocks are there,
    every array of [daily] has at least as many entries as its [time], and
    every date is one [datetime.fromisoformat] reads. *)
Definition well_formed_daily {Datetime : Type}
    (fromisoformat : string -> Outcome Datetime)
    (d : WeatherInsights.Daily) : Prop :=
  let n := length (WeatherInsights.daily_time d) in
  (n ≤ length (WeatherInsights.daily_weather_code d))%nat
  ∧ (n ≤ length (WeatherInsights.daily_temperature_2m_max d))%nat
  ∧ (n ≤ length (WeatherInsights.daily_temperature_2m_min d))%nat
  ∧ (n ≤ length (WeatherInsights.daily_precipitation_sum d))%nat
  ∧ (n ≤ length (WeatherInsights.daily_wind_speed_10m_max d))%nat
  ∧ Forall (fun day => returns (fromisoformat day))
      (WeatherInsights.daily_time d).

(** Summary [i] of the context is day [i] of the block. *)
Definition summary_of_day {Datetime : Type} (round1 : number -> number)
    (fromisoformat : string -> Outcome Datetime)
    (strftime : Datetime -> string -> string)
    (d : WeatherInsights.Daily) (i : nat)
    (day : WeatherInsights.DailySummary) : Prop :=
  (text ← index_list (WeatherInsights.daily_time d) i;
   parsed ← fromisoformat text;
   Return (strftime parsed "%A, %B %d")) = Return (WeatherInsights.date day)
  ∧ round1 <$> WeatherInsights.daily_temperature_2m_max d !! i
      = Some (WeatherInsights.temp_max day)
  ∧ round1 <$> WeatherInsights.daily_temperature_2m_min d !! i
      = Some (WeatherInsights.temp_min day)
  ∧ round1 <$> WeatherInsights.daily_precipitation_sum d !! i
      = Some (WeatherInsights.precipitation day)
  ∧ round1 <$> WeatherInsights.daily_wind_speed_10m_max d !! i
      = Some (WeatherInsights.wind_max day)
  ∧ WeatherInsights.get_weather_description
      <$> WeatherInsights.daily_weather_code d !! i
      = Some (WeatherInsights.day_condition day).

End Spec.

(** ** Further predicates on the embedding *)
Module Behaviour.

(** A text made of whitespace only. *)
Fixpoint all_space (s : string) : bool :=
  match s with
  | EmptyString => true
  | String c rest => PyStr.isspace c && all_space rest
  end.

(** A text that starts and ends with a character that is not whitespace. *)
Definition trimmed (s : string) : Prop :=
  s ≠ "" ∧ PyStr.lstrip s = s ∧ PyStr.rstrip s = s.

(** The sessions the analysis page can be in: it starts without any of the
    keys of the fetch button (the other pages do not write them), and moves
    by clicks on the fetch button, whatever the services answer, and on the
    example buttons. *)
Inductive page_reachable : gmap string WeatherAnalysis.SessionValue → Prop :=
  | reach_start session_state :
      Forall (fun key => session_state !! key = None)
        WeatherAnalysis.fetch_keys →
      page_reachable session_state
  | reach_fetch session_state api_key opencage requests_get inputs :
      page_reachable session_state →
      page_reachable
        (WeatherAnalysis.fetch_button api_key opencage requests_get inputs
           session_state).1
  | reach_example session_state city :
      page_reachable session_state →
      WeatherAnalysis.results_displayed session_state = false →
      page_reachable (WeatherAnalysis.example_button city session_state).

(** The seven keys of one fetch, as they sit in the session together. *)
Definition holds_one_fetch
    (session_state : gmap string WeatherAnalysis.SessionValue) : Prop :=
  ∃ current_body forecast_body location city symbol wind days,
    session_state !! "current_weather"
      = Some (WeatherAnalysis.SResponse current_body)
    ∧ session_state !! "forecast_data"
      = Some (WeatherAnalysis.SResponse forecast_body)
    ∧ session_state !! "location" = Some (WeatherAnalysis.SText location)
    ∧ session_state !! "city_name" = Some (WeatherAnalysis.SText city)
    ∧ session_state !! "unit_symbol" = Some (WeatherAnalysis.SText symbol)
    ∧ session_state !! "wind_unit" = Some (WeatherAnalysis.SText wind)
    ∧ session_state !! "forecast_days" = Some (WeatherAnalysis.SInt days)
    ∧ WeatherAnalysis.dict_truthy current_body = true
    ∧ WeatherAnalysis.dict_truthy forecast_body = true
    ∧ (symbol = "°C" ∧ wind = "km/h" ∨ symbol = "°F" ∧ wind = "mph").

(** Entry [i] of an hourly block is complete: every array has it and the
    timestamp is one pandas reads. *)
Definition hour_complete {Timestamp : Type}
    (to_datetime : string → Outcome Timestamp)
    (h : WeatherAnalysis.Hourly) (i : nat) : Prop :=
  (∃ stamp, WeatherAnalysis.hourly_time h !! i = Some stamp
            ∧ Spec.returns (to_datetime stamp))
  ∧ is_Some (WeatherAnalysis.hourly_temperature_2m h !! i)
  ∧ is_Some (WeatherAnalysis.hourly_relative_humidity_2m h !! i)
  ∧ is_Some (WeatherAnalysis.hourly_apparent_temperature h !! i)
  ∧ is_Some (WeatherAnalysis.hourly_precipitation_probability h !! i)
  ∧ is_Some (WeatherAnalysis.hourly_weather_code h !! i)
  ∧ is_Some (WeatherAnalysis.hourly_cloud_cover h !! i)
  ∧ is_Some (WeatherAnalysis.hourly_wind_speed_10m h !! i).

(** What a row shows beside its numbers is derived from the row itself. *)
Definition row_consistent {Timestamp : Type}
    (strftime : Timestamp → string → string)
    (row : WeatherAnalysis.HourlyRow Timestamp) : Prop :=
  (WeatherAnalysis.row_weather_desc row, WeatherAnalysis.row_weather_emoji row)
    = WeatherAnalysis.get_weather_description
        (WeatherAnalysis.row_weather_code row)
  ∧ WeatherAnalysis.row_date row
    = strftime (WeatherAnalysis.row_datetime row) "%Y-%m-%d"
  ∧ WeatherAnalysis.row_time row
    = strftime (WeatherAnalysis.row_datetime row) "%H:%M".

(** Day [i] of a daily block is complete: every array has it and the date
    is one [datetime.fromisoformat] reads. *)
Definition day_complete {Datetime : Type}
    (fromisoformat : string → Outcome Datetime)
    (d : WeatherInsights.Daily) (i : nat) : Prop :=
  (∃ day, WeatherInsights.daily_time d !! i = Some day
          ∧ Spec.returns (fromisoformat day))
  ∧ is_Some (WeatherInsights.daily_temperature_2m_max d !! i)
  ∧ is_Some (WeatherInsights.daily_temperature_2m_min d !! i)
  ∧ is_Some (WeatherInsights.daily_precipitation_sum d !! i)
  ∧ is_Some (WeatherInsights.daily_wind_speed_10m_max d !! i)
  ∧ is_Some (WeatherInsights.daily_weather_code d !! i).

(** The character [c] does not occur in the text. *)
Fixpoint lacks (c : ascii) (s : string) : bool :=
  match s with
  | EmptyString => true
  | String d rest => negb (Ascii.eqb d c) && lacks c rest
  end.

(** None of the three delimiters occurs in the text. *)
Fixpoint lacks_delimiters (s : string) : bool :=
  match s with
  | EmptyString => true
  | String c rest => negb (Spec.is_delimiter c) && lacks_delimiters rest
  end.

(** The three readings of the current block that the chatbot rounds are
    numbers, not [null]. *)
Definition chat_current_complete (c : WeatherChatbot.Current) : Prop :=
  is_Some (WeatherChatbot.current_temperature_2m c)
  ∧ is_Some (WeatherChatbot.current_apparent_temperature c)
  ∧ is_Some (WeatherChatbot.current_wind_speed_10m c).

(** Hour [i] of the chatbot's hourly block is complete: every array has
    the index, the timestamp is a text [datetime.fromisoformat] reads and
    the temperature is a number. The weather code may be [null]. *)
Definition chat_hour_complete {Datetime : Type}
    (fromisoformat : string → Outcome Datetime)
    (h : WeatherChatbot.Hourly) (i : nat) : Prop :=
  (∃ stamp, WeatherChatbot.hourly_time h !! i = Some (Some stamp)
            ∧ Spec.returns (fromisoformat stamp))
  ∧ (∃ reading,
        WeatherChatbot.hourly_temperature_2m h !! i = Some (Some reading))
  ∧ is_Some (WeatherChatbot.hourly_weather_code h !! i).

(** The states of the chat page: the fresh session, and what runs of the
    page make of it, whatever the user does and the services answer. *)
Inductive chat_reachable {ChatHandle Model Datetime : Type}
  : WeatherChatbot.ChatState ChatHandle Model → Prop :=
  | chat_start : chat_reachable WeatherChatbot.fresh_state
  | chat_step state
      (services : WeatherChatbot.Services ChatHandle Model Datetime) event :
      chat_reachable state →
      chat_reachable (WeatherChatbot.run services event state).

(** The welcome message, as it sits in the transcript. *)
Definition welcome_message : WeatherChatbot.Message := {|
  WeatherChatbot.role := "assistant";
  WeatherChatbot.content := WeatherChatbot.welcome
|}.

(** What the documentation of pandas says of the sort inside
    [value_counts]: the same entries, the counts in descending order. *)
Definition sorts_counts_descending
    (sort_counts : list (string * nat) → list (string * nat)) : Prop :=
  ∀ counts,
    sort_counts counts ≡ₚ counts
    ∧ Sorted (fun earlier later => later.2 ≤ earlier.2)%nat (sort_counts counts).

(** The icon of the first row with a condition. *)
Definition first_emoji {Timestamp : Type}
    (df : WeatherAnalysis.DataFrame Timestamp) (condition : string) : string :=
  default ""
    (WeatherAnalysis.row_weather_emoji <$>
       head (List.filter
               (fun row => String.eqb (WeatherAnalysis.row_weather_desc row)
                             condition)
               df)).

(** The page takes the chatbot for initialized only with a chat handle in
    the session and the welcome message in the transcript. *)
Definition chat_ready {ChatHandle Model : Type}
    (state : WeatherChatbot.ChatState ChatHandle Model) : Prop :=
  WeatherChatbot.chatbot_initialized state = true →
  is_Some (WeatherChatbot.chat_session state)
  ∧ welcome_message ∈ WeatherChatbot.chat_messages state.

End Behaviour.

(** * Properties *)

Open Scope nat_scope.
Open Scope list_scope.

(** ** Helpers on the embedding *)

(** A dict literal with codes between 0 and 99 has no other key. *)
Lemma lookup_code_out_of_range {A : Type} (entries : list (Z * A)) (code : Z) :
  Forall (fun entry => (0 ≤ entry.1 ≤ 99)%Z) entries →
  ¬ (0 ≤ code ≤ 99)%Z →
  (list_to_map entries : gmap Z A) !! code = None.
Proof.
  intros Hkeys Hout. apply not_elem_of_list_to_map_1.
  intros Hin. apply list_elem_of_fmap in Hin as [[key value] [-> Hin]].
  rewrite Forall_forall in Hkeys. apply Hkeys in Hin. simpl in *. lia.
Qed.

Lemma analysis_code_out_of_range (code : Z) :
  ¬ (0 ≤ code ≤ 99)%Z → WeatherAnalysis.weather_codes !! code = None.
Proof.
  apply lookup_code_out_of_range. repeat constructor; simpl; lia.
Qed.

Lemma insights_code_out_of_range (code : Z) :
  ¬ (0 ≤ code ≤ 99)%Z → WeatherInsights.codes !! code = None.
Proof.
  apply lookup_code_out_of_range. repeat constructor; simpl; lia.
Qed.

Lemma chatbot_code_out_of_range (code : Z) :
  ¬ (0 ≤ code ≤ 99)%Z → WeatherChatbot.weather_codes !! code = None.
Proof.
  apply lookup_code_out_of_range. repeat constructor; simpl; lia.
Qed.

(** A decidable property of codes that holds on 0..99 by evaluation holds
    for every code in that range. *)
Lemma codes_in_range_by_evaluation (P : Z → Prop) `{∀ code, Decision (P code)} :
  bool_decide (Forall P (seqZ 0 100)) = true →
  ∀ code, (0 ≤ code ≤ 99)%Z → P code.
Proof.
  intros Hall code Hrange. apply bool_decide_eq_true_1 in Hall.
  rewrite Forall_forall in Hall. apply Hall, elem_of_seqZ. lia.
Qed.

(** Settles a goal on the codes 0..99 by running the tables. *)
Ltac by_evaluation_on_codes :=
  match goal with
  | |- ∀ code, _ → @?P code =>
      apply (codes_in_range_by_evaluation P); vm_compute; reflexivity
  end.

(** ** The WMO code table of the analysis page *)

(** The keys of the table are the 24 codes of its literal. *)
Lemma weather_codes_keys (code : Z) :
  is_Some (WeatherAnalysis.weather_codes !! code) ↔
  code ∈ [0; 1; 2; 3; 45; 48; 51; 53; 55; 61; 63; 65; 71; 73; 75; 77;
          80; 81; 82; 85; 86; 95; 96; 99]%Z.
Proof.
  destruct (decide (0 ≤ code ≤ 99)%Z) as [Hin | Hout].
  - revert code Hin. by_evaluation_on_codes.
  - rewrite analysis_code_out_of_range by done. split.
    + intros [? ?]. discriminate.
    + intros Hmem. exfalso. apply Hout.
      repeat (apply elem_of_cons in Hmem as [-> | Hmem]; [lia |]).
      by apply elem_of_nil in Hmem.
Qed.

(** C3: [get_weather_description] is a total function of the integer code:
    on a code of the WMO table it gives the stored (label, icon) pair, so
    that code 61 gives ("Slight rain", rain icon); on any other code, such
    as 9999, it gives the pair ("Unknown", thermometer). *)
Theorem get_weather_description_table :
  (∀ code entry,
      WeatherAnalysis.weather_codes !! code = Some entry →
      WeatherAnalysis.get_weather_description code = entry)
  ∧ WeatherAnalysis.get_weather_description 61 = ("Slight rain", "🌧️")
  ∧ (∀ code,
      WeatherAnalysis.weather_codes !! code = None →
      WeatherAnalysis.get_weather_description code = ("Unknown", "🌡️"))
  ∧ WeatherAnalysis.get_weather_description 9999 = ("Unknown", "🌡️").
Proof.
  unfold WeatherAnalysis.get_weather_description. repeat split.
  - intros code entry Hstored. by rewrite Hstored.
  - intros code Hmissing. by rewrite Hmissing.
Qed.

Lemma get_weather_description_table_witness :
  WeatherAnalysis.get_weather_description 95 = ("Thunderstorm", "⛈️")
  ∧ WeatherAnalysis.get_weather_description (-4) = ("Unknown", "🌡️").
Proof.
  split.
  - apply (proj1 get_weather_description_table 95%Z). reflexivity.
  - apply (proj1 (proj2 (proj2 get_weather_description_table)) (-4)%Z).
    reflexivity.
Defined.

(** ** The three code tables *)

#[local] Instance tables_agree_dec (code : Z) : Decision (Spec.tables_agree code).
Proof. unfold Spec.tables_agree. apply _. Defined.

(** C10, counterexample: code 53 is "Moderate drizzle" on the analysis
    page, "Drizzle" on the insights page and "Unknown" for the chatbot. *)
Lemma tables_disagree_on_53 : ¬ Spec.tables_agree 53.
Proof. intros [Hlabel _]. vm_compute in Hlabel. discriminate. Qed.

(** C10, amended: the three tables give the same label exactly on the
    codes 0, 1, 2, 3, 45, 65, 75, 95 and on the codes that are in none of
    them (where all three say "Unknown"). *)
Theorem tables_agree_exactly (code : Z) :
  Spec.tables_agree code ↔
  code ∈ Spec.common_codes ∨ WeatherAnalysis.weather_codes !! code = None.
Proof.
  destruct (decide (0 ≤ code ≤ 99)%Z) as [Hin | Hout].
  - revert code Hin. by_evaluation_on_codes.
  - split; [intros _; right; by apply analysis_code_out_of_range |].
    intros _. unfold Spec.tables_agree,
      WeatherAnalysis.get_weather_description,
      WeatherInsights.get_weather_description, WeatherChatbot.weather_desc.
    rewrite analysis_code_out_of_range, insights_code_out_of_range,
      chatbot_code_out_of_range by done.
    done.
Qed.

(** ** The static city table *)

(** C4: a query that, lowercased and stripped, is a key of the static city
    table resolves to the stored (latitude, longitude, display name)
    triple, with nothing shown on the page; "Atlanta" resolves to
    (33.7490, -84.3880, "Atlanta, Georgia, USA"), also through
    [get_coordinates] when no geocoding key is configured. *)
Theorem fallback_city_lookup_stored :
  (∀ query key entry,
      PyStr.strip (PyStr.lower query) = key →
      WeatherAnalysis.city_database !! key = Some entry →
      WeatherAnalysis.fallback_city_lookup query = (Some entry, []))
  ∧ WeatherAnalysis.fallback_city_lookup "Atlanta"
    = (Some ((33.7490)%Q, (-84.3880)%Q, "Atlanta, Georgia, USA"), [])
  ∧ (∀ opencage,
      WeatherAnalysis.get_coordinates "" opencage "Atlanta"
      = (Some ((33.7490)%Q, (-84.3880)%Q, "Atlanta, Georgia, USA"), [])).
Proof.
  split; [| split; [vm_compute; reflexivity | intros; vm_compute; reflexivity]].
  intros query key [[lat lon] formatted_name] Hnormal Hstored.
  unfold WeatherAnalysis.fallback_city_lookup. cbv zeta.
  rewrite Hnormal, Hstored. reflexivity.
Qed.

Lemma fallback_city_lookup_stored_witness :
  WeatherAnalysis.fallback_city_lookup "  New YORK "
  = (Some ((40.7128)%Q, (-74.0060)%Q, "New York, New York, USA"), []).
Proof.
  apply (proj1 fallback_city_lookup_stored "  New YORK " "new york").
  - vm_compute. reflexivity.
  - vm_compute. reflexivity.
Defined.

(** ** The fetch button *)

Section FetchButton.

Variable api_key : string.
Variable opencage : string → string → option (list WeatherAnalysis.Coordinates).
Variable requests_get :
  WeatherAnalysis.Request → HttpResult WeatherAnalysis.WeatherResponse.

#[local] Abbreviation get_coordinates :=
  (WeatherAnalysis.get_coordinates api_key opencage).
#[local] Abbreviation fetch_current_weather :=
  (WeatherAnalysis.fetch_current_weather requests_get).
#[local] Abbreviation fetch_forecast :=
  (WeatherAnalysis.fetch_forecast requests_get).
#[local] Abbreviation fetch_button :=
  (WeatherAnalysis.fetch_button api_key opencage requests_get).

(** The button either leaves the session as it was, or both fetches gave a
    response. *)
Lemma fetch_button_cases inputs session_state :
  (fetch_button inputs session_state).1 = session_state
  ∨ ∃ lat lon full_location current_body forecast_body,
      (get_coordinates (WeatherAnalysis.city_input inputs)).1
        = Some (lat, lon, full_location)
      ∧ (fetch_current_weather lat lon (WeatherAnalysis.temp_unit inputs)).1
        = Some current_body
      ∧ (fetch_forecast lat lon (WeatherAnalysis.temp_unit inputs)
           (WeatherAnalysis.forecast_days inputs)).1
        = Some forecast_body.
Proof.
  unfold WeatherAnalysis.fetch_button.
  destruct (get_coordinates _) as [[[[lat lon] full_location] |] shown_geo];
    [| by left].
  destruct (fetch_current_weather _ _ _) as [[current_body |] shown_current]
    eqn:Hcurrent;
    destruct (fetch_forecast _ _ _ _) as [[forecast_body |] shown_forecast]
      eqn:Hforecast;
    try (by left).
  right. exists lat, lon, full_location, current_body, forecast_body.
  simpl. by rewrite Hcurrent, Hforecast.
Qed.

(** C8: when the current-weather fetch or the forecast fetch fails, the
    fetch button leaves the session state as it was, so what was fetched
    before is still there and still displayed; the session is written only
    when the city was resolved and both fetches gave a response. *)
Theorem fetch_failure_keeps_session inputs session_state :
  (∀ lat lon full_location,
      (get_coordinates (WeatherAnalysis.city_input inputs)).1
        = Some (lat, lon, full_location) →
      (fetch_current_weather lat lon (WeatherAnalysis.temp_unit inputs)).1 = None
      ∨ (fetch_forecast lat lon (WeatherAnalysis.temp_unit inputs)
           (WeatherAnalysis.forecast_days inputs)).1 = None →
      (fetch_button inputs session_state).1 = session_state
      ∧ WeatherAnalysis.results_displayed (fetch_button inputs session_state).1
        = WeatherAnalysis.results_displayed session_state)
  ∧ ((fetch_button inputs session_state).1 ≠ session_state →
     ∃ lat lon full_location current_body forecast_body,
       (get_coordinates (WeatherAnalysis.city_input inputs)).1
         = Some (lat, lon, full_location)
       ∧ (fetch_current_weather lat lon (WeatherAnalysis.temp_unit inputs)).1
         = Some current_body
       ∧ (fetch_forecast lat lon (WeatherAnalysis.temp_unit inputs)
            (WeatherAnalysis.forecast_days inputs)).1
         = Some forecast_body).
Proof.
  split.
  - intros lat lon full_location Hcoords Hfailed.
    assert ((fetch_button inputs session_state).1 = session_state) as Hsame.
    { destruct (fetch_button_cases inputs session_state)
        as [Hsame | (lat' & lon' & loc' & cur & fc & Hc & Hcur & Hfc)]; [done |].
      rewrite Hcoords in Hc. injection Hc as <- <- <-.
      rewrite Hcur, Hfc in Hfailed. by destruct Hfailed. }
    by rewrite Hsame.
  - intros Hchanged.
    by destruct (fetch_button_cases inputs session_state) as [Hsame | Hboth].
Qed.

End FetchButton.

Lemma fetch_failure_keeps_session_witness :
  (WeatherAnalysis.fetch_button "" Fixtures.no_geocoder Fixtures.api_down
     Fixtures.atlanta_inputs Fixtures.earlier_session).1
  = Fixtures.earlier_session.
Proof.
  apply (proj1 (fetch_failure_keeps_session "" Fixtures.no_geocoder
                  Fixtures.api_down Fixtures.atlanta_inputs
                  Fixtures.earlier_session)
           (33.7490)%Q (-84.3880)%Q "Atlanta, Georgia, USA").
  - vm_compute. reflexivity.
  - left. vm_compute. reflexivity.
Defined.

(** A successful fetch does write the session: the frame property is not
    that of a button that never writes. *)
Example fetch_success_writes_session :
  (WeatherAnalysis.fetch_button "" Fixtures.no_geocoder Fixtures.api_up
     Fixtures.atlanta_inputs ∅).1 !! "location"
  = Some (WeatherAnalysis.SText "Atlanta, Georgia, USA").
Proof. vm_compute. reflexivity. Qed.

(** ** Loops and indexing *)

Lemma index_list_in_range {A : Type} (xs : list A) (i : nat) :
  i < length xs → ∃ a, xs !! i = Some a ∧ index_list xs i = Return a.
Proof.
  intros Hlt. destruct (lookup_lt_is_Some_2 xs i Hlt) as [a Ha].
  exists a. unfold index_list. by rewrite Ha.
Qed.

(** A loop returns exactly when each iteration does, and then yields the
    results of the iterations, in order. *)
Lemma for_each_Return {A B : Type} (body : A → Outcome B) xs rows :
  for_each body xs = Return rows ↔
  Forall2 (fun x row => body x = Return row) xs rows.
Proof.
  revert rows. induction xs as [| x rest IH]; intros rows; simpl.
  - split.
    + intros [= <-]. constructor.
    + intros Hnil. by inversion Hnil.
  - split.
    + destruct (body x) as [row | e] eqn:Hrow; simpl; [| discriminate].
      destruct (for_each body rest) as [rows' | e] eqn:Hrest; simpl;
        [| discriminate].
      intros [= <-]. constructor; [done |]. by apply IH.
    + intros Hcons. inversion Hcons as [| ? row ? rows' Hrow Hrest]; subst.
      rewrite Hrow. simpl. apply IH in Hrest. rewrite Hrest. reflexivity.
Qed.

Lemma for_each_returns {A B : Type} (body : A → Outcome B) xs :
  (∀ x, x ∈ xs → Spec.returns (body x)) →
  ∃ rows, for_each body xs = Return rows.
Proof.
  induction xs as [| x rest IH]; intros Hbody; simpl.
  - by exists [].
  - destruct (Hbody x) as [row ->]; [by left |].
    destruct IH as [rows ->]; [intros y Hy; apply Hbody; by right |].
    simpl. by eexists.
Qed.

(** The result of a loop over [range(n)], index by index. *)
Lemma for_each_range_lookup {B : Type} (body : nat → Outcome B) n rows :
  for_each body (range n) = Return rows →
  length rows = Z.to_nat n
  ∧ ∀ i row, rows !! i = Some row → i < Z.to_nat n ∧ body i = Return row.
Proof.
  intros Hloop. apply for_each_Return in Hloop. unfold range in Hloop.
  split.
  - apply Forall2_length in Hloop. by rewrite length_seq in Hloop.
  - intros i row Hrow.
    destruct (Forall2_lookup_r _ _ _ _ _ Hloop Hrow) as (j & Hj & Hbody).
    apply lookup_seq in Hj as [-> Hlt]. done.
Qed.

(** A prefix of a sorted list is sorted. *)
Lemma Sorted_take {A : Type} (R : relation A) (n : nat) (l : list A) :
  Sorted R l → Sorted R (take n l).
Proof.
  revert l. induction n as [| n IH]; intros l Hsorted; [constructor |].
  destruct l as [| a rest]; [constructor |].
  apply Sorted_inv in Hsorted as [Hrest Hhead]. simpl. constructor.
  - by apply IH.
  - destruct rest as [| b rest']; [destruct n; constructor |].
    destruct n; [constructor |]. simpl. constructor. by inversion Hhead.
Qed.

(** ** Flattening the hourly forecast *)

Section HourlyForecast.

Context {Timestamp : Type}.
Variable to_datetime : string → Outcome Timestamp.
Variable strftime : Timestamp → string → string.

(** The code table is read through its lemmas, not unfolded. *)
#[local] Opaque WeatherAnalysis.get_weather_description.

#[local] Abbreviation hourly_row :=
  (WeatherAnalysis.hourly_row to_datetime strftime).
#[local] Abbreviation process_hourly_forecast :=
  (WeatherAnalysis.process_hourly_forecast to_datetime strftime).

(** On a well-formed block the loop body returns at every index below the
    length of [time]. *)
Lemma hourly_row_returns h i :
  Spec.well_formed_hourly to_datetime h →
  i < length (WeatherAnalysis.hourly_time h) →
  Spec.returns (hourly_row h i).
Proof.
  intros (Htemp & Hhum & Hfeel & Hprob & Hcode & Hcloud & Hwind & Hstamps) Hlt.
  unfold WeatherAnalysis.hourly_row.
  destruct (index_list_in_range (WeatherAnalysis.hourly_weather_code h) i)
    as (code & _ & ->); [lia |].
  destruct (index_list_in_range (WeatherAnalysis.hourly_time h) i)
    as (stamp & Hstamp & ->); [lia |].
  destruct (index_list_in_range (WeatherAnalysis.hourly_temperature_2m h) i)
    as (temperature & _ & ->); [lia |].
  destruct (index_list_in_range (WeatherAnalysis.hourly_apparent_temperature h) i)
    as (feels_like & _ & ->); [lia |].
  destruct (index_list_in_range (WeatherAnalysis.hourly_relative_humidity_2m h) i)
    as (humidity & _ & ->); [lia |].
  destruct (index_list_in_range
              (WeatherAnalysis.hourly_precipitation_probability h) i)
    as (probability & _ & ->); [lia |].
  destruct (index_list_in_range (WeatherAnalysis.hourly_wind_speed_10m h) i)
    as (wind & _ & ->); [lia |].
  destruct (index_list_in_range (WeatherAnalysis.hourly_cloud_cover h) i)
    as (clouds & _ & ->); [lia |].
  rewrite Forall_forall in Hstamps.
  destruct (Hstamps stamp) as [datetime Hparsed];
    [by eapply list_elem_of_lookup_2 |].
  simpl. destruct (WeatherAnalysis.get_weather_description code).
  simpl. rewrite Hparsed. simpl. by eexists.
Qed.

(** A row the loop body returns at index [i] holds entry [i] of every
    array, and the label and icon of its weather code. *)
Lemma hourly_row_fields h i row :
  hourly_row h i = Return row →
  Spec.row_of_hour to_datetime h i row
  ∧ (WeatherAnalysis.row_weather_desc row, WeatherAnalysis.row_weather_emoji row)
    = WeatherAnalysis.get_weather_description
        (WeatherAnalysis.row_weather_code row).
Proof.
  unfold WeatherAnalysis.hourly_row, Spec.row_of_hour, index_list.
  destruct (WeatherAnalysis.hourly_weather_code h !! i) as [code |];
    simpl; [| discriminate].
  destruct (WeatherAnalysis.get_weather_description code)
    as [weather_desc weather_emoji] eqn:Hdesc.
  destruct (WeatherAnalysis.hourly_time h !! i) as [stamp |];
    simpl; [| discriminate].
  destruct (to_datetime stamp) as [datetime |]; simpl; [| discriminate].
  destruct (WeatherAnalysis.hourly_temperature_2m h !! i);
    simpl; [| discriminate].
  destruct (WeatherAnalysis.hourly_apparent_temperature h !! i);
    simpl; [| discriminate].
  destruct (WeatherAnalysis.hourly_relative_humidity_2m h !! i);
    simpl; [| discriminate].
  destruct (WeatherAnalysis.hourly_precipitation_probability h !! i);
    simpl; [| discriminate].
  destruct (WeatherAnalysis.hourly_wind_speed_10m h !! i);
    simpl; [| discriminate].
  destruct (WeatherAnalysis.hourly_cloud_cover h !! i);
    simpl; [| discriminate].
  intros [= <-]. simpl. by rewrite Hdesc.
Qed.

(** The timestamps of the rows are the first timestamps of the source. *)
Lemma row_datetimes_are_prefix h n df stamps :
  for_each (hourly_row h) (range n) = Return df →
  for_each to_datetime (WeatherAnalysis.hourly_time h) = Return stamps →
  (∀ i row, df !! i = Some row → hourly_row h i = Return row) →
  WeatherAnalysis.row_datetime <$> df = take (length df) stamps.
Proof.
  intros _ Hstamps Hrows. apply for_each_Return in Hstamps.
  apply list_eq. intros i. rewrite list_lookup_fmap.
  destruct (df !! i) as [row |] eqn:Hrow; simpl.
  - rewrite lookup_take_lt by (by eapply lookup_lt_Some).
    destruct (hourly_row_fields h i row (Hrows i row Hrow)) as [[Hstamp _] _].
    unfold index_list in Hstamp.
    destruct (WeatherAnalysis.hourly_time h !! i) as [stamp |] eqn:Hsource;
      simpl in Hstamp; [| discriminate].
    destruct (Forall2_lookup_l _ _ _ _ _ Hstamps Hsource) as (t & -> & Hparsed).
    rewrite Hparsed in Hstamp. by injection Hstamp as ->.
  - symmetry. apply lookup_take_ge. by apply lookup_ge_None.
Qed.

(** C1: on a well-formed forecast response (every hourly array has at
    least as many entries as [hourly.time], whose entries are timestamps
    pandas reads) and for [days] between 1 and 7, [process_hourly_forecast]
    returns a DataFrame of exactly min(days * 24, len(hourly.time)) rows;
    row [i] holds entry [i] of each source array, so the rows are in source
    order: their timestamps are the first timestamps of the source, and
    they are sorted for any order that sorts the source. *)
Theorem process_hourly_forecast_rows body h days :
  WeatherAnalysis.hourly body = Some h →
  Spec.well_formed_hourly to_datetime h →
  (1 ≤ days ≤ 7)%Z →
  ∃ df,
    process_hourly_forecast (Some body) days = Return (Some df)
    ∧ Z.of_nat (length df)
      = Z.min (days * 24) (Z.of_nat (length (WeatherAnalysis.hourly_time h)))
    ∧ (∀ i row, df !! i = Some row → Spec.row_of_hour to_datetime h i row)
    ∧ ∃ stamps,
        for_each to_datetime (WeatherAnalysis.hourly_time h) = Return stamps
        ∧ WeatherAnalysis.row_datetime <$> df = take (length df) stamps
        ∧ ∀ R : relation Timestamp,
            Sorted R stamps → Sorted R (WeatherAnalysis.row_datetime <$> df).
Proof.
  intros Hhourly Hwf Hdays.
  set (n := Z.min (days * 24)
              (Z.of_nat (length (WeatherAnalysis.hourly_time h)))).
  destruct (for_each_returns (hourly_row h) (range n)) as [df Hdf].
  { intros i Hi. apply hourly_row_returns; [done |].
    unfold range in Hi. apply elem_of_seq in Hi. lia. }
  destruct (for_each_range_lookup _ _ _ Hdf) as [Hlen Hrows].
  destruct (for_each_returns to_datetime (WeatherAnalysis.hourly_time h))
    as [stamps Hstamps].
  { intros stamp Hstamp. destruct Hwf as (_ & _ & _ & _ & _ & _ & _ & Hparse).
    rewrite Forall_forall in Hparse. by apply Hparse. }
  assert (WeatherAnalysis.row_datetime <$> df = take (length df) stamps)
    as Hprefix.
  { eapply row_datetimes_are_prefix; [done | done |].
    intros i row Hrow. by apply Hrows. }
  exists df. split; [| split; [| split]].
  - unfold WeatherAnalysis.process_hourly_forecast.
    assert (WeatherAnalysis.dict_truthy body = true) as ->.
    { unfold WeatherAnalysis.dict_truthy. rewrite Hhourly.
      rewrite (bool_decide_eq_true_2 (is_Some (Some h))) by done.
      by rewrite !orb_true_r. }
    rewrite Hhourly. simpl. fold n. rewrite Hdf. reflexivity.
  - rewrite Hlen. lia.
  - intros i row Hrow. apply hourly_row_fields. by apply Hrows.
  - exists stamps. split; [done |]. split; [done |].
    intros R Hsorted. rewrite Hprefix. by apply Sorted_take.
Qed.

(** C2, amended: on an input that is [None], empty or without the
    ["hourly"] key, [process_hourly_forecast] returns [None] (no DataFrame
    at all, not an empty one) and does not raise. *)
Theorem process_hourly_forecast_without_hourly forecast_data days :
  Spec.lacks_hourly forecast_data →
  process_hourly_forecast forecast_data days = Return None.
Proof.
  destruct forecast_data as [body |]; simpl; [| done].
  intros ->. rewrite (bool_decide_eq_false_2 (is_Some None)).
  - by rewrite orb_true_r.
  - by intros [? ?].
Qed.

End HourlyForecast.

Lemma process_hourly_forecast_rows_witness :
  ∃ df,
    WeatherAnalysis.process_hourly_forecast Fixtures.to_datetime
      Fixtures.strftime (Some Fixtures.forecast_response) 1
    = Return (Some df)
    ∧ Z.of_nat (length df) = 2%Z.
Proof.
  destruct (process_hourly_forecast_rows Fixtures.to_datetime
              Fixtures.strftime Fixtures.forecast_response
              Fixtures.two_hours 1)
    as (df & Hreturn & Hlength & _).
  - reflexivity.
  - unfold Spec.well_formed_hourly. simpl.
    repeat split; try lia.
    repeat constructor; eexists; reflexivity.
  - lia.
  - exists df. split; [exact Hreturn | exact Hlength].
Defined.

(** C2, counterexample: a response with the [daily] block only has no
    ["hourly"] key, and what comes back for it is [None], which is not an
    empty sequence of rows. *)
Lemma missing_hourly_is_not_an_empty_frame :
  ¬ (Spec.lacks_hourly (Some Fixtures.response_without_hourly) →
     WeatherAnalysis.process_hourly_forecast Fixtures.to_datetime
       Fixtures.strftime (Some Fixtures.response_without_hourly) 5
     = Return (Some [])).
Proof.
  intros Hclaim. specialize (Hclaim eq_refl).
  vm_compute in Hclaim. discriminate.
Qed.

Lemma process_hourly_forecast_without_hourly_witness :
  WeatherAnalysis.process_hourly_forecast Fixtures.to_datetime
    Fixtures.strftime (Some Fixtures.response_without_hourly) 5
  = Return None.
Proof.
  apply (process_hourly_forecast_without_hourly Fixtures.to_datetime
           Fixtures.strftime (Some Fixtures.response_without_hourly) 5).
  reflexivity.
Defined.

(** ** The most frequent condition *)

Lemma value_count_absent (column : list string) (value : string) :
  value ∉ column → WeatherAnalysis.value_count column value = 0.
Proof.
  unfold WeatherAnalysis.value_count. intros Habsent.
  induction column as [| x rest IH]; [done |].
  apply not_elem_of_cons in Habsent as [Hneq Hrest].
  rewrite filter_cons. destruct (decide (value = x)); [done |].
  by apply IH.
Qed.

(** No value occurs more often than the highest count. *)
Lemma value_count_le_highest (column : list string) (value : string) :
  WeatherAnalysis.value_count column value
  ≤ max_list (WeatherAnalysis.value_count column <$> remove_dups column).
Proof.
  destruct (decide (value ∈ column)) as [Hin | Hout].
  - apply max_list_elem_of_le, list_elem_of_fmap.
    exists value. split; [done |]. by apply elem_of_remove_dups.
  - rewrite value_count_absent by done. lia.
Qed.

(** What pandas' mode holds: exactly the values of highest count, the
    smallest first. *)
Lemma Series_mode_head (column : list string) :
  column ≠ [] →
  ∃ value rest,
    WeatherAnalysis.Series_mode column = value :: rest
    ∧ value ∈ column
    ∧ WeatherAnalysis.value_count column value
      = max_list (WeatherAnalysis.value_count column <$> remove_dups column)
    ∧ ∀ other, other ∈ column →
        WeatherAnalysis.value_count column other
        = WeatherAnalysis.value_count column value →
        String.le value other.
Proof.
  intros Hnonempty. unfold WeatherAnalysis.Series_mode. cbv zeta.
  set (values := remove_dups column).
  set (highest := max_list (WeatherAnalysis.value_count column <$> values)).
  set (top := filter
                (fun value => WeatherAnalysis.value_count column value = highest)
                values).
  assert (∃ best, best ∈ top) as [best Hbest].
  { assert (highest ∈ WeatherAnalysis.value_count column <$> values) as Hmax.
    { apply max_list_elem_of. destruct column as [| x rest]; [done |].
      intros Hnil. apply fmap_nil_inv in Hnil.
      assert (x ∈ values) as Hx by (apply elem_of_remove_dups; by left).
      rewrite Hnil in Hx. by apply elem_of_nil in Hx. }
    apply list_elem_of_fmap in Hmax as (best & Hcount & Hbest).
    exists best. apply list_elem_of_filter. by split. }
  pose proof (merge_sort_Permutation String.le top) as Hperm.
  pose proof (StronglySorted_merge_sort String.le top) as Hsorted.
  destruct (merge_sort String.le top) as [| value rest] eqn:Hmode.
  { apply Permutation_nil_l in Hperm. rewrite <- Hperm in Hbest.
    by apply elem_of_nil in Hbest. }
  assert (∀ x, x ∈ value :: rest ↔ x ∈ top) as Hsame.
  { intros x. by rewrite Hperm. }
  assert (value ∈ top) as Hvalue by (apply Hsame; by left).
  apply list_elem_of_filter in Hvalue as [Hcount Hvalue].
  apply (proj1 (elem_of_remove_dups column value)) in Hvalue.
  exists value, rest. split; [done |]. split; [done |]. split; [done |].
  intros other Hother Hequal.
  assert (other ∈ value :: rest) as Hmember.
  { apply Hsame, list_elem_of_filter. split; [congruence |].
    by apply elem_of_remove_dups. }
  apply StronglySorted_inv in Hsorted as [_ Hleast].
  apply elem_of_cons in Hmember as [-> | Hrest]; [done |].
  rewrite Forall_forall in Hleast. by apply Hleast.
Qed.

(** C6, counterexample: of two hours, the first overcast and the second
    clear, both conditions occur once; the value met first is "Overcast",
    the page reports "Clear sky". *)
Lemma mode_tie_is_not_first_encountered :
  ¬ Spec.mode_breaks_ties_by_first_encounter Fixtures.two_rows.
Proof.
  intros (value & Hfirst & Hmode).
  vm_compute in Hfirst. vm_compute in Hmode. congruence.
Qed.

(** C6, amended: on a non-empty sequence of hourly records the mode of the
    condition column is a most frequent value of the column, and among the
    values tied for the highest count it is the smallest one in string
    order (pandas sorts the modes), whatever the order of the records. *)
Theorem most_common_weather_smallest_mode {Timestamp : Type}
    (df : WeatherAnalysis.DataFrame Timestamp) :
  df ≠ [] →
  ∃ value,
    WeatherAnalysis.most_common_weather df = Return value
    ∧ value ∈ WeatherAnalysis.row_weather_desc <$> df
    ∧ (∀ other,
        WeatherAnalysis.value_count (WeatherAnalysis.row_weather_desc <$> df) other
        ≤ WeatherAnalysis.value_count (WeatherAnalysis.row_weather_desc <$> df) value)
    ∧ (∀ other,
        other ∈ WeatherAnalysis.row_weather_desc <$> df →
        WeatherAnalysis.value_count (WeatherAnalysis.row_weather_desc <$> df) other
        = WeatherAnalysis.value_count (WeatherAnalysis.row_weather_desc <$> df) value →
        String.le value other).
Proof.
  intros Hnonempty.
  destruct (Series_mode_head (WeatherAnalysis.row_weather_desc <$> df))
    as (value & rest & Hmode & Hin & Hcount & Hleast).
  { intros Hnil. by apply fmap_nil_inv in Hnil. }
  exists value. unfold WeatherAnalysis.most_common_weather. rewrite Hmode.
  split; [done |]. split; [done |]. split; [| done].
  intros other. rewrite Hcount. apply value_count_le_highest.
Qed.

Lemma most_common_weather_smallest_mode_witness :
  ∃ value,
    WeatherAnalysis.most_common_weather Fixtures.two_rows = Return value
    ∧ String.le value "Overcast".
Proof.
  destruct (most_common_weather_smallest_mode Fixtures.two_rows)
    as (value & Hmode & _ & _ & Hleast).
  - vm_compute. discriminate.
  - exists value. split; [exact Hmode |].
    apply Hleast.
    + vm_compute. left.
    + vm_compute in Hmode. injection Hmode as <-. vm_compute. reflexivity.
Defined.

(** With a strict plurality there is no tie: the page reports that value,
    and it is also the value the first-encounter rule picks. *)
Lemma most_common_weather_plurality {Timestamp : Type}
    (df : WeatherAnalysis.DataFrame Timestamp) (value : string) :
  value ∈ WeatherAnalysis.row_weather_desc <$> df →
  (∀ other, other ≠ value →
     WeatherAnalysis.value_count (WeatherAnalysis.row_weather_desc <$> df) other
     < WeatherAnalysis.value_count (WeatherAnalysis.row_weather_desc <$> df) value) →
  WeatherAnalysis.most_common_weather df = Return value.
Proof.
  intros Hin Hplurality.
  destruct (Series_mode_head (WeatherAnalysis.row_weather_desc <$> df))
    as (mode & rest & Hmode & _ & Hcount & _).
  { intros Hnil. rewrite Hnil in Hin. by apply elem_of_nil in Hin. }
  unfold WeatherAnalysis.most_common_weather. rewrite Hmode.
  destruct (decide (mode = value)) as [-> | Hother]; [done |].
  specialize (Hplurality mode Hother).
  pose proof (value_count_le_highest
                (WeatherAnalysis.row_weather_desc <$> df) value) as Hmost.
  lia.
Qed.

(** ** City extraction *)

(** The three splits cut at the first of the three delimiters. *)
Lemma cut_at_delimiters_cons (c : ascii) (rest : string) :
  WeatherChatbot.cut_at_delimiters (String c rest)
  = if Spec.is_delimiter c then EmptyString
    else String c (WeatherChatbot.cut_at_delimiters rest).
Proof.
  unfold WeatherChatbot.cut_at_delimiters, Spec.is_delimiter. simpl.
  destruct (Ascii.eqb c "?"); simpl; [reflexivity |].
  destruct (Ascii.eqb c ","); simpl; [reflexivity |].
  destruct (Ascii.eqb c "."); reflexivity.
Qed.

Lemma delimiter_not_space (c : ascii) :
  Spec.is_delimiter c = true → PyStr.isspace c = false.
Proof.
  unfold Spec.is_delimiter. intros Hdelimiter.
  apply orb_prop in Hdelimiter as [Hdelimiter | Hdot].
  - apply orb_prop in Hdelimiter as [Hmark | Hcomma].
    + apply Ascii.eqb_eq in Hmark as ->. reflexivity.
    + apply Ascii.eqb_eq in Hcomma as ->. reflexivity.
  - apply Ascii.eqb_eq in Hdot as ->. reflexivity.
Qed.

Lemma lstrip_idempotent (s : string) :
  PyStr.lstrip (PyStr.lstrip s) = PyStr.lstrip s.
Proof.
  induction s as [| c rest IH]; simpl; [reflexivity |].
  destruct (PyStr.isspace c) eqn:Hspace; [exact IH |].
  simpl. by rewrite Hspace.
Qed.

Lemma rstrip_cons (c : ascii) (rest : string) :
  PyStr.rstrip (String c rest)
  = match PyStr.rstrip rest with
    | EmptyString =>
        if PyStr.isspace c then EmptyString else String c EmptyString
    | String d kept => String c (String d kept)
    end.
Proof. simpl. by destruct (PyStr.rstrip rest). Qed.

(** Stripping on the left and on the right commute. *)
Lemma rstrip_lstrip (s : string) :
  PyStr.rstrip (PyStr.lstrip s) = PyStr.lstrip (PyStr.rstrip s).
Proof.
  induction s as [| c rest IH]; [reflexivity |].
  rewrite (rstrip_cons c rest). simpl PyStr.lstrip at 1.
  destruct (PyStr.isspace c) eqn:Hspace.
  - rewrite IH. destruct (PyStr.rstrip rest) as [| d kept]; [reflexivity |].
    simpl. by rewrite Hspace.
  - rewrite (rstrip_cons c rest).
    destruct (PyStr.rstrip rest) as [| d kept]; simpl; by rewrite Hspace.
Qed.

(** Cutting commutes with stripping on the left: no delimiter is a space. *)
Lemma cut_lstrip (s : string) :
  WeatherChatbot.cut_at_delimiters (PyStr.lstrip s)
  = PyStr.lstrip (WeatherChatbot.cut_at_delimiters s).
Proof.
  induction s as [| c rest IH]; [reflexivity |].
  rewrite (cut_at_delimiters_cons c rest). simpl PyStr.lstrip at 1.
  destruct (PyStr.isspace c) eqn:Hspace.
  - destruct (Spec.is_delimiter c) eqn:Hdelimiter.
    + apply delimiter_not_space in Hdelimiter. congruence.
    + simpl. by rewrite Hspace.
  - rewrite (cut_at_delimiters_cons c rest).
    destruct (Spec.is_delimiter c); [reflexivity |].
    simpl. by rewrite Hspace.
Qed.

(** Stripping on the right before the cut changes nothing once the cut is
    stripped on the right. *)
Lemma rstrip_cut_rstrip (s : string) :
  PyStr.rstrip (WeatherChatbot.cut_at_delimiters (PyStr.rstrip s))
  = PyStr.rstrip (WeatherChatbot.cut_at_delimiters s).
Proof.
  induction s as [| c rest IH]; [reflexivity |].
  rewrite (rstrip_cons c rest), (cut_at_delimiters_cons c rest).
  destruct (Spec.is_delimiter c) eqn:Hdelimiter.
  - pose proof (delimiter_not_space c Hdelimiter) as Hspace.
    destruct (PyStr.rstrip rest) as [| d kept]; rewrite ?Hspace;
      rewrite cut_at_delimiters_cons, Hdelimiter; reflexivity.
  - rewrite (rstrip_cons c (WeatherChatbot.cut_at_delimiters rest)).
    rewrite <- IH.
    destruct (PyStr.rstrip rest) as [| d kept].
    + destruct (PyStr.isspace c) eqn:Hspace; simpl; [reflexivity |].
      rewrite cut_at_delimiters_cons, Hdelimiter. simpl. by rewrite Hspace.
    + rewrite (cut_at_delimiters_cons c (String d kept)), Hdelimiter.
      by rewrite rstrip_cons.
Qed.

(** The city read by the code (strip, cut, strip) is the text after the
    phrase, cut at the first delimiter and stripped. *)
Lemma strip_cut_strip (s : string) :
  PyStr.strip (WeatherChatbot.cut_at_delimiters (PyStr.strip s))
  = PyStr.strip (WeatherChatbot.cut_at_delimiters s).
Proof.
  unfold PyStr.strip.
  rewrite (rstrip_lstrip (WeatherChatbot.cut_at_delimiters _)).
  rewrite rstrip_cut_rstrip, <- rstrip_lstrip.
  by rewrite cut_lstrip, lstrip_idempotent.
Qed.

Lemma city_after_cut_stripped (message pattern : string) (idx : nat) :
  WeatherChatbot.city_after message pattern idx
  = PyStr.strip (WeatherChatbot.cut_at_delimiters
      (PyStr.slice_from (idx + String.length pattern) message)).
Proof. unfold WeatherChatbot.city_after. apply strip_cut_strip. Qed.

Lemma truthy_nonempty (s : string) : PyStr.truthy s = true ↔ s ≠ "".
Proof. destruct s; simpl; split; congruence. Qed.

(** The loop skips the patterns that give no city. *)
Lemma extract_city_loop_skips (message : string) (earlier todo : list string) :
  Forall (Spec.gives_no_city message) earlier →
  WeatherChatbot.extract_city_loop message (PyStr.lower message)
    (earlier ++ todo)
  = WeatherChatbot.extract_city_loop message (PyStr.lower message) todo.
Proof.
  induction 1 as [| pattern earlier Hnone _ IH]; [reflexivity |].
  simpl. unfold Spec.gives_no_city in Hnone.
  destruct (PyStr.find pattern (PyStr.lower message)) as [idx |]; [| exact IH].
  rewrite Hnone. exact IH.
Qed.

(** What the loop returns over the patterns left to try. *)
Lemma extract_city_loop_result (message : string) (todo : list string) :
  match WeatherChatbot.extract_city_loop message (PyStr.lower message) todo with
  | Some city =>
      ∃ earlier pattern later idx,
        todo = earlier ++ pattern :: later
        ∧ Forall (Spec.gives_no_city message) earlier
        ∧ PyStr.find pattern (PyStr.lower message) = Some idx
        ∧ city = WeatherChatbot.city_after message pattern idx
        ∧ city ≠ ""
  | None => Forall (Spec.gives_no_city message) todo
  end.
Proof.
  induction todo as [| pattern later IH]; simpl; [constructor |].
  destruct (PyStr.find pattern (PyStr.lower message)) as [idx |] eqn:Hfind.
  - destruct (PyStr.truthy (WeatherChatbot.city_after message pattern idx))
      eqn:Hcity.
    + exists [], pattern, later, idx.
      repeat split; [constructor | done | by apply truthy_nonempty].
    + assert (Spec.gives_no_city message pattern) as Hnone.
      { unfold Spec.gives_no_city. rewrite Hfind.
        destruct (WeatherChatbot.city_after message pattern idx);
          [done | discriminate]. }
      destruct (WeatherChatbot.extract_city_loop _ _ later) as [city |].
      * destruct IH as (earlier & p & rest & i & -> & Hskip & Hp & -> & Hne).
        exists (pattern :: earlier), p, rest, i.
        repeat split; [by constructor | done | done].
      * by constructor.
  - assert (Spec.gives_no_city message pattern) as Hnone.
    { unfold Spec.gives_no_city. by rewrite Hfind. }
    destruct (WeatherChatbot.extract_city_loop _ _ later) as [city |].
    + destruct IH as (earlier & p & rest & i & -> & Hskip & Hp & -> & Hne).
      exists (pattern :: earlier), p, rest, i.
      repeat split; [by constructor | done | done].
    + by constructor.
Qed.

(** C7, counterexample: "weather in ?" contains the lead-in phrase
    "weather in ", yet no city comes back: what follows the phrase is
    empty once cut at the question mark. *)
Lemma lead_in_without_city_yields_none :
  ¬ Spec.lead_in_always_yields_city "weather in ?".
Proof.
  intros Hclaim. destruct Hclaim as (city & Hcity & _).
  - exists "weather in ". split; [by left | reflexivity].
  - vm_compute in Hcity. discriminate.
Qed.

(** C7, amended: on a message of ASCII text, [extract_city_from_message]
    tries the lead-in phrases in list order on the lowercased message and
    returns, for the first phrase that gives a city, the text of the
    original message after the first occurrence of that phrase, cut at the
    first '?', ',' or '.' and stripped of surrounding whitespace, which is
    not empty; it returns [None] exactly when no phrase gives a city (the
    phrase does not occur, or nothing is left after it). "What's the
    weather in Tokyo?" yields "Tokyo". Nothing is said of a message with a
    character outside ASCII: there [str.lower] can change the length of
    the text, and the position found in the lowercased message is then
    not the position of the phrase in the original one. *)
Theorem extract_city_first_yielding_phrase :
  (∀ message city,
      PyStr.is_ascii message = true →
      WeatherChatbot.extract_city_from_message message = Some city
      ↔ Spec.first_yielding_lead_in message city)
  ∧ (∀ message,
      PyStr.is_ascii message = true →
      WeatherChatbot.extract_city_from_message message = None
      ↔ Forall (Spec.gives_no_city message) WeatherChatbot.patterns)
  ∧ WeatherChatbot.extract_city_from_message "What's the weather in Tokyo?"
    = Some "Tokyo".
Proof.
  split; [| split; [| reflexivity]].
  - intros message city _. unfold WeatherChatbot.extract_city_from_message.
    cbv zeta. split.
    + intros Hcity.
      pose proof (extract_city_loop_result message WeatherChatbot.patterns)
        as Hresult.
      rewrite Hcity in Hresult.
      destruct Hresult as (earlier & p & later & i & Hsplit & Hskip & Hp & -> & Hne).
      exists earlier, p, later, i.
      rewrite <- city_after_cut_stripped. done.
    + intros (earlier & p & later & i & Hsplit & Hskip & Hp & -> & Hne).
      rewrite Hsplit, extract_city_loop_skips by done. simpl.
      rewrite Hp, city_after_cut_stripped.
      apply truthy_nonempty in Hne. by rewrite Hne.
  - intros message _. unfold WeatherChatbot.extract_city_from_message.
    cbv zeta. split.
    + intros Hnone.
      pose proof (extract_city_loop_result message WeatherChatbot.patterns)
        as Hresult.
      by rewrite Hnone in Hresult.
    + intros Hskip.
      rewrite <- (app_nil_r WeatherChatbot.patterns).
      by rewrite extract_city_loop_skips.
Qed.

Lemma extract_city_first_yielding_phrase_witness :
  PyStr.is_ascii "Any forecast for Rome, Italy?" = true
  ∧ WeatherChatbot.extract_city_from_message "Any forecast for Rome, Italy?"
    = Some "Rome".
Proof.
  split; [reflexivity |].
  apply (proj1 extract_city_first_yielding_phrase); [reflexivity |].
  exists ["weather in "; "weather for "], "forecast for ",
    ["forecast in "; "temperature in "; "how's the weather in ";
     "what's the weather like in "], 4.
  split; [reflexivity |]. split.
  - repeat constructor.
  - split; [reflexivity |]. split; [reflexivity | discriminate].
Defined.

(** ** LLM failures *)

Lemma substring_of_prefix (e suffix : string) :
  String.substring 0 (String.length e) (e ++ suffix)%string = e.
Proof.
  induction e as [| c rest IH]; simpl.
  - by destruct suffix.
  - by rewrite IH.
Qed.

Lemma substring_after_prefix (prefix rest : string) (n : nat) :
  String.substring (String.length prefix) n (prefix ++ rest)%string
  = String.substring 0 n rest.
Proof. induction prefix as [| c prefix IH]; simpl; [reflexivity | exact IH]. Qed.

(** A text contains each of its infixes. *)
Lemma contains_infix (prefix e suffix : string) :
  PyStr.contains e (prefix ++ e ++ suffix)%string = true.
Proof.
  unfold PyStr.contains, PyStr.find.
  destruct (String.index 0 e (prefix ++ e ++ suffix)%string) eqn:Hindex;
    [reflexivity |].
  exfalso. destruct (decide (e = "")) as [-> | Hnonempty].
  - apply index_correct4 in Hindex. lia.
  - apply (index_correct3 0 (String.length prefix)) in Hindex;
      [| done | lia].
    apply Hindex. by rewrite substring_after_prefix, substring_of_prefix.
Qed.

Lemma contains_after_prefix (prefix e : string) :
  PyStr.contains e (prefix ++ e)%string = true.
Proof.
  assert (e ++ "" = e)%string as Hnil.
  { induction e as [| c rest IH]; [reflexivity |].
    change (String c (rest ++ "")%string = String c rest). by f_equal. }
  pose proof (contains_infix prefix e "") as Hinfix.
  by rewrite Hnil in Hinfix.
Qed.

(** C9, counterexample: the chatbot answers an error whose text is
    "invalid argument" (no quota, rate or safety in it) with the API
    configuration message, which does not carry the error text. *)
Lemma chatbot_invalid_argument_is_not_generic :
  ¬ Spec.classified_as_specified "invalid argument"
      (WeatherChatbot.get_chatbot_response (WeatherInfo := string) id
         (fun _ => LlmFailed "invalid argument") "Is it raining?" None).
Proof. intros Hclaim. vm_compute in Hclaim. discriminate. Qed.

(** Goes through the words an error text is tested for, in the order of
    the code: a word that is found settles the reply. *)
Ltac classify_failure e :=
  repeat match goal with
    | |- context [PyStr.contains ?word (PyStr.lower e)] =>
        destruct (PyStr.contains word (PyStr.lower e)); simpl;
        try (by repeat split)
    end;
  repeat split; try done.

Section LlmFailures.

Context {ContextData WeatherInfo : Type}.
Variable dump_context : ContextData → string.
Variable gemini : string → string → LlmResult.
Variable dump_info : WeatherInfo → string.
Variable send_message : string → LlmResult.

#[local] Abbreviation generate_ai_insights :=
  (WeatherInsights.generate_ai_insights dump_context gemini).
#[local] Abbreviation get_chatbot_response :=
  (WeatherChatbot.get_chatbot_response dump_info send_message).

(** C9, amended: the two wrappers always return a string. A generated text
    is returned as it is. A failure is classified on its lowercased text,
    the first rule that applies winning. On the insights page: "quota" or
    "rate" gives the rate-limit message, else "safety" gives the
    content-filtered message, else the generic message "Error: " followed
    by the original text. In the chatbot: "quota" or "resource_exhausted"
    gives the rate-limit message, else "rate" or "429" the too-many-requests
    message, else "safety" or "blocked" the content-filtered message, else
    "invalid" or "api_key" the API-configuration message (which does not
    carry the error text), else the generic message carrying the original
    text. *)
Theorem llm_failures_become_messages :
  (∀ prompt context_data gemini_key text,
      gemini gemini_key
        (WeatherInsights.full_prompt dump_context prompt context_data)
      = Generated text →
      generate_ai_insights prompt context_data gemini_key = text)
  ∧ (∀ prompt context_data gemini_key e,
      gemini gemini_key
        (WeatherInsights.full_prompt dump_context prompt context_data)
      = LlmFailed e →
      let reply := generate_ai_insights prompt context_data gemini_key in
      (Spec.mentions ["quota"; "rate"] e = true →
       reply = "⚠️ API rate limit reached. Please wait a moment and try again.")
      ∧ (Spec.mentions ["quota"; "rate"] e = false →
         Spec.mentions ["safety"] e = true →
         reply = "⚠️ Content filtered. Please rephrase your request.")
      ∧ (Spec.mentions ["quota"; "rate"; "safety"] e = false →
         reply = ("⚠️ Error: " ++ e)%string
         ∧ PyStr.contains e reply = true))
  ∧ (∀ user_message weather_data text,
      send_message
        (WeatherChatbot.chat_context dump_info user_message weather_data)
      = Generated text →
      get_chatbot_response user_message weather_data = text)
  ∧ (∀ user_message weather_data e,
      send_message
        (WeatherChatbot.chat_context dump_info user_message weather_data)
      = LlmFailed e →
      let reply := get_chatbot_response user_message weather_data in
      (Spec.mentions ["quota"; "resource_exhausted"] e = true →
       reply = "⚠️ Rate limit reached. Please wait and try again.")
      ∧ (Spec.mentions ["quota"; "resource_exhausted"] e = false →
         Spec.mentions ["rate"; "429"] e = true →
         reply = "⚠️ Too many requests. Please slow down.")
      ∧ (Spec.mentions ["quota"; "resource_exhausted"; "rate"; "429"] e = false →
         Spec.mentions ["safety"; "blocked"] e = true →
         reply = "⚠️ Content filtered. Please rephrase.")
      ∧ (Spec.mentions
           ["quota"; "resource_exhausted"; "rate"; "429"; "safety"; "blocked"] e
         = false →
         Spec.mentions ["invalid"; "api_key"] e = true →
         reply = "⚠️ API configuration issue.")
      ∧ (Spec.mentions
           ["quota"; "resource_exhausted"; "rate"; "429"; "safety"; "blocked";
            "invalid"; "api_key"] e
         = false →
         reply = ("⚠️ Error: " ++ e ++ nl ++ nl ++ "Please try rephrasing!")%string
         ∧ PyStr.contains e reply = true)).
Proof.
  unfold Spec.mentions. simpl existsb.
  split; [| split; [| split]].
  - intros prompt context_data gemini_key text Hgenerated.
    unfold WeatherInsights.generate_ai_insights. by rewrite Hgenerated.
  - intros prompt context_data gemini_key e Hfailed.
    unfold WeatherInsights.generate_ai_insights. rewrite Hfailed. cbv zeta.
    classify_failure e.
    apply (contains_after_prefix "⚠️ Error: " e).
  - intros user_message weather_data text Hgenerated.
    unfold WeatherChatbot.get_chatbot_response. cbv zeta.
    by rewrite Hgenerated.
  - intros user_message weather_data e Hfailed.
    unfold WeatherChatbot.get_chatbot_response. cbv zeta. rewrite Hfailed.
    classify_failure e.
    apply (contains_infix "⚠️ Error: " e (nl ++ nl ++ "Please try rephrasing!")).
Qed.

End LlmFailures.

Lemma llm_failures_become_messages_witness :
  WeatherChatbot.get_chatbot_response (WeatherInfo := string) id
    (fun _ => LlmFailed "429 Resource has been exhausted (e.g. check quota).")
    "Is it raining?" None
  = "⚠️ Rate limit reached. Please wait and try again.".
Proof.
  destruct (proj2 (proj2 (proj2
              (llm_failures_become_messages (ContextData := string) id
                 (fun _ _ => Generated "") id
                 (fun _ => LlmFailed
                    "429 Resource has been exhausted (e.g. check quota)."))))
              "Is it raining?" None
              "429 Resource has been exhausted (e.g. check quota)."
              eq_refl) as [Hrate _].
  apply Hrate. vm_compute. reflexivity.
Defined.

(** ** The context handed to the LLM *)

(** C5, counterexample: on a response whose current weather code is 0 the
    context says "Clear sky", a label of the page's table that is nowhere
    in the source response (neither is the city name, an argument of the
    call). *)
Lemma context_condition_is_not_in_source :
  ¬ (∀ processed,
       WeatherInsights.process_weather_for_llm Fixtures.round1
         Fixtures.fromisoformat Fixtures.strftime
         Fixtures.insights_response "Atlanta"
       = Return processed →
       Spec.context_only_from_source Fixtures.round1
         Fixtures.insights_response processed).
Proof.
  intros Hclaim. specialize (Hclaim _ eq_refl).
  destruct (Hclaim (Spec.LText "Clear sky")) as [Hin | (x & _ & Hrounded)].
  - vm_compute. repeat constructor.
  - vm_compute in Hin.
    repeat (apply elem_of_cons in Hin as [Hin | Hin]; [discriminate |]).
    by apply elem_of_nil in Hin.
  - discriminate.
Qed.

Section InsightsContext.

Variable round1 : number → number.
Context {Datetime : Type}.
Variable fromisoformat : string → Outcome Datetime.
Variable strftime : Datetime → string → string.

#[local] Opaque WeatherInsights.get_weather_description.

#[local] Abbreviation daily_summary :=
  (WeatherInsights.daily_summary round1 fromisoformat strftime).
#[local] Abbreviation process_weather_for_llm :=
  (WeatherInsights.process_weather_for_llm round1 fromisoformat strftime).

Lemma daily_summary_returns d i :
  Spec.well_formed_daily fromisoformat d →
  i < length (WeatherInsights.daily_time d) →
  Spec.returns (daily_summary d i).
Proof.
  intros (Hcode & Hmax & Hmin & Hrain & Hwind & Hdates) Hlt.
  unfold WeatherInsights.daily_summary.
  destruct (index_list_in_range (WeatherInsights.daily_time d) i)
    as (day & Hday & ->); [lia |].
  rewrite Forall_forall in Hdates.
  destruct (Hdates day) as [parsed Hparsed];
    [by eapply list_elem_of_lookup_2 |].
  simpl. rewrite Hparsed. simpl.
  destruct (index_list_in_range (WeatherInsights.daily_temperature_2m_max d) i)
    as (high & _ & ->); [lia |].
  destruct (index_list_in_range (WeatherInsights.daily_temperature_2m_min d) i)
    as (low & _ & ->); [lia |].
  destruct (index_list_in_range (WeatherInsights.daily_precipitation_sum d) i)
    as (rain & _ & ->); [lia |].
  destruct (index_list_in_range (WeatherInsights.daily_wind_speed_10m_max d) i)
    as (wind & _ & ->); [lia |].
  destruct (index_list_in_range (WeatherInsights.daily_weather_code d) i)
    as (code & _ & ->); [lia |].
  simpl. by eexists.
Qed.

Lemma daily_summary_fields d i day :
  daily_summary d i = Return day →
  Spec.summary_of_day round1 fromisoformat strftime d i day.
Proof.
  unfold WeatherInsights.daily_summary, Spec.summary_of_day, index_list.
  destruct (WeatherInsights.daily_time d !! i) as [text |];
    simpl; [| discriminate].
  destruct (fromisoformat text) as [parsed |]; simpl; [| discriminate].
  destruct (WeatherInsights.daily_temperature_2m_max d !! i);
    simpl; [| discriminate].
  destruct (WeatherInsights.daily_temperature_2m_min d !! i);
    simpl; [| discriminate].
  destruct (WeatherInsights.daily_precipitation_sum d !! i);
    simpl; [| discriminate].
  destruct (WeatherInsights.daily_wind_speed_10m_max d !! i);
    simpl; [| discriminate].
  destruct (WeatherInsights.daily_weather_code d !! i);
    simpl; [| discriminate].
  intros [= <-]. simpl. done.
Qed.

(** C5, amended: on a well-formed weather response the context holds
    exactly min(5, number of daily entries) daily summaries, summary [i]
    made of day [i]. Temperature, feels-like and wind speed of the current
    snapshot and the maximum, minimum, precipitation and wind of each day
    are the source values rounded to one decimal; humidity is the source
    value as it is, not rounded. The other fields are not values of the
    source: the city is the name given by the caller, each condition is
    the label of the source weather code in the page's table, and each
    date is the source date formatted anew. *)
Theorem process_weather_for_llm_context weather_data city_name c d :
  WeatherInsights.current weather_data = Some c →
  WeatherInsights.daily weather_data = Some d →
  Spec.well_formed_daily fromisoformat d →
  ∃ processed,
    process_weather_for_llm weather_data city_name = Return processed
    ∧ Z.of_nat (length (WeatherInsights.forecast processed))
      = Z.min 5 (Z.of_nat (length (WeatherInsights.daily_time d)))
    ∧ (∀ i day,
        WeatherInsights.forecast processed !! i = Some day →
        Spec.summary_of_day round1 fromisoformat strftime d i day)
    ∧ WeatherInsights.city processed = city_name
    ∧ WeatherInsights.current_summary processed = {|
        WeatherInsights.temperature :=
          round1 (WeatherInsights.current_temperature_2m c);
        WeatherInsights.feels_like :=
          round1 (WeatherInsights.current_apparent_temperature c);
        WeatherInsights.humidity :=
          WeatherInsights.current_relative_humidity_2m c;
        WeatherInsights.wind_speed :=
          round1 (WeatherInsights.current_wind_speed_10m c);
        WeatherInsights.condition :=
          WeatherInsights.get_weather_description
            (WeatherInsights.current_weather_code c)
      |}.
Proof.
  intros Hcurrent Hdaily Hwf.
  set (n := Z.min 5 (Z.of_nat (length (WeatherInsights.daily_time d)))).
  destruct (for_each_returns (daily_summary d) (range n)) as [days Hdays].
  { intros i Hi. apply daily_summary_returns; [done |].
    unfold range in Hi. apply elem_of_seq in Hi. lia. }
  destruct (for_each_range_lookup _ _ _ Hdays) as [Hlen Hrows].
  eexists. split; [| split; [| split; [| split]]].
  - unfold WeatherInsights.process_weather_for_llm.
    rewrite Hcurrent, Hdaily. simpl. fold n. rewrite Hdays. reflexivity.
  - simpl. rewrite Hlen. lia.
  - simpl. intros i day Hday. apply daily_summary_fields. by apply Hrows.
  - reflexivity.
  - reflexivity.
Qed.

End InsightsContext.

Lemma process_weather_for_llm_context_witness :
  ∃ processed,
    WeatherInsights.process_weather_for_llm Fixtures.round1
      Fixtures.fromisoformat Fixtures.strftime
      Fixtures.insights_response "Atlanta"
    = Return processed
    ∧ Z.of_nat (length (WeatherInsights.forecast processed)) = 2%Z.
Proof.
  destruct (WeatherInsights.current Fixtures.insights_response)
    as [c |] eqn:Hcurrent; [| discriminate].
  destruct (WeatherInsights.daily Fixtures.insights_response)
    as [d |] eqn:Hdaily; [| discriminate].
  destruct (process_weather_for_llm_context Fixtures.round1
              Fixtures.fromisoformat Fixtures.strftime
              Fixtures.insights_response "Atlanta" c d Hcurrent Hdaily)
    as (processed & Hreturn & Hlength & _).
  - injection Hdaily as <-. unfold Spec.well_formed_daily. simpl.
    repeat split; try lia.
    repeat constructor; eexists; reflexivity.
  - exists processed. split; [exact Hreturn |].
    rewrite Hlength. injection Hdaily as <-. reflexivity.
Defined.

(** * Further properties of the pages *)

(** ** Strings *)

Lemma append_cons (c : ascii) (s t : string) :
  (String c s ++ t)%string = String c (s ++ t)%string.
Proof. reflexivity. Qed.

Lemma lower_append (a b : string) :
  PyStr.lower (a ++ b)%string = (PyStr.lower a ++ PyStr.lower b)%string.
Proof.
  induction a as [| c rest IH]; [reflexivity |].
  rewrite append_cons. simpl PyStr.lower. rewrite IH. reflexivity.
Qed.

Lemma space_not_upper (c : ascii) :
  PyStr.isspace c = true → PyStr.lower_char c = c.
Proof.
  unfold PyStr.isspace, PyStr.lower_char, PyStr.is_upper.
  generalize (nat_of_ascii c). intros n Hspace.
  destruct (Nat.leb_spec 65 n) as [Hupper |]; [| reflexivity].
  exfalso. revert Hspace.
  destruct (Nat.leb_spec 9 n), (Nat.leb_spec n 13), (Nat.leb_spec 28 n),
    (Nat.leb_spec n 31), (Nat.eqb_spec n 32); simpl; intros; try lia;
    discriminate.
Qed.

Lemma lower_all_space (s : string) :
  Behaviour.all_space s = true → PyStr.lower s = s.
Proof.
  induction s as [| c rest IH]; [reflexivity |]. simpl.
  intros [Hspace Hrest]%andb_prop.
  by rewrite space_not_upper, IH.
Qed.

Lemma lstrip_all_space_app (blank s : string) :
  Behaviour.all_space blank = true →
  PyStr.lstrip (blank ++ s)%string = PyStr.lstrip s.
Proof.
  induction blank as [| c rest IH]; [reflexivity |]. simpl Behaviour.all_space.
  intros [Hspace Hrest]%andb_prop.
  rewrite append_cons. simpl. rewrite Hspace. by apply IH.
Qed.

Lemma rstrip_all_space (blank : string) :
  Behaviour.all_space blank = true → PyStr.rstrip blank = "".
Proof.
  induction blank as [| c rest IH]; [reflexivity |]. simpl Behaviour.all_space.
  intros [Hspace Hrest]%andb_prop.
  rewrite rstrip_cons, IH, Hspace; done.
Qed.

Lemma rstrip_app_all_space (s blank : string) :
  Behaviour.all_space blank = true →
  PyStr.rstrip (s ++ blank)%string = PyStr.rstrip s.
Proof.
  intros Hblank. induction s as [| c rest IH].
  - by apply rstrip_all_space.
  - rewrite append_cons, !rstrip_cons, IH. reflexivity.
Qed.

Lemma lstrip_length (s : string) :
  String.length (PyStr.lstrip s) ≤ String.length s.
Proof.
  induction s as [| c rest IH]; simpl; [lia |].
  destruct (PyStr.isspace c); simpl; lia.
Qed.

Lemma lstrip_trimmed_app (s t : string) :
  s ≠ "" → PyStr.lstrip s = s → PyStr.lstrip (s ++ t)%string = (s ++ t)%string.
Proof.
  destruct s as [| c rest]; [done |]. intros _ Hkept.
  rewrite append_cons. simpl in *.
  destruct (PyStr.isspace c); [| reflexivity].
  pose proof (lstrip_length rest) as Hshort.
  rewrite Hkept in Hshort. simpl in Hshort. lia.
Qed.

(** Whitespace around a trimmed text is what [strip] removes. *)
Lemma strip_padded (left core right : string) :
  Behaviour.trimmed core →
  Behaviour.all_space left = true →
  Behaviour.all_space right = true →
  PyStr.strip (left ++ core ++ right)%string = core.
Proof.
  intros (Hnonempty & Hleft & Hright) Hpad_left Hpad_right.
  unfold PyStr.strip.
  rewrite lstrip_all_space_app by done.
  rewrite lstrip_trimmed_app by done.
  by rewrite rstrip_app_all_space.
Qed.

(** ** The static city table, continued *)

#[local] Instance trimmed_dec (s : string) : Decision (Behaviour.trimmed s).
Proof. unfold Behaviour.trimmed. apply _. Defined.

(** Every key of the table is lowercase text without whitespace around. *)
Lemma city_keys_trimmed (key : string) (entry : WeatherAnalysis.Coordinates) :
  WeatherAnalysis.city_database !! key = Some entry →
  Behaviour.trimmed key ∧ PyStr.lower key = key.
Proof.
  intros Hstored.
  assert (map_Forall
            (fun key (_ : WeatherAnalysis.Coordinates) =>
               Behaviour.trimmed key ∧ PyStr.lower key = key)
            WeatherAnalysis.city_database) as Hall.
  { apply (bool_decide_unpack _). vm_compute. exact I. }
  by eapply map_Forall_lookup_1 in Hall.
Qed.

(** X1: the lookup in the static table ignores letter case and whitespace
    around the name, for every city of the table. *)
Theorem fallback_lookup_ignores_case_and_padding
    (key : string) (entry : WeatherAnalysis.Coordinates)
    (left variant right : string) :
  WeatherAnalysis.city_database !! key = Some entry →
  PyStr.lower variant = key →
  Behaviour.all_space left = true →
  Behaviour.all_space right = true →
  WeatherAnalysis.fallback_city_lookup (left ++ variant ++ right)%string
  = (Some entry, []).
Proof.
  intros Hstored Hvariant Hleft Hright.
  destruct (city_keys_trimmed key entry Hstored) as [Htrimmed _].
  unfold WeatherAnalysis.fallback_city_lookup. cbv zeta.
  rewrite !lower_append, Hvariant, !lower_all_space by done.
  rewrite strip_padded by done.
  rewrite Hstored. by destruct entry as [[lat lon] formatted_name].
Qed.

Lemma fallback_lookup_ignores_case_and_padding_witness :
  WeatherAnalysis.fallback_city_lookup ("  " ++ "Rio De JANEIRO" ++ " ")%string
  = (Some ((-22.9068)%Q, (-43.1729)%Q, "Rio de Janeiro, Brazil"), []).
Proof.
  apply (fallback_lookup_ignores_case_and_padding "rio de janeiro").
  - vm_compute. reflexivity.
  - vm_compute. reflexivity.
  - reflexivity.
  - reflexivity.
Defined.

(** X2: [get_coordinates] never reports a geocoding failure. Without a
    key, when the request fails and when it finds nothing, the answer is
    the one of the static table; a first result of the geocoder is
    returned as it is, with nothing shown, and the table is not used. *)
Theorem get_coordinates_degrades_to_table
    (api_key : string)
    (opencage : string → string → option (list WeatherAnalysis.Coordinates))
    (city_name : string) :
  (api_key = ""
   ∨ opencage api_key city_name = None
   ∨ opencage api_key city_name = Some [] →
   WeatherAnalysis.get_coordinates api_key opencage city_name
   = WeatherAnalysis.fallback_city_lookup city_name)
  ∧ (∀ result others,
      api_key ≠ "" →
      opencage api_key city_name = Some (result :: others) →
      WeatherAnalysis.get_coordinates api_key opencage city_name
      = (Some result, [])).
Proof.
  unfold WeatherAnalysis.get_coordinates. split.
  - intros [-> | [Hfailed | Hempty]]; [reflexivity | |];
      destruct (PyStr.truthy api_key); try reflexivity.
    + by rewrite Hfailed.
    + by rewrite Hempty.
  - intros result others Hkey Hfound.
    apply truthy_nonempty in Hkey. by rewrite Hkey, Hfound.
Qed.

Lemma get_coordinates_degrades_to_table_witness :
  WeatherAnalysis.get_coordinates "key" Fixtures.no_geocoder "Tokyo"
  = WeatherAnalysis.fallback_city_lookup "Tokyo"
  ∧ WeatherAnalysis.get_coordinates "key"
      (fun _ _ => Some [((35.0)%Q, (139.0)%Q, "Tokyo, Japan")]) "Tokyo"
    = (Some ((35.0)%Q, (139.0)%Q, "Tokyo, Japan"), []).
Proof.
  split.
  - apply (proj1 (get_coordinates_degrades_to_table "key"
                    Fixtures.no_geocoder "Tokyo")).
    right. left. reflexivity.
  - apply (proj2 (get_coordinates_degrades_to_table "key"
                    (fun _ _ => Some [((35.0)%Q, (139.0)%Q, "Tokyo, Japan")])
                    "Tokyo") _ []).
    + discriminate.
    + reflexivity.
Defined.

(** ** Units *)

(** X3: whatever the unit selector shows, the labels drawn on the page and
    the units requested from the weather API go together: Celsius with
    km/h (requested as kmh), Fahrenheit with mph. *)
Theorem displayed_units_match_request (inputs : WeatherAnalysis.Inputs) :
  (WeatherAnalysis.temp_unit inputs = "celsius"
   ∧ WeatherAnalysis.unit_symbol inputs = "°C"
   ∧ WeatherAnalysis.wind_unit inputs = "km/h"
   ∧ WeatherAnalysis.wind_speed_unit (WeatherAnalysis.temp_unit inputs) = "kmh")
  ∨ (WeatherAnalysis.temp_unit inputs = "fahrenheit"
     ∧ WeatherAnalysis.unit_symbol inputs = "°F"
     ∧ WeatherAnalysis.wind_unit inputs = "mph"
     ∧ WeatherAnalysis.wind_speed_unit (WeatherAnalysis.temp_unit inputs)
       = "mph").
Proof.
  unfold WeatherAnalysis.unit_symbol, WeatherAnalysis.wind_unit,
    WeatherAnalysis.temp_unit.
  destruct (PyStr.contains "Celsius" (WeatherAnalysis.temp_unit_display inputs));
    [left | right]; repeat split; reflexivity.
Qed.

(** ** The session of the analysis page *)

Lemma unit_labels_paired (inputs : WeatherAnalysis.Inputs) :
  (WeatherAnalysis.unit_symbol inputs = "°C"
   ∧ WeatherAnalysis.wind_unit inputs = "km/h")
  ∨ (WeatherAnalysis.unit_symbol inputs = "°F"
     ∧ WeatherAnalysis.wind_unit inputs = "mph").
Proof.
  unfold WeatherAnalysis.unit_symbol, WeatherAnalysis.wind_unit,
    WeatherAnalysis.temp_unit.
  destruct (PyStr.contains "Celsius" (WeatherAnalysis.temp_unit_display inputs));
    [left | right]; split; reflexivity.
Qed.

(** The session after a successful fetch. *)
Lemma fetch_button_outcome api_key opencage requests_get inputs session_state :
  (WeatherAnalysis.fetch_button api_key opencage requests_get inputs
     session_state).1 = session_state
  ∨ ∃ lat lon full_location current_body forecast_body,
      (WeatherAnalysis.get_coordinates api_key opencage
         (WeatherAnalysis.city_input inputs)).1
        = Some (lat, lon, full_location)
      ∧ (WeatherAnalysis.fetch_current_weather requests_get lat lon
           (WeatherAnalysis.temp_unit inputs)).1 = Some current_body
      ∧ (WeatherAnalysis.fetch_forecast requests_get lat lon
           (WeatherAnalysis.temp_unit inputs)
           (WeatherAnalysis.forecast_days inputs)).1 = Some forecast_body
      ∧ WeatherAnalysis.dict_truthy current_body = true
      ∧ WeatherAnalysis.dict_truthy forecast_body = true
      ∧ (WeatherAnalysis.fetch_button api_key opencage requests_get inputs
           session_state).1
        = <["forecast_days" :=
              WeatherAnalysis.SInt (WeatherAnalysis.forecast_days inputs)]>
            (<["wind_unit" :=
                 WeatherAnalysis.SText (WeatherAnalysis.wind_unit inputs)]>
               (<["unit_symbol" :=
                    WeatherAnalysis.SText (WeatherAnalysis.unit_symbol inputs)]>
                  (<["city_name" :=
                       WeatherAnalysis.SText (WeatherAnalysis.city_input inputs)]>
                     (<["location" := WeatherAnalysis.SText full_location]>
                        (<["forecast_data" :=
                             WeatherAnalysis.SResponse forecast_body]>
                           (<["current_weather" :=
                                WeatherAnalysis.SResponse current_body]>
                              session_state)))))).
Proof.
  unfold WeatherAnalysis.fetch_button.
  destruct (WeatherAnalysis.get_coordinates _ _ _)
    as [[[[lat lon] full_location] |] shown_geo]; [| by left].
  destruct (WeatherAnalysis.fetch_current_weather _ _ _ _)
    as [[current_body |] shown_current] eqn:Hcurrent;
    destruct (WeatherAnalysis.fetch_forecast _ _ _ _ _)
      as [[forecast_body |] shown_forecast] eqn:Hforecast;
    try (by left).
  destruct (WeatherAnalysis.dict_truthy current_body) eqn:Htruthy_current;
    destruct (WeatherAnalysis.dict_truthy forecast_body) eqn:Htruthy_forecast;
    try (by left).
  right. exists lat, lon, full_location, current_body, forecast_body.
  simpl. rewrite Hcurrent, Hforecast. done.
Qed.

(** X4: a fetch that succeeds stores the seven values of this click (both
    responses, the location found, the city as typed, the two unit labels
    and the number of days), leaves every other key of the session as it
    was, and makes the results section appear. *)
Theorem fetch_success_stores_the_fetch
    api_key opencage requests_get inputs session_state
    lat lon full_location current_body forecast_body :
  (WeatherAnalysis.get_coordinates api_key opencage
     (WeatherAnalysis.city_input inputs)).1 = Some (lat, lon, full_location) →
  (WeatherAnalysis.fetch_current_weather requests_get lat lon
     (WeatherAnalysis.temp_unit inputs)).1 = Some current_body →
  (WeatherAnalysis.fetch_forecast requests_get lat lon
     (WeatherAnalysis.temp_unit inputs)
     (WeatherAnalysis.forecast_days inputs)).1 = Some forecast_body →
  WeatherAnalysis.dict_truthy current_body = true →
  WeatherAnalysis.dict_truthy forecast_body = true →
  let after :=
    (WeatherAnalysis.fetch_button api_key opencage requests_get inputs
       session_state).1 in
  after !! "current_weather" = Some (WeatherAnalysis.SResponse current_body)
  ∧ after !! "forecast_data" = Some (WeatherAnalysis.SResponse forecast_body)
  ∧ after !! "location" = Some (WeatherAnalysis.SText full_location)
  ∧ after !! "city_name"
    = Some (WeatherAnalysis.SText (WeatherAnalysis.city_input inputs))
  ∧ after !! "unit_symbol"
    = Some (WeatherAnalysis.SText (WeatherAnalysis.unit_symbol inputs))
  ∧ after !! "wind_unit"
    = Some (WeatherAnalysis.SText (WeatherAnalysis.wind_unit inputs))
  ∧ after !! "forecast_days"
    = Some (WeatherAnalysis.SInt (WeatherAnalysis.forecast_days inputs))
  ∧ (∀ key, key ∉ WeatherAnalysis.fetch_keys →
       after !! key = session_state !! key)
  ∧ WeatherAnalysis.results_displayed after = true.
Proof.
  intros Hcoords Hcurrent Hforecast Htruthy_current Htruthy_forecast after.
  assert (after
          = <["forecast_days" :=
                WeatherAnalysis.SInt (WeatherAnalysis.forecast_days inputs)]>
              (<["wind_unit" :=
                   WeatherAnalysis.SText (WeatherAnalysis.wind_unit inputs)]>
                 (<["unit_symbol" :=
                      WeatherAnalysis.SText (WeatherAnalysis.unit_symbol inputs)]>
                    (<["city_name" :=
                         WeatherAnalysis.SText (WeatherAnalysis.city_input inputs)]>
                       (<["location" := WeatherAnalysis.SText full_location]>
                          (<["forecast_data" :=
                               WeatherAnalysis.SResponse forecast_body]>
                             (<["current_weather" :=
                                  WeatherAnalysis.SResponse current_body]>
                                session_state))))))) as ->.
  { subst after. unfold WeatherAnalysis.fetch_button.
    destruct (WeatherAnalysis.get_coordinates _ _ _) as [coords shown_geo].
    simpl in Hcoords. subst coords.
    destruct (WeatherAnalysis.fetch_current_weather _ _ _ _)
      as [current_weather shown_current].
    destruct (WeatherAnalysis.fetch_forecast _ _ _ _ _)
      as [forecast_data shown_forecast].
    simpl in Hcurrent, Hforecast. subst current_weather forecast_data.
    by rewrite Htruthy_current, Htruthy_forecast. }
  unfold WeatherAnalysis.results_displayed.
  repeat split; try (by simplify_map_eq).
  intros key Hkey. unfold WeatherAnalysis.fetch_keys in Hkey.
  rewrite !not_elem_of_cons in Hkey.
  destruct Hkey as (? & ? & ? & ? & ? & ? & ? & _).
  by rewrite !lookup_insert_ne.
Qed.

Lemma fetch_success_stores_the_fetch_witness :
  (WeatherAnalysis.fetch_button "" Fixtures.no_geocoder Fixtures.api_up
     Fixtures.atlanta_inputs Fixtures.earlier_session).1 !! "location"
  = Some (WeatherAnalysis.SText "Atlanta, Georgia, USA").
Proof.
  destruct (fetch_success_stores_the_fetch "" Fixtures.no_geocoder
              Fixtures.api_up Fixtures.atlanta_inputs Fixtures.earlier_session
              (33.7490)%Q (-84.3880)%Q "Atlanta, Georgia, USA"
              Fixtures.forecast_response Fixtures.forecast_response)
    as (_ & _ & Hlocation & _).
  - vm_compute. reflexivity.
  - reflexivity.
  - reflexivity.
  - reflexivity.
  - reflexivity.
  - exact Hlocation.
Defined.

(** A session that has no key of a fetch, or the seven keys of one. *)
Lemma page_reachable_keys session_state :
  Behaviour.page_reachable session_state →
  Forall (fun key => session_state !! key = None) WeatherAnalysis.fetch_keys
  ∨ Behaviour.holds_one_fetch session_state.
Proof.
  induction 1 as [session_state Hnone
                 | session_state api_key opencage requests_get inputs _ IH
                 | session_state city _ IH Hhidden].
  - by left.
  - destruct (fetch_button_outcome api_key opencage requests_get inputs
                session_state)
      as [-> | (lat & lon & loc & cur & fc & _ & _ & _ & Hcur & Hfc & ->)];
      [done |].
    right. exists cur, fc, loc, (WeatherAnalysis.city_input inputs),
      (WeatherAnalysis.unit_symbol inputs), (WeatherAnalysis.wind_unit inputs),
      (WeatherAnalysis.forecast_days inputs).
    repeat split; try (by simplify_map_eq).
    destruct (unit_labels_paired inputs) as [[-> ->] | [-> ->]];
      [by left | by right].
  - unfold WeatherAnalysis.example_button.
    destruct IH as [Hnone | Hfetch].
    + left. unfold WeatherAnalysis.fetch_keys in *.
      repeat (apply Forall_cons in Hnone as [? Hnone]).
      repeat constructor; by simplify_map_eq.
    + right.
      destruct Hfetch as (cur & fc & loc & name & symbol & wind & days
                          & ? & ? & ? & ? & ? & ? & ? & ? & ? & ?).
      exists cur, fc, loc, name, symbol, wind, days.
      repeat split; try done; by simplify_map_eq.
Qed.

(** X5: in every session the analysis page can reach by clicks on the
    fetch button and on the example buttons, starting without the keys of a
    fetch, the results section is drawn only over the seven values of one
    fetch: none of its reads of the session raises a KeyError, the two
    responses are non-empty dicts and the two unit labels go together. *)
Theorem results_section_reads_one_fetch session_state city_input :
  Behaviour.page_reachable session_state →
  WeatherAnalysis.results_displayed session_state = true →
  Behaviour.holds_one_fetch session_state
  ∧ ∃ view,
      WeatherAnalysis.read_results city_input session_state
      = Some (Return view).
Proof.
  intros Hreachable Hdisplayed.
  destruct (page_reachable_keys session_state Hreachable) as [Hnone | Hfetch].
  - exfalso. unfold WeatherAnalysis.results_displayed in Hdisplayed.
    unfold WeatherAnalysis.fetch_keys in Hnone.
    apply Forall_cons in Hnone as [Hcurrent _].
    rewrite Hcurrent in Hdisplayed.
    rewrite (bool_decide_eq_false_2 (is_Some None)) in Hdisplayed;
      [discriminate | by intros [? ?]].
  - split; [done |].
    destruct Hfetch as (cur & fc & loc & name & symbol & wind & days
                        & Hcur & Hfc & Hloc & Hname & Hsymbol & Hwind & Hdays
                        & _).
    unfold WeatherAnalysis.read_results.
    rewrite Hdisplayed, Hcur, Hfc, Hloc, Hname, Hsymbol, Hwind, Hdays.
    simpl. by eexists.
Qed.

Lemma results_section_reads_one_fetch_witness :
  ∃ view,
    WeatherAnalysis.read_results "Paris"
      (WeatherAnalysis.fetch_button "" Fixtures.no_geocoder Fixtures.api_up
         Fixtures.atlanta_inputs ∅).1
    = Some (Return view).
Proof.
  destruct (results_section_reads_one_fetch
              (WeatherAnalysis.fetch_button "" Fixtures.no_geocoder
                 Fixtures.api_up Fixtures.atlanta_inputs ∅).1 "Paris")
    as [_ Hview].
  - apply Behaviour.reach_fetch. apply Behaviour.reach_start.
    repeat constructor.
  - vm_compute. reflexivity.
  - exact Hview.
Defined.

(** ** Flattening the hourly forecast, continued *)

Lemma for_each_returns_iff {A B : Type} (body : A → Outcome B) xs :
  (∃ rows, for_each body xs = Return rows) ↔
  ∀ x, x ∈ xs → Spec.returns (body x).
Proof.
  split; [| apply for_each_returns].
  intros [rows Hrows] x Hx. apply for_each_Return in Hrows.
  apply list_elem_of_lookup in Hx as [i Hi].
  destruct (Forall2_lookup_l _ _ _ _ _ Hrows Hi) as (row & _ & Hrow).
  by exists row.
Qed.

(** A loop that does not return raises. *)
Lemma for_each_raises {A B : Type} (body : A → Outcome B) xs :
  (∃ rows, for_each body xs = Return rows) ∨ (∃ e, for_each body xs = Raise e).
Proof. destruct (for_each body xs) as [rows | e]; [left | right]; by eexists. Qed.

Section HourlyForecastEdges.

Context {Timestamp : Type}.
Variable to_datetime : string → Outcome Timestamp.
Variable strftime : Timestamp → string → string.

#[local] Opaque WeatherAnalysis.get_weather_description.

#[local] Abbreviation hourly_row :=
  (WeatherAnalysis.hourly_row to_datetime strftime).
#[local] Abbreviation process_hourly_forecast :=
  (WeatherAnalysis.process_hourly_forecast to_datetime strftime).

(** The loop body returns at an index exactly when the entry is complete. *)
Lemma hourly_row_returns_iff h i :
  Spec.returns (hourly_row h i) ↔ Behaviour.hour_complete to_datetime h i.
Proof.
  unfold WeatherAnalysis.hourly_row, Behaviour.hour_complete, index_list.
  destruct (WeatherAnalysis.hourly_weather_code h !! i) as [code |]; simpl;
    [| split; [intros [? [=]] | intros (_ & _ & _ & _ & _ & [? [=]] & _)]].
  destruct (WeatherAnalysis.get_weather_description code)
    as [weather_desc weather_emoji].
  destruct (WeatherAnalysis.hourly_time h !! i) as [stamp |]; simpl;
    [| split; [intros [? [=]] | intros ((? & [=] & _) & _)]].
  destruct (to_datetime stamp) as [datetime | e] eqn:Hparsed; simpl;
    [| split; [intros [? [=]]
              | intros ((? & [= <-] & [? Hreturns]) & _); congruence]].
  destruct (WeatherAnalysis.hourly_temperature_2m h !! i); simpl;
    [| split; [intros [? [=]] | intros (_ & [? [=]] & _)]].
  destruct (WeatherAnalysis.hourly_apparent_temperature h !! i); simpl;
    [| split; [intros [? [=]] | intros (_ & _ & _ & [? [=]] & _)]].
  destruct (WeatherAnalysis.hourly_relative_humidity_2m h !! i); simpl;
    [| split; [intros [? [=]] | intros (_ & _ & [? [=]] & _)]].
  destruct (WeatherAnalysis.hourly_precipitation_probability h !! i); simpl;
    [| split; [intros [? [=]] | intros (_ & _ & _ & _ & [? [=]] & _)]].
  destruct (WeatherAnalysis.hourly_wind_speed_10m h !! i); simpl;
    [| split; [intros [? [=]] | intros (_ & _ & _ & _ & _ & _ & _ & [? [=]])]].
  destruct (WeatherAnalysis.hourly_cloud_cover h !! i); simpl;
    [| split; [intros [? [=]] | intros (_ & _ & _ & _ & _ & _ & [? [=]] & _)]].
  split; [| intros _; by eexists].
  intros _. repeat split; try (by eexists).
  exists stamp. split; [done |]. by exists datetime.
Qed.

(** X6: on a response that has the hourly block, [process_hourly_forecast]
    returns a DataFrame exactly when each of the first
    min(days * 24, len(time)) entries is complete (every array has it and
    its timestamp is readable); otherwise it raises, and it never answers
    [None]. Arrays shorter than [time] are harmless as long as they cover
    the hours asked for. *)
Theorem process_hourly_forecast_returns_iff body h days :
  WeatherAnalysis.hourly body = Some h →
  ((∃ df, process_hourly_forecast (Some body) days = Return (Some df))
   ↔ ∀ i,
       (Z.of_nat i
        < Z.min (days * 24)
            (Z.of_nat (length (WeatherAnalysis.hourly_time h))))%Z →
       Behaviour.hour_complete to_datetime h i)
  ∧ ((∃ df, process_hourly_forecast (Some body) days = Return (Some df))
     ∨ ∃ e, process_hourly_forecast (Some body) days = Raise e).
Proof.
  intros Hhourly.
  set (n := Z.min (days * 24)
              (Z.of_nat (length (WeatherAnalysis.hourly_time h)))).
  assert (process_hourly_forecast (Some body) days
          = (data_list ← for_each (hourly_row h) (range n);
             Return (Some data_list))) as ->.
  { unfold WeatherAnalysis.process_hourly_forecast.
    assert (WeatherAnalysis.dict_truthy body = true) as ->.
    { unfold WeatherAnalysis.dict_truthy. rewrite Hhourly.
      rewrite (bool_decide_eq_true_2 (is_Some (Some h))) by done.
      by rewrite !orb_true_r. }
    rewrite Hhourly. reflexivity. }
  split.
  - split.
    + intros [df Hdf] i Hi.
      destruct (for_each (hourly_row h) (range n)) as [rows |] eqn:Hrows;
        [| discriminate].
      apply hourly_row_returns_iff.
      apply (proj1 (for_each_returns_iff (hourly_row h) (range n))).
      * by exists rows.
      * unfold range. apply elem_of_seq. lia.
    + intros Hcomplete.
      destruct (for_each_returns (hourly_row h) (range n)) as [rows ->].
      * intros i Hi. apply hourly_row_returns_iff, Hcomplete.
        unfold range in Hi. apply elem_of_seq in Hi. lia.
      * by exists rows.
  - destruct (for_each (hourly_row h) (range n)) as [rows | e];
      [left | right]; by eexists.
Qed.

(** X7: in every DataFrame [process_hourly_forecast] returns, whatever the
    input, each row shows the label and the icon of its own weather code
    and the date and time of its own timestamp. *)
Theorem hourly_rows_are_consistent forecast_data days df :
  process_hourly_forecast forecast_data days = Return (Some df) →
  Forall (Behaviour.row_consistent strftime) df.
Proof.
  unfold WeatherAnalysis.process_hourly_forecast.
  destruct forecast_data as [body |]; [| discriminate].
  destruct (negb (WeatherAnalysis.dict_truthy body)
            || negb (bool_decide (is_Some (WeatherAnalysis.hourly body))));
    [discriminate |].
  destruct (WeatherAnalysis.hourly body) as [h |]; simpl; [| discriminate].
  destruct (for_each _ _) as [rows |] eqn:Hrows; simpl; [| discriminate].
  intros [= <-]. apply for_each_Return in Hrows.
  apply Forall_forall. intros row Hrow.
  apply list_elem_of_lookup in Hrow as [k Hk].
  destruct (Forall2_lookup_r _ _ _ _ _ Hrows Hk) as (i & _ & Hbody).
  revert Hbody. unfold WeatherAnalysis.hourly_row, index_list.
  destruct (WeatherAnalysis.hourly_weather_code h !! i) as [code |];
    simpl; [| discriminate].
  destruct (WeatherAnalysis.get_weather_description code)
    as [weather_desc weather_emoji] eqn:Hdesc.
  destruct (WeatherAnalysis.hourly_time h !! i) as [stamp |];
    simpl; [| discriminate].
  destruct (to_datetime stamp) as [datetime |]; simpl; [| discriminate].
  destruct (WeatherAnalysis.hourly_temperature_2m h !! i);
    simpl; [| discriminate].
  destruct (WeatherAnalysis.hourly_apparent_temperature h !! i);
    simpl; [| discriminate].
  destruct (WeatherAnalysis.hourly_relative_humidity_2m h !! i);
    simpl; [| discriminate].
  destruct (WeatherAnalysis.hourly_precipitation_probability h !! i);
    simpl; [| discriminate].
  destruct (WeatherAnalysis.hourly_wind_speed_10m h !! i);
    simpl; [| discriminate].
  destruct (WeatherAnalysis.hourly_cloud_cover h !! i);
    simpl; [| discriminate].
  intros [= <-]. unfold Behaviour.row_consistent. simpl. by rewrite Hdesc.
Qed.

End HourlyForecastEdges.

Lemma process_hourly_forecast_returns_iff_witness :
  Behaviour.hour_complete Fixtures.to_datetime Fixtures.two_hours 1.
Proof.
  apply (proj1 (proj1 (process_hourly_forecast_returns_iff
                         Fixtures.to_datetime Fixtures.strftime
                         Fixtures.forecast_response Fixtures.two_hours 1
                         eq_refl))).
  - exists Fixtures.two_rows. vm_compute. reflexivity.
  - vm_compute. reflexivity.
Defined.

Lemma hourly_rows_are_consistent_witness :
  Forall (Behaviour.row_consistent Fixtures.strftime) Fixtures.two_rows.
Proof.
  apply (hourly_rows_are_consistent Fixtures.to_datetime Fixtures.strftime
           (Some Fixtures.forecast_response) 1).
  vm_compute. reflexivity.
Defined.

(** ** More on stripping *)

Lemma rstrip_idempotent (s : string) :
  PyStr.rstrip (PyStr.rstrip s) = PyStr.rstrip s.
Proof.
  induction s as [| c rest IH]; [reflexivity |].
  rewrite (rstrip_cons c rest).
  destruct (PyStr.rstrip rest) as [| d kept] eqn:Hrest.
  - destruct (PyStr.isspace c) eqn:Hspace; [reflexivity |].
    rewrite rstrip_cons. simpl. by rewrite Hspace.
  - rewrite rstrip_cons, IH. reflexivity.
Qed.

Lemma strip_idempotent (s : string) :
  PyStr.strip (PyStr.strip s) = PyStr.strip s.
Proof.
  unfold PyStr.strip.
  rewrite <- (rstrip_lstrip (PyStr.lstrip s)).
  by rewrite rstrip_idempotent, lstrip_idempotent.
Qed.

Lemma lacks_lstrip (c : ascii) (s : string) :
  Behaviour.lacks c s = true → Behaviour.lacks c (PyStr.lstrip s) = true.
Proof.
  induction s as [| d rest IH]; [done |]. simpl.
  intros [Hhead Hrest]%andb_prop.
  destruct (PyStr.isspace d); [by apply IH |].
  simpl. by rewrite Hhead, Hrest.
Qed.

Lemma lacks_rstrip (c : ascii) (s : string) :
  Behaviour.lacks c s = true → Behaviour.lacks c (PyStr.rstrip s) = true.
Proof.
  induction s as [| d rest IH]; [done |].
  intros Hlacks. simpl in Hlacks.
  apply andb_prop in Hlacks as [Hhead Hrest]. rewrite rstrip_cons.
  specialize (IH Hrest).
  destruct (PyStr.rstrip rest) as [| e kept].
  - destruct (PyStr.isspace d); [reflexivity |]. simpl. by rewrite Hhead.
  - simpl in *. by rewrite Hhead, IH.
Qed.

Lemma lacks_strip (c : ascii) (s : string) :
  Behaviour.lacks c s = true → Behaviour.lacks c (PyStr.strip s) = true.
Proof. intros Hlacks. by apply lacks_rstrip, lacks_lstrip. Qed.

(** No piece of a split holds the separator. *)
Lemma split_lacks_separator (sep : ascii) (s : string) :
  Forall (fun piece => Behaviour.lacks sep piece = true) (PyStr.split sep s).
Proof.
  induction s as [| c rest IH]; simpl; [by repeat constructor |].
  destruct (Ascii.eqb c sep) eqn:Hsep; [by constructor |].
  destruct (PyStr.split sep rest) as [| piece pieces].
  - repeat constructor. simpl. by rewrite Hsep.
  - apply Forall_cons in IH as [Hpiece Hpieces].
    constructor; [| done]. simpl. by rewrite Hsep, Hpiece.
Qed.

(** ** The insights page: inputs, preprocessing, panels *)

(** X8: whatever is typed in the comparison box, at most four cities are
    compared, each of them a non-empty name without whitespace around it
    and without a line break in it; and when no warning is shown there are
    at least two of them. *)
Theorem compared_cities_are_clean (cities_input : string) :
  length (WeatherInsights.compared_cities cities_input).1 ≤ 4
  ∧ Forall (fun city =>
              city ≠ ""
              ∧ PyStr.strip city = city
              ∧ Behaviour.lacks (ascii_of_nat 10) city = true)
      (WeatherInsights.compared_cities cities_input).1
  ∧ ((WeatherInsights.compared_cities cities_input).2 = None →
     2 ≤ length (WeatherInsights.compared_cities cities_input).1).
Proof.
  unfold WeatherInsights.compared_cities. cbv zeta.
  set (cities := PyStr.strip <$> List.filter _ _).
  assert (Forall (fun city =>
                    city ≠ ""
                    ∧ PyStr.strip city = city
                    ∧ Behaviour.lacks (ascii_of_nat 10) city = true) cities)
    as Hclean.
  { subst cities. apply Forall_fmap, Forall_forall. intros line Hline.
    apply list_elem_of_In, filter_In in Hline as [Hline Hkept].
    apply list_elem_of_In in Hline.
    pose proof (split_lacks_separator (ascii_of_nat 10) cities_input) as Hsplit.
    rewrite Forall_forall in Hsplit. simpl.
    split; [by apply truthy_nonempty |].
    split; [apply strip_idempotent | by apply lacks_strip, Hsplit]. }
  destruct (Nat.ltb_spec (length cities) 2) as [Hfew | Hsome]; simpl.
  - split; [lia |]. split; [done | discriminate].
  - destruct (Nat.ltb_spec 4 (length cities)) as [Hmany | Hfit]; simpl.
    + split; [rewrite length_take; lia |].
      split; [by apply Forall_take | discriminate].
    + split; [lia |]. split; [done | intros _; lia].
Qed.

Section InsightsEdges.

Variable round1 : number → number.
Context {Datetime : Type}.
Variable fromisoformat : string → Outcome Datetime.
Variable strftime : Datetime → string → string.

#[local] Opaque WeatherInsights.get_weather_description.

#[local] Abbreviation daily_summary :=
  (WeatherInsights.daily_summary round1 fromisoformat strftime).
#[local] Abbreviation process_weather_for_llm :=
  (WeatherInsights.process_weather_for_llm round1 fromisoformat strftime).

Lemma daily_summary_returns_iff d i :
  Spec.returns (daily_summary d i) ↔ Behaviour.day_complete fromisoformat d i.
Proof.
  unfold WeatherInsights.daily_summary, Behaviour.day_complete, index_list.
  destruct (WeatherInsights.daily_time d !! i) as [day |]; simpl;
    [| split; [intros [? [=]] | intros ((? & [=] & _) & _)]].
  destruct (fromisoformat day) as [parsed | e] eqn:Hparsed; simpl;
    [| split; [intros [? [=]]
              | intros ((? & [= <-] & [? Hreturns]) & _); congruence]].
  destruct (WeatherInsights.daily_temperature_2m_max d !! i); simpl;
    [| split; [intros [? [=]] | intros (_ & [? [=]] & _)]].
  destruct (WeatherInsights.daily_temperature_2m_min d !! i); simpl;
    [| split; [intros [? [=]] | intros (_ & _ & [? [=]] & _)]].
  destruct (WeatherInsights.daily_precipitation_sum d !! i); simpl;
    [| split; [intros [? [=]] | intros (_ & _ & _ & [? [=]] & _)]].
  destruct (WeatherInsights.daily_wind_speed_10m_max d !! i); simpl;
    [| split; [intros [? [=]] | intros (_ & _ & _ & _ & [? [=]] & _)]].
  destruct (WeatherInsights.daily_weather_code d !! i); simpl;
    [| split; [intros [? [=]] | intros (_ & _ & _ & _ & _ & [? [=]])]].
  split; [| intros _; by eexists].
  intros _. repeat split; try (by eexists).
  exists day. split; [done |]. by exists parsed.
Qed.

(** X9: [process_weather_for_llm] raises a KeyError on a response without
    the current block, and on one with it but without the daily block. On
    a response with both, whose readings are numbers as [Current] and
    [Daily] have them (none is JSON's [null], which [round] refuses with a
    TypeError), it returns exactly when each of the first
    min(5, len(time)) days is complete, and raises otherwise; a context it
    returns never has more than five daily summaries. *)
Theorem process_weather_for_llm_failures weather_data city_name :
  (WeatherInsights.current weather_data = None →
   process_weather_for_llm weather_data city_name = Raise (KeyError "current"))
  ∧ (∀ c,
      WeatherInsights.current weather_data = Some c →
      WeatherInsights.daily weather_data = None →
      process_weather_for_llm weather_data city_name = Raise (KeyError "daily"))
  ∧ (∀ c d,
      WeatherInsights.current weather_data = Some c →
      WeatherInsights.daily weather_data = Some d →
      ((∃ processed,
          process_weather_for_llm weather_data city_name = Return processed)
       ↔ ∀ i,
           (Z.of_nat i
            < Z.min 5 (Z.of_nat (length (WeatherInsights.daily_time d))))%Z →
           Behaviour.day_complete fromisoformat d i)
      ∧ ((∃ processed,
            process_weather_for_llm weather_data city_name = Return processed)
         ∨ ∃ e, process_weather_for_llm weather_data city_name = Raise e))
  ∧ (∀ processed,
      process_weather_for_llm weather_data city_name = Return processed →
      length (WeatherInsights.forecast processed) ≤ 5).
Proof.
  unfold WeatherInsights.process_weather_for_llm.
  split; [| split; [| split]].
  - intros ->. reflexivity.
  - intros c -> ->. reflexivity.
  - intros c d -> ->. simpl.
    set (n := Z.min 5 (Z.of_nat (length (WeatherInsights.daily_time d)))).
    split.
    + split.
      * intros [processed Hprocessed] i Hi.
        destruct (for_each (daily_summary d) (range n)) as [days |] eqn:Hdays;
          [| discriminate].
        apply daily_summary_returns_iff.
        apply (proj1 (for_each_returns_iff (daily_summary d) (range n))).
        -- by exists days.
        -- unfold range. apply elem_of_seq. lia.
      * intros Hcomplete.
        destruct (for_each_returns (daily_summary d) (range n)) as [days ->].
        -- intros i Hi. apply daily_summary_returns_iff, Hcomplete.
           unfold range in Hi. apply elem_of_seq in Hi. lia.
        -- by eexists.
    + destruct (for_each (daily_summary d) (range n)) as [days | e];
        [left | right]; by eexists.
  - intros processed.
    destruct (WeatherInsights.current weather_data) as [c |];
      simpl; [| discriminate].
    destruct (WeatherInsights.daily weather_data) as [d |];
      simpl; [| discriminate].
    destruct (for_each _ _) as [days |] eqn:Hdays; simpl; [| discriminate].
    intros [= <-]. simpl.
    destruct (for_each_range_lookup _ _ _ Hdays) as [-> _]. lia.
Qed.

End InsightsEdges.

Lemma process_weather_for_llm_failures_witness :
  WeatherInsights.process_weather_for_llm Fixtures.round1
    Fixtures.fromisoformat Fixtures.strftime
    {| WeatherInsights.current := None;
       WeatherInsights.daily := WeatherInsights.daily Fixtures.insights_response |}
    "Atlanta"
  = Raise (KeyError "current").
Proof.
  apply (proj1 (process_weather_for_llm_failures Fixtures.round1
                  Fixtures.fromisoformat Fixtures.strftime _ "Atlanta")).
  reflexivity.
Defined.

Lemma compared_cities_are_clean_witness :
  2 ≤ length (WeatherInsights.compared_cities
                ("Atlanta" ++ nl ++ " New York " ++ nl ++ nl ++ "Miami")%string).1.
Proof.
  apply (proj2 (proj2 (compared_cities_are_clean
                         ("Atlanta" ++ nl ++ " New York " ++ nl ++ nl
                          ++ "Miami")%string))).
  vm_compute. reflexivity.
Defined.

(** ** The temperature range of the packing mode *)

Lemma fold_min_below (rest : list number) (best : number) :
  let least :=
    fold_left (fun best y => if Qlt_le_dec y best then y else best) rest best in
  Qle least best ∧ Forall (Qle least) rest.
Proof.
  revert best. induction rest as [| y rest IH]; intros best; simpl.
  - split; [apply Qle_refl | constructor].
  - destruct (IH (if Qlt_le_dec y best then y else best)) as [Hbest Hrest].
    destruct (Qlt_le_dec y best) as [Hlt | Hle].
    + split; [eapply Qle_trans; [exact Hbest | by apply Qlt_le_weak] |].
      by constructor.
    + split; [done |]. constructor; [| done].
      eapply Qle_trans; [exact Hbest | exact Hle].
Qed.

Lemma fold_max_above (rest : list number) (best : number) :
  let most :=
    fold_left (fun best y => if Qlt_le_dec best y then y else best) rest best in
  Qle best most ∧ Forall (fun y => Qle y most) rest.
Proof.
  revert best. induction rest as [| y rest IH]; intros best; simpl.
  - split; [apply Qle_refl | constructor].
  - destruct (IH (if Qlt_le_dec best y then y else best)) as [Hbest Hrest].
    destruct (Qlt_le_dec best y) as [Hlt | Hle].
    + split; [eapply Qle_trans; [by apply Qlt_le_weak | exact Hbest] |].
      by constructor.
    + split; [done |]. constructor; [| done].
      eapply Qle_trans; [exact Hle | exact Hbest].
Qed.

Lemma py_min_below (xs : list number) (low : number) :
  WeatherInsights.py_min xs = Return low → Forall (Qle low) xs.
Proof.
  destruct xs as [| x rest]; simpl; [discriminate |].
  intros [= <-]. destruct (fold_min_below rest x). by constructor.
Qed.

Lemma py_max_above (xs : list number) (high : number) :
  WeatherInsights.py_max xs = Return high → Forall (fun y => Qle y high) xs.
Proof.
  destruct xs as [| x rest]; simpl; [discriminate |].
  intros [= <-]. destruct (fold_max_above rest x). by constructor.
Qed.

(** X10: the "Temp Range" metric of the packing mode raises a ValueError
    exactly when the context has no daily summary, which is the context
    preprocessing returns for a response whose daily block is empty;
    otherwise the two ends it shows enclose the minimum and the maximum
    temperature of every day of the context. *)
Theorem packing_temp_range_edges :
  (∀ weather_context,
      WeatherInsights.forecast weather_context = [] ↔
      ∃ text,
        WeatherInsights.packing_temp_range weather_context
        = Raise (ValueError text))
  ∧ (∀ weather_context low high,
      WeatherInsights.packing_temp_range weather_context = Return (low, high) →
      Forall (fun day =>
                Qle low (WeatherInsights.temp_min day)
                ∧ Qle low (WeatherInsights.temp_max day)
                ∧ Qle (WeatherInsights.temp_min day) high
                ∧ Qle (WeatherInsights.temp_max day) high)
        (WeatherInsights.forecast weather_context))
  ∧ (∀ (round1 : number → number) (Datetime : Type)
       (fromisoformat : string → Outcome Datetime)
       (strftime : Datetime → string → string) weather_data city_name c d,
      WeatherInsights.current weather_data = Some c →
      WeatherInsights.daily weather_data = Some d →
      WeatherInsights.daily_time d = [] →
      ∃ weather_context text,
        WeatherInsights.process_weather_for_llm round1 fromisoformat strftime
          weather_data city_name = Return weather_context
        ∧ WeatherInsights.packing_temp_range weather_context
          = Raise (ValueError text)).
Proof.
  split; [| split].
  - intros weather_context. unfold WeatherInsights.packing_temp_range.
    destruct (WeatherInsights.forecast weather_context) as [| day days]; simpl.
    + split; [by eexists | done].
    + split; [discriminate |]. intros [text Hraised]. discriminate.
  - intros weather_context low high.
    unfold WeatherInsights.packing_temp_range. cbv zeta.
    destruct (WeatherInsights.py_min _) as [least |] eqn:Hmin;
      simpl; [| discriminate].
    destruct (WeatherInsights.py_max _) as [most |] eqn:Hmax;
      simpl; [| discriminate].
    intros [= <- <-].
    apply py_min_below in Hmin. apply py_max_above in Hmax.
    rewrite Forall_app, !Forall_fmap in Hmin, Hmax.
    destruct Hmin as [Hmin_max Hmin_min], Hmax as [Hmax_max Hmax_min].
    rewrite Forall_forall in Hmin_max, Hmin_min, Hmax_max, Hmax_min.
    apply Forall_forall. intros day Hday.
    specialize (Hmin_max day Hday). specialize (Hmin_min day Hday).
    specialize (Hmax_max day Hday). specialize (Hmax_min day Hday).
    done.
  - intros round1 Datetime fromisoformat strftime weather_data city_name c d
      Hcurrent Hdaily Hempty.
    unfold WeatherInsights.process_weather_for_llm.
    rewrite Hcurrent, Hdaily. simpl. rewrite Hempty. simpl.
    eexists. eexists. split; reflexivity.
Qed.

Lemma packing_temp_range_edges_witness :
  ∃ low high,
    (WeatherInsights.process_weather_for_llm Fixtures.round1
       Fixtures.fromisoformat Fixtures.strftime
       Fixtures.insights_response "Atlanta"
     ≫= WeatherInsights.packing_temp_range) = Return (low, high)
    ∧ Qle low (13.1)%Q ∧ Qle (24.3)%Q high.
Proof.
  destruct (WeatherInsights.process_weather_for_llm Fixtures.round1
              Fixtures.fromisoformat Fixtures.strftime
              Fixtures.insights_response "Atlanta")
    as [weather_context |] eqn:Hcontext; [| discriminate].
  destruct (WeatherInsights.packing_temp_range weather_context)
    as [[low high] |] eqn:Hrange.
  - exists low, high. split; [exact Hrange |].
    pose proof (proj1 (proj2 packing_temp_range_edges)
                  weather_context low high Hrange) as Hbounds.
    vm_compute in Hcontext. injection Hcontext as <-.
    rewrite Forall_forall in Hbounds. split.
    + apply (Hbounds {| WeatherInsights.date := "2024-05-02";
                        WeatherInsights.temp_max := (22.1)%Q;
                        WeatherInsights.temp_min := (13.1)%Q;
                        WeatherInsights.precipitation := (0.0)%Q;
                        WeatherInsights.wind_max := (12.9)%Q;
                        WeatherInsights.day_condition := "Overcast" |}).
      right. left.
    + apply (Hbounds {| WeatherInsights.date := "2024-05-01";
                        WeatherInsights.temp_max := (24.3)%Q;
                        WeatherInsights.temp_min := (14.8)%Q;
                        WeatherInsights.precipitation := (2.4)%Q;
                        WeatherInsights.wind_max := (17.6)%Q;
                        WeatherInsights.day_condition := "Slight rain" |}).
      left.
  - exfalso. vm_compute in Hcontext. injection Hcontext as <-.
    vm_compute in Hrange. discriminate.
Defined.

(** ** Substrings *)

Lemma string_app_assoc (a b c : string) :
  ((a ++ b) ++ c)%string = (a ++ (b ++ c))%string.
Proof.
  induction a as [| x a IH]; [reflexivity |].
  rewrite !append_cons. by rewrite IH.
Qed.

Lemma substring_is_prefix (n : nat) (s : string) :
  ∃ q, s = (String.substring 0 n s ++ q)%string.
Proof.
  revert s. induction n as [| n IH]; intros s.
  - exists s. by destruct s.
  - destruct s as [| c rest]; [by exists "" |].
    destruct (IH rest) as [q Hq]. exists q. simpl.
    rewrite append_cons. by rewrite <- Hq.
Qed.

Lemma substring_is_infix (m n : nat) (s : string) :
  ∃ p q, s = (p ++ String.substring m n s ++ q)%string.
Proof.
  revert s. induction m as [| m IH]; intros s.
  - destruct (substring_is_prefix n s) as [q Hq]. by exists "", q.
  - destruct s as [| c rest]; [by exists "", "" |].
    destruct (IH rest) as (p & q & Hrest).
    exists (String c p), q. simpl. rewrite append_cons. by rewrite <- Hrest.
Qed.

(** A text that contains [e] is [e] between two other texts. *)
Lemma contains_split (e s : string) :
  PyStr.contains e s = true → ∃ p q, s = (p ++ e ++ q)%string.
Proof.
  unfold PyStr.contains, PyStr.find.
  destruct (String.index 0 e s) as [m |] eqn:Hindex; [| discriminate].
  intros _. apply index_correct1 in Hindex.
  destruct (substring_is_infix m (String.length e) s) as (p & q & Hs).
  exists p, q. by rewrite Hindex in Hs.
Qed.

Lemma contains_app_r (e p s : string) :
  PyStr.contains e s = true → PyStr.contains e (p ++ s)%string = true.
Proof.
  intros (p' & q' & ->)%contains_split.
  rewrite <- string_app_assoc. apply contains_infix.
Qed.

Lemma contains_trans (a b c : string) :
  PyStr.contains a b = true → PyStr.contains b c = true →
  PyStr.contains a c = true.
Proof.
  intros (p & q & ->)%contains_split (p' & q' & ->)%contains_split.
  rewrite !string_app_assoc, <- (string_app_assoc p' p).
  apply contains_infix.
Qed.

(** ** The LLM wrappers, continued *)

Section LlmWrappers.

Context {ContextData WeatherInfo : Type}.
Variable dump_context : ContextData → string.
Variable gemini : string → string → LlmResult.
Variable dump_info : WeatherInfo → string.
Variable send_message : string → LlmResult.

(** X11: an error is taken for a rate limit as soon as its lowercased text
    contains "rate" anywhere, also inside another word such as "generate"
    or "moderate": the insights page then answers with its rate-limit
    message, and the chatbot with one of its two rate messages. *)
Theorem rate_inside_a_word_is_a_rate_limit (word e : string) :
  PyStr.contains "rate" word = true →
  PyStr.contains word (PyStr.lower e) = true →
  (∀ prompt context_data gemini_key,
      gemini gemini_key
        (WeatherInsights.full_prompt dump_context prompt context_data)
      = LlmFailed e →
      WeatherInsights.generate_ai_insights dump_context gemini prompt
        context_data gemini_key
      = "⚠️ API rate limit reached. Please wait a moment and try again.")
  ∧ (∀ user_message weather_data,
      send_message
        (WeatherChatbot.chat_context dump_info user_message weather_data)
      = LlmFailed e →
      WeatherChatbot.get_chatbot_response dump_info send_message user_message
        weather_data
      ∈ ["⚠️ Rate limit reached. Please wait and try again.";
         "⚠️ Too many requests. Please slow down."]).
Proof.
  intros Hword He.
  pose proof (contains_trans _ _ _ Hword He) as Hrate.
  split.
  - intros prompt context_data gemini_key Hfailed.
    unfold WeatherInsights.generate_ai_insights. rewrite Hfailed. cbv zeta.
    by rewrite Hrate, orb_true_r.
  - intros user_message weather_data Hfailed.
    unfold WeatherChatbot.get_chatbot_response. cbv zeta. rewrite Hfailed.
    rewrite Hrate.
    destruct (PyStr.contains "quota" (PyStr.lower e)
              || PyStr.contains "resource_exhausted" (PyStr.lower e));
      simpl; [by left | right; by left].
Qed.

(** X12: what is sent to the LLM carries the user's text and the data
    unchanged: the prompt of the insights page contains the request and
    the JSON of the context, the chatbot's message contains the user's
    message and the JSON of the weather when there is one, and is the
    user's message alone when there is none. *)
Theorem prompts_carry_request_and_data :
  (∀ prompt context_data,
      PyStr.contains prompt
        (WeatherInsights.full_prompt dump_context prompt context_data) = true
      ∧ PyStr.contains (dump_context context_data)
          (WeatherInsights.full_prompt dump_context prompt context_data) = true)
  ∧ (∀ user_message info,
      PyStr.contains user_message
        (WeatherChatbot.chat_context dump_info user_message (Some info)) = true
      ∧ PyStr.contains (dump_info info)
          (WeatherChatbot.chat_context dump_info user_message (Some info))
        = true)
  ∧ (∀ user_message,
      WeatherChatbot.chat_context dump_info user_message None = user_message).
Proof.
  split; [| split; [| reflexivity]].
  - intros prompt context_data. unfold WeatherInsights.full_prompt. split.
    + do 10 apply contains_app_r. apply (contains_infix "").
    + do 5 apply contains_app_r. apply (contains_infix "").
  - intros user_message info. unfold WeatherChatbot.chat_context. split.
    + do 7 apply contains_app_r. apply (contains_infix "").
    + do 3 apply contains_app_r. apply (contains_infix "").
Qed.

End LlmWrappers.

Lemma rate_inside_a_word_is_a_rate_limit_witness :
  WeatherInsights.generate_ai_insights (ContextData := string) id
    (fun _ _ =>
       LlmFailed "404 models/gemini-pro is not supported for generateContent.")
    "Plan my week" "{}" "key"
  = "⚠️ API rate limit reached. Please wait a moment and try again.".
Proof.
  apply (proj1 (rate_inside_a_word_is_a_rate_limit (ContextData := string)
                  (WeatherInfo := string) id
                  (fun _ _ =>
                     LlmFailed
                       "404 models/gemini-pro is not supported for generateContent.")
                  id (fun _ => Generated "")
                  "generatecontent"
                  "404 models/gemini-pro is not supported for generateContent."
                  eq_refl eq_refl)).
  reflexivity.
Defined.

(** ** The weather fetched for the chat *)

Section ChatFetch.

Variable geocode : string → WeatherChatbot.Geocoded.
Variable requests_get :
  WeatherAnalysis.Request → HttpResult WeatherChatbot.ChatResponse.
Variable round1 : number → number.
Context {Datetime : Type}.
Variable fromisoformat : string → Outcome Datetime.
Variable strftime : Datetime → string → string.

#[local] Opaque WeatherChatbot.weather_desc.

#[local] Abbreviation hour_forecast :=
  (WeatherChatbot.hour_forecast round1 fromisoformat strftime).
#[local] Abbreviation weather_info_of :=
  (WeatherChatbot.weather_info_of round1 fromisoformat strftime).
#[local] Abbreviation fetch_weather_for_chatbot :=
  (WeatherChatbot.fetch_weather_for_chatbot geocode requests_get round1
     fromisoformat strftime).

Lemma hour_forecast_returns_iff h i :
  Spec.returns (hour_forecast h i)
  ↔ Behaviour.chat_hour_complete fromisoformat h i.
Proof.
  unfold WeatherChatbot.hour_forecast, Behaviour.chat_hour_complete, index_list.
  destruct (WeatherChatbot.hourly_time h !! i) as [[stamp |] |]; simpl;
    [| split; [intros [? [=]] | intros ((? & [=] & _) & _)]
     | split; [intros [? [=]] | intros ((? & [=] & _) & _)]].
  destruct (fromisoformat stamp) as [parsed | e] eqn:Hparsed; simpl;
    [| split; [intros [? [=]]
              | intros ((? & [= <-] & [? Hreturns]) & _); congruence]].
  destruct (WeatherChatbot.hourly_temperature_2m h !! i) as [[reading |] |];
    simpl;
    [| split; [intros [? [=]] | intros (_ & [? [=]] & _)]
     | split; [intros [? [=]] | intros (_ & [? [=]] & _)]].
  destruct (WeatherChatbot.hourly_weather_code h !! i); simpl;
    [| split; [intros [? [=]] | intros (_ & _ & [? [=]])]].
  split; [| intros _; by eexists].
  intros _. repeat split; try (by eexists).
  exists stamp. split; [done |]. by exists parsed.
Qed.

(** When the dict is built out of a response. *)
Lemma weather_info_of_returns_iff data city :
  Spec.returns (weather_info_of data city)
  ↔ ∃ c h,
      WeatherChatbot.current data = Some c
      ∧ Behaviour.chat_current_complete c
      ∧ WeatherChatbot.hourly data = Some h
      ∧ ∀ i,
          (Z.of_nat i
           < Z.min 24 (Z.of_nat (length (WeatherChatbot.hourly_time h))))%Z →
          Behaviour.chat_hour_complete fromisoformat h i.
Proof.
  unfold WeatherChatbot.weather_info_of, Behaviour.chat_current_complete.
  destruct (WeatherChatbot.current data) as [c |]; simpl;
    [| split; [intros [? [=]] | intros (? & ? & [=] & _)]].
  destruct (WeatherChatbot.current_temperature_2m c) as [temperature |]
    eqn:Htemperature; simpl;
    [| split; [intros [? [=]]
              | intros (? & ? & [= <-] & ([? Hnull] & _) & _); congruence]].
  destruct (WeatherChatbot.current_apparent_temperature c) as [feels_like |]
    eqn:Hfeels; simpl;
    [| split; [intros [? [=]]
              | intros (? & ? & [= <-] & (_ & [? Hnull] & _) & _); congruence]].
  destruct (WeatherChatbot.current_wind_speed_10m c) as [wind_speed |] eqn:Hwind;
    simpl;
    [| split; [intros [? [=]]
              | intros (? & ? & [= <-] & (_ & _ & [? Hnull]) & _); congruence]].
  destruct (WeatherChatbot.hourly data) as [h |]; simpl;
    [| split; [intros [? [=]] | intros (? & ? & _ & _ & [=] & _)]].
  set (n := Z.min 24 (Z.of_nat (length (WeatherChatbot.hourly_time h)))).
  split.
  - intros [info Hinfo]. exists c, h. split; [done |].
    split; [rewrite Htemperature, Hfeels, Hwind; repeat split; by eexists |].
    split; [done |].
    intros i Hi.
    destruct (for_each (hour_forecast h) (range n)) as [hours |] eqn:Hhours;
      [| discriminate].
    apply hour_forecast_returns_iff.
    apply (proj1 (for_each_returns_iff (hour_forecast h) (range n))).
    + by exists hours.
    + unfold range. apply elem_of_seq. lia.
  - intros (c' & h' & [= <-] & _ & [= <-] & Hcomplete).
    destruct (for_each_returns (hour_forecast h) (range n)) as [hours ->].
    + intros i Hi. apply hour_forecast_returns_iff, Hcomplete.
      unfold range in Hi. apply elem_of_seq in Hi. fold n. lia.
    + by eexists.
Qed.

(** X13: [fetch_weather_for_chatbot] gives weather exactly when the
    geocoder locates the city, the request succeeds, the response has the
    current block with numbers for the temperature, the apparent
    temperature and the wind speed, and the hourly block with complete
    entries for the first min(24, len(time)) hours: a timestamp that
    [fromisoformat] reads and a temperature that is a number. In every
    other case, a short array, an unreadable timestamp or a [null] where
    the code rounds included, it gives [None] and does not raise. A
    [null] humidity or weather code does not stop it. The weather it gives
    is for the city asked, with at most 24 hours. *)
Theorem fetch_weather_for_chatbot_some_iff (city : string) :
  ((∃ weather_info, fetch_weather_for_chatbot city = Some weather_info)
   ↔ ∃ lat lon data c h,
       geocode city = WeatherChatbot.Located lat lon
       ∧ requests_get (WeatherChatbot.chat_request lat lon) = HttpOk data
       ∧ WeatherChatbot.current data = Some c
       ∧ Behaviour.chat_current_complete c
       ∧ WeatherChatbot.hourly data = Some h
       ∧ ∀ i,
           (Z.of_nat i
            < Z.min 24 (Z.of_nat (length (WeatherChatbot.hourly_time h))))%Z →
           Behaviour.chat_hour_complete fromisoformat h i)
  ∧ (∀ weather_info,
      fetch_weather_for_chatbot city = Some weather_info →
      WeatherChatbot.city weather_info = city
      ∧ length (WeatherChatbot.forecast_next_hours weather_info) ≤ 24).
Proof.
  unfold WeatherChatbot.fetch_weather_for_chatbot,
    WeatherChatbot.get_coordinates.
  split.
  - split.
    + intros [weather_info Hfetched].
      destruct (geocode city) as [lat lon | |]; [| discriminate | discriminate].
      destruct (requests_get _) as [data |] eqn:Hdata; [| discriminate].
      destruct (weather_info_of data city) as [info |] eqn:Hinfo;
        [| discriminate].
      destruct (proj1 (weather_info_of_returns_iff data city))
        as (c & h & Hc & Hnumbers & Hh & Hcomplete); [by exists info |].
      by exists lat, lon, data, c, h.
    + intros (lat & lon & data & c & h & -> & -> & Hc & Hnumbers & Hh
              & Hcomplete).
      destruct (proj2 (weather_info_of_returns_iff data city))
        as [info ->]; [by exists c, h |].
      by exists info.
  - intros weather_info.
    destruct (geocode city) as [lat lon | |]; [| discriminate | discriminate].
    destruct (requests_get _) as [data |]; [| discriminate].
    unfold WeatherChatbot.weather_info_of.
    destruct (WeatherChatbot.current data) as [c |]; simpl; [| discriminate].
    destruct (WeatherChatbot.current_temperature_2m c); simpl;
      [| discriminate].
    destruct (WeatherChatbot.current_apparent_temperature c); simpl;
      [| discriminate].
    destruct (WeatherChatbot.current_wind_speed_10m c); simpl;
      [| discriminate].
    destruct (WeatherChatbot.hourly data) as [h |]; simpl; [| discriminate].
    destruct (for_each _ _) as [hours |] eqn:Hhours; simpl; [| discriminate].
    intros [= <-]. simpl. split; [reflexivity |].
    destruct (for_each_range_lookup _ _ _ Hhours) as [-> _]. lia.
Qed.

End ChatFetch.

(** ** City extraction, continued *)

Lemma lstrip_is_suffix (s : string) :
  ∃ before, s = (before ++ PyStr.lstrip s)%string.
Proof.
  induction s as [| c rest IH]; [by exists "" |]. simpl.
  destruct (PyStr.isspace c); [| by exists ""].
  destruct IH as [before Hrest]. exists (String c before).
  rewrite append_cons. by rewrite <- Hrest.
Qed.

Lemma rstrip_is_prefix (s : string) :
  ∃ after, s = (PyStr.rstrip s ++ after)%string.
Proof.
  induction s as [| c rest IH]; [by exists "" |].
  rewrite rstrip_cons. destruct IH as [after Hrest].
  destruct (PyStr.rstrip rest) as [| d kept].
  - destruct (PyStr.isspace c).
    + by exists (String c rest).
    + exists after. rewrite append_cons. by rewrite <- Hrest.
  - exists after. rewrite append_cons. by rewrite <- Hrest.
Qed.

Lemma cut_is_prefix (s : string) :
  ∃ after, s = (WeatherChatbot.cut_at_delimiters s ++ after)%string.
Proof.
  induction s as [| c rest IH]; [by exists "" |].
  rewrite cut_at_delimiters_cons.
  destruct (Spec.is_delimiter c); [by exists (String c rest) |].
  destruct IH as [after Hrest]. exists after.
  rewrite append_cons. by rewrite <- Hrest.
Qed.

Lemma slice_from_is_suffix (start : nat) (s : string) :
  ∃ before, s = (before ++ PyStr.slice_from start s)%string.
Proof.
  revert s. induction start as [| start IH]; intros s; [by exists "" |].
  destruct s as [| c rest]; [by exists "" |].
  destruct (IH rest) as [before Hrest]. exists (String c before). simpl.
  rewrite append_cons. by rewrite <- Hrest.
Qed.

Lemma cut_lacks_delimiters (s : string) :
  Behaviour.lacks_delimiters (WeatherChatbot.cut_at_delimiters s) = true.
Proof.
  induction s as [| c rest IH]; [reflexivity |].
  rewrite cut_at_delimiters_cons.
  destruct (Spec.is_delimiter c) eqn:Hdelimiter; [reflexivity |].
  simpl. by rewrite Hdelimiter, IH.
Qed.

Lemma lacks_delimiters_lstrip (s : string) :
  Behaviour.lacks_delimiters s = true →
  Behaviour.lacks_delimiters (PyStr.lstrip s) = true.
Proof.
  induction s as [| d rest IH]; [done |]. simpl.
  intros [Hhead Hrest]%andb_prop.
  destruct (PyStr.isspace d); [by apply IH |].
  simpl. by rewrite Hhead, Hrest.
Qed.

Lemma lacks_delimiters_rstrip (s : string) :
  Behaviour.lacks_delimiters s = true →
  Behaviour.lacks_delimiters (PyStr.rstrip s) = true.
Proof.
  induction s as [| d rest IH]; [done |].
  intros Hlacks. simpl in Hlacks.
  apply andb_prop in Hlacks as [Hhead Hrest]. rewrite rstrip_cons.
  specialize (IH Hrest).
  destruct (PyStr.rstrip rest) as [| e kept].
  - destruct (PyStr.isspace d); [reflexivity |]. simpl. by rewrite Hhead.
  - simpl in *. by rewrite Hhead, IH.
Qed.

(** X14: a city [extract_city_from_message] returns is never empty, has no
    whitespace around it, holds none of '?', ',' and '.', and is a piece of
    the message as it was typed, letter case included. *)
Theorem extracted_city_is_clean (message city : string) :
  WeatherChatbot.extract_city_from_message message = Some city →
  city ≠ ""
  ∧ PyStr.strip city = city
  ∧ Behaviour.lacks_delimiters city = true
  ∧ ∃ before after, message = (before ++ city ++ after)%string.
Proof.
  unfold WeatherChatbot.extract_city_from_message. cbv zeta. intros Hcity.
  pose proof (extract_city_loop_result message WeatherChatbot.patterns)
    as Hresult.
  rewrite Hcity in Hresult.
  destruct Hresult as (_ & pattern & _ & idx & _ & _ & _ & -> & Hnonempty).
  split; [done |]. unfold WeatherChatbot.city_after. cbv zeta.
  set (start := idx + String.length pattern).
  split; [apply strip_idempotent |]. split.
  - apply lacks_delimiters_rstrip, lacks_delimiters_lstrip, cut_lacks_delimiters.
  - destruct (slice_from_is_suffix start message) as [a Ha].
    set (tail := PyStr.slice_from start message) in *.
    unfold PyStr.strip at 1.
    destruct (lstrip_is_suffix tail) as [b Hb].
    destruct (rstrip_is_prefix (PyStr.lstrip tail)) as [c Hc].
    fold (PyStr.strip tail) in Hc.
    destruct (cut_is_prefix (PyStr.strip tail)) as [d Hd].
    set (cut := WeatherChatbot.cut_at_delimiters (PyStr.strip tail)) in *.
    destruct (lstrip_is_suffix cut) as [e He].
    destruct (rstrip_is_prefix (PyStr.lstrip cut)) as [f Hf].
    exists (a ++ b ++ e)%string, (f ++ d ++ c)%string.
    rewrite Ha at 1. rewrite Hb at 1. rewrite Hc at 1. rewrite Hd at 1.
    rewrite He at 1. rewrite Hf at 1.
    by rewrite !string_app_assoc.
Qed.

Lemma extracted_city_is_clean_witness :
  ∃ before after,
    "Any forecast for Rome, Italy?" = (before ++ "Rome" ++ after)%string.
Proof.
  apply (extracted_city_is_clean "Any forecast for Rome, Italy?" "Rome").
  vm_compute. reflexivity.
Defined.

Lemma fetch_weather_for_chatbot_some_iff_witness :
  ∃ weather_info,
    WeatherChatbot.fetch_weather_for_chatbot Fixtures.tokyo_geocoder
      Fixtures.chat_api Fixtures.round1 Fixtures.to_datetime Fixtures.strftime
      "Tokyo" = Some weather_info.
Proof.
  apply (proj2 (proj1 (fetch_weather_for_chatbot_some_iff
                         Fixtures.tokyo_geocoder Fixtures.chat_api
                         Fixtures.round1 Fixtures.to_datetime
                         Fixtures.strftime "Tokyo"))).
  eexists _, _, Fixtures.chat_response, _, _.
  split; [reflexivity |]. split; [reflexivity |].
  split; [reflexivity |].
  split; [repeat split; eexists; reflexivity |].
  split; [reflexivity |].
  intros i Hi. simpl in Hi.
  destruct i as [| [| i]]; [| | lia];
    (split; [eexists; split; [reflexivity | eexists; reflexivity] |]);
    split; eexists; reflexivity.
Defined.

(** ** The chat page *)

Section ChatPage.

Context {ChatHandle Model Datetime : Type}.

#[local] Abbreviation State := (WeatherChatbot.ChatState ChatHandle Model).
#[local] Abbreviation Services :=
  (WeatherChatbot.Services ChatHandle Model Datetime).

(** What the initialization block does to the transcript. *)
Lemma initialize_adds (services : Services) key (state : State) :
  ∃ added,
    WeatherChatbot.chat_messages (WeatherChatbot.initialize services key state)
    = WeatherChatbot.chat_messages state ++ added
    ∧ length added ≤ 1.
Proof.
  unfold WeatherChatbot.initialize.
  destruct (WeatherChatbot.chatbot_initialized state).
  - exists []. rewrite app_nil_r. split; [done | simpl; lia].
  - destruct (WeatherChatbot.initialize_chatbot services key) as [[chat model] |].
    + eexists [_]. split; [reflexivity | simpl; lia].
    + exists []. rewrite app_nil_r. split; [done | simpl; lia].
Qed.

Lemma initialize_ready (services : Services) key (state : State) :
  Behaviour.chat_ready state →
  Behaviour.chat_ready (WeatherChatbot.initialize services key state).
Proof.
  unfold WeatherChatbot.initialize, Behaviour.chat_ready. intros Hready.
  destruct (WeatherChatbot.chatbot_initialized state) eqn:Hflag;
    [intros _; by apply Hready |].
  destruct (WeatherChatbot.initialize_chatbot services key) as [[chat model] |];
    simpl; [| intros Hset; congruence].
  intros _. split; [by eexists |].
  apply elem_of_app. right. by left.
Qed.

Lemma append_message_ready (state : State) role content :
  Behaviour.chat_ready state →
  Behaviour.chat_ready (WeatherChatbot.append_message state role content).
Proof.
  unfold Behaviour.chat_ready. simpl. intros Hready Hflag.
  destruct (Hready Hflag) as [Hsession Hwelcome].
  split; [done |]. apply elem_of_app. by left.
Qed.

(** A second initialization right after a message was appended changes
    nothing: the client is asked again only if it just refused. *)
Lemma initialize_again (services : Services) key (state : State) role content :
  WeatherChatbot.initialize services key
    (WeatherChatbot.append_message
       (WeatherChatbot.initialize services key state) role content)
  = WeatherChatbot.append_message
      (WeatherChatbot.initialize services key state) role content.
Proof.
  unfold WeatherChatbot.initialize.
  destruct (WeatherChatbot.chatbot_initialized state) eqn:Hflag.
  - simpl. by rewrite Hflag.
  - destruct (WeatherChatbot.initialize_chatbot services key)
      as [[chat model] |] eqn:Hclient; [done |].
    simpl. by rewrite Hflag.
Qed.

Lemma script_pass_ready (services : Services) event (state : State) :
  Behaviour.chat_ready state →
  Behaviour.chat_ready (WeatherChatbot.script_pass services event state).1.
Proof.
  intros Hready. unfold WeatherChatbot.script_pass.
  destruct (WeatherChatbot.gemini_key services) as [key |]; [| done].
  destruct (negb (PyStr.truthy key)); [done |].
  pose proof (initialize_ready services key state Hready) as Hinit.
  destruct event as [| text | | selected | position]; simpl.
  - done.
  - destruct (PyStr.truthy text); [| done].
    unfold WeatherChatbot.answer.
    by apply append_message_ready, append_message_ready.
  - unfold Behaviour.chat_ready. simpl. discriminate.
  - destruct (WeatherChatbot.quick_options !! selected) as [option |]; [| done].
    destruct (negb (String.eqb option "Choose city...")); [| done].
    by apply append_message_ready.
  - destruct (WeatherChatbot.suggestions !! position) as [suggestion |];
      [| done].
    by apply append_message_ready.
Qed.

Lemma run_ready (services : Services) event (state : State) :
  Behaviour.chat_ready state →
  Behaviour.chat_ready (WeatherChatbot.run services event state).
Proof.
  intros Hready. unfold WeatherChatbot.run.
  pose proof (script_pass_ready services event state Hready) as Hpass.
  destruct (WeatherChatbot.script_pass services event state)
    as [after rerun]. simpl in Hpass.
  destruct rerun; [| done]. by apply script_pass_ready.
Qed.

(** X15: in every state the chat page reaches from a fresh session,
    whatever the user does and the services answer, the page takes the
    chatbot for initialized only when the session holds a chat handle and
    the transcript holds the welcome message. *)
Theorem initialized_chat_has_a_handle (state : State) :
  Behaviour.chat_reachable (Datetime := Datetime) state →
  WeatherChatbot.chatbot_initialized state = true →
  is_Some (WeatherChatbot.chat_session state)
  ∧ Behaviour.welcome_message ∈ WeatherChatbot.chat_messages state.
Proof.
  intros Hreachable. change (Behaviour.chat_ready state).
  induction Hreachable as [| state services event _ IH].
  - unfold Behaviour.chat_ready. simpl. discriminate.
  - by apply run_ready.
Qed.

Lemma script_pass_adds (services : Services) event (state : State) :
  event ≠ WeatherChatbot.ClearChat →
  ∃ added,
    WeatherChatbot.chat_messages
      (WeatherChatbot.script_pass services event state).1
    = WeatherChatbot.chat_messages state ++ added
    ∧ length added
      ≤ match event with
        | WeatherChatbot.NoEvent => 1
        | WeatherChatbot.Prompt _ => 3
        | _ => 2
        end.
Proof.
  intros Hevent. unfold WeatherChatbot.script_pass.
  destruct (WeatherChatbot.gemini_key services) as [key |];
    [| exists []; rewrite app_nil_r; split; [done | destruct event; simpl; lia]].
  destruct (negb (PyStr.truthy key));
    [exists []; rewrite app_nil_r; split; [done | destruct event; simpl; lia] |].
  destruct (initialize_adds services key state) as (added & Hadded & Hlen).
  destruct event as [| text | | selected | position]; simpl.
  - by exists added.
  - destruct (PyStr.truthy text).
    + eexists (added ++ [_; _]). simpl. rewrite Hadded.
      rewrite <- !app_assoc. split; [reflexivity |].
      rewrite length_app. simpl. lia.
    + exists added. split; [done | lia].
  - done.
  - destruct (WeatherChatbot.quick_options !! selected) as [option |];
      [| exists added; split; [done | lia]].
    destruct (negb (String.eqb option "Choose city..."));
      [| exists added; split; [done | lia]].
    eexists (added ++ [_]). simpl. rewrite Hadded, <- app_assoc.
    split; [reflexivity |]. rewrite length_app. simpl. lia.
  - destruct (WeatherChatbot.suggestions !! position) as [suggestion |];
      [| exists added; split; [done | lia]].
    eexists (added ++ [_]). simpl. rewrite Hadded, <- app_assoc.
    split; [reflexivity |]. rewrite length_app. simpl. lia.
Qed.

(** X16: the transcript is append-only. A run of the page for anything but
    the clear button keeps every earlier message in place and adds at most
    three messages after them. *)
Theorem transcript_only_grows (services : Services) event (state : State) :
  event ≠ WeatherChatbot.ClearChat →
  ∃ added,
    WeatherChatbot.chat_messages (WeatherChatbot.run services event state)
    = WeatherChatbot.chat_messages state ++ added
    ∧ length added ≤ 3.
Proof.
  intros Hevent. unfold WeatherChatbot.run.
  destruct (script_pass_adds services event state Hevent)
    as (added & Hadded & Hlen).
  destruct (WeatherChatbot.script_pass services event state)
    as [after rerun] eqn:Hpass. simpl in Hadded.
  destruct rerun.
  - destruct (script_pass_adds services WeatherChatbot.NoEvent after)
      as (more & Hmore & Hmore_len); [done |].
    exists (added ++ more). rewrite Hmore, Hadded, <- app_assoc.
    split; [done |]. rewrite length_app.
    destruct event; try done; try lia.
    (* a typed message never ends in a rerun *)
    exfalso. revert Hpass. unfold WeatherChatbot.script_pass.
    destruct (WeatherChatbot.gemini_key services) as [key |]; [| by intros [=]].
    destruct (negb (PyStr.truthy key)); by intros [=].
  - exists added. split; [done |]. destruct event; lia.
Qed.

(** Without a chat handle every reply is the same error text. *)
Lemma reply_without_handle (services : Services) user_message weather_data :
  WeatherChatbot.get_chatbot_response (WeatherChatbot.json_dumps services)
    (WeatherChatbot.send_to_session services None) user_message weather_data
  = ("⚠️ Error: 'NoneType' object has no attribute 'send_message'"
     ++ nl ++ nl ++ "Please try rephrasing!")%string.
Proof.
  unfold WeatherChatbot.get_chatbot_response, WeatherChatbot.send_to_session.
  cbv zeta.
  assert (PyStr.contains "quota"
            (PyStr.lower "'NoneType' object has no attribute 'send_message'")
          || PyStr.contains "resource_exhausted"
               (PyStr.lower "'NoneType' object has no attribute 'send_message'")
          = false) as -> by (vm_compute; reflexivity).
  assert (PyStr.contains "rate"
            (PyStr.lower "'NoneType' object has no attribute 'send_message'")
          || PyStr.contains "429"
               (PyStr.lower "'NoneType' object has no attribute 'send_message'")
          = false) as -> by (vm_compute; reflexivity).
  assert (PyStr.contains "safety"
            (PyStr.lower "'NoneType' object has no attribute 'send_message'")
          || PyStr.contains "blocked"
               (PyStr.lower "'NoneType' object has no attribute 'send_message'")
          = false) as -> by (vm_compute; reflexivity).
  assert (PyStr.contains "invalid"
            (PyStr.lower "'NoneType' object has no attribute 'send_message'")
          || PyStr.contains "api_key"
               (PyStr.lower "'NoneType' object has no attribute 'send_message'")
          = false) as -> by (vm_compute; reflexivity).
  reflexivity.
Qed.

(** X17: a message typed in the chat box gets exactly one reply: the run
    adds the user's message and one assistant message after the transcript
    as the initialization block left it. With no chat handle in the
    session (the LLM client could not be initialized), the reply is the
    generic error message about the missing handle, whatever was asked;
    with a handle and no city read in the message, the reply is the one
    for the bare message, without weather data. *)
Theorem typed_message_gets_one_reply (services : Services) key text
    (state : State) :
  WeatherChatbot.gemini_key services = Some key →
  PyStr.truthy key = true →
  PyStr.truthy text = true →
  let ready := WeatherChatbot.initialize services key state in
  ∃ reply,
    WeatherChatbot.chat_messages
      (WeatherChatbot.run services (WeatherChatbot.Prompt text) state)
    = WeatherChatbot.chat_messages ready
      ++ [{| WeatherChatbot.role := "user"; WeatherChatbot.content := text |};
          {| WeatherChatbot.role := "assistant";
             WeatherChatbot.content := reply |}]
    ∧ (WeatherChatbot.chat_session ready = None →
       reply
       = ("⚠️ Error: 'NoneType' object has no attribute 'send_message'"
          ++ nl ++ nl ++ "Please try rephrasing!")%string)
    ∧ (∀ chat,
        WeatherChatbot.chat_session ready = Some chat →
        WeatherChatbot.extract_city_from_message text = None →
        reply
        = WeatherChatbot.get_chatbot_response
            (WeatherChatbot.json_dumps services)
            (WeatherChatbot.send_message services chat) text None).
Proof.
  intros Hkey Htruthy Htext ready.
  unfold WeatherChatbot.run, WeatherChatbot.script_pass.
  rewrite Hkey, Htruthy, Htext. simpl. fold ready.
  eexists. split; [by rewrite <- app_assoc |]. split.
  - intros ->. apply reply_without_handle.
  - intros chat -> Hnone. unfold WeatherChatbot.weather_for.
    by rewrite Hnone.
Qed.

(** X18: the clear button empties the transcript and restarts the chat.
    When the LLM client can be initialized, the run ends with the welcome
    message alone, the new handle and the page initialized; when it cannot,
    the transcript stays empty and the page is not initialized. *)
Theorem clear_chat_restarts (services : Services) key (state : State) :
  WeatherChatbot.gemini_key services = Some key →
  PyStr.truthy key = true →
  let after := WeatherChatbot.run services WeatherChatbot.ClearChat state in
  match WeatherChatbot.initialize_chatbot services key with
  | Some (chat, model) =>
      after = {|
        WeatherChatbot.chat_messages := [Behaviour.welcome_message];
        WeatherChatbot.chat_session := Some chat;
        WeatherChatbot.chat_model := Some model;
        WeatherChatbot.chatbot_initialized := true
      |}
  | None =>
      WeatherChatbot.chat_messages after = []
      ∧ WeatherChatbot.chatbot_initialized after = false
      ∧ WeatherChatbot.chat_session after = WeatherChatbot.chat_session state
  end.
Proof.
  intros Hkey Htruthy after. subst after.
  unfold WeatherChatbot.run, WeatherChatbot.script_pass.
  rewrite Hkey, Htruthy. simpl.
  unfold WeatherChatbot.initialize at 1. simpl.
  unfold WeatherChatbot.initialize.
  destruct (WeatherChatbot.initialize_chatbot services key) as [[chat model] |];
    [reflexivity |].
  by destruct (WeatherChatbot.chatbot_initialized state).
Qed.

(** X19: the buttons of the sidebar that stand for a question put the
    question in the transcript as a user message and nothing after it: the
    run ends on a user message that gets no reply. The quick fetch does so
    for the city selected, and does nothing while no city is selected. *)
Theorem sidebar_questions_get_no_reply (services : Services) key
    (state : State) :
  WeatherChatbot.gemini_key services = Some key →
  PyStr.truthy key = true →
  let ready := WeatherChatbot.initialize services key state in
  (∀ position suggestion,
      WeatherChatbot.suggestions !! position = Some suggestion →
      WeatherChatbot.run services (WeatherChatbot.Suggestion position) state
      = WeatherChatbot.append_message ready "user" suggestion)
  ∧ (∀ selected city,
      WeatherChatbot.quick_options !! selected = Some city →
      city ≠ "Choose city..." →
      WeatherChatbot.run services (WeatherChatbot.QuickFetch selected) state
      = WeatherChatbot.append_message ready "user"
          ("What's the current weather in " ++ city ++ "?")%string)
  ∧ WeatherChatbot.run services (WeatherChatbot.QuickFetch 0) state = ready.
Proof.
  intros Hkey Htruthy ready.
  unfold WeatherChatbot.run, WeatherChatbot.script_pass.
  rewrite Hkey, Htruthy. simpl. fold ready.
  split; [| split; [| reflexivity]].
  - intros position suggestion ->. simpl. apply initialize_again.
  - intros selected city -> Hcity.
    apply String.eqb_neq in Hcity. rewrite Hcity. simpl.
    apply initialize_again.
Qed.

End ChatPage.

Lemma initialized_chat_has_a_handle_witness :
  is_Some (WeatherChatbot.chat_session
             (WeatherChatbot.run Fixtures.services_with_llm
                (WeatherChatbot.Prompt "weather in Tokyo?")
                WeatherChatbot.fresh_state)).
Proof.
  apply (initialized_chat_has_a_handle (Datetime := string)
           (WeatherChatbot.run Fixtures.services_with_llm
              (WeatherChatbot.Prompt "weather in Tokyo?")
              WeatherChatbot.fresh_state)).
  - apply Behaviour.chat_step, Behaviour.chat_start.
  - reflexivity.
Defined.

Lemma transcript_only_grows_witness :
  ∃ added,
    WeatherChatbot.chat_messages
      (WeatherChatbot.run Fixtures.services_without_llm
         (WeatherChatbot.Suggestion 3) WeatherChatbot.fresh_state)
    = [] ++ added
    ∧ length added ≤ 3.
Proof.
  apply (transcript_only_grows Fixtures.services_without_llm
           (WeatherChatbot.Suggestion 3) WeatherChatbot.fresh_state).
  discriminate.
Defined.

Lemma typed_message_gets_one_reply_witness :
  ∃ reply,
    WeatherChatbot.chat_messages
      (WeatherChatbot.run Fixtures.services_without_llm
         (WeatherChatbot.Prompt "weather in Tokyo?") WeatherChatbot.fresh_state)
    = [{| WeatherChatbot.role := "user";
          WeatherChatbot.content := "weather in Tokyo?" |};
       {| WeatherChatbot.role := "assistant";
          WeatherChatbot.content := reply |}].
Proof.
  destruct (typed_message_gets_one_reply Fixtures.services_without_llm "key"
              "weather in Tokyo?" WeatherChatbot.fresh_state
              eq_refl eq_refl eq_refl)
    as (reply & Htranscript & _).
  exists reply. exact Htranscript.
Defined.

Lemma clear_chat_restarts_witness :
  WeatherChatbot.chat_messages
    (WeatherChatbot.run Fixtures.services_with_llm WeatherChatbot.ClearChat
       WeatherChatbot.fresh_state)
  = [Behaviour.welcome_message].
Proof.
  pose proof (clear_chat_restarts Fixtures.services_with_llm "key"
                WeatherChatbot.fresh_state eq_refl eq_refl) as Hrestart.
  simpl in Hrestart. by rewrite Hrestart.
Defined.

Lemma sidebar_questions_get_no_reply_witness :
  WeatherChatbot.run Fixtures.services_with_llm (WeatherChatbot.QuickFetch 3)
    WeatherChatbot.fresh_state
  = WeatherChatbot.append_message
      (WeatherChatbot.initialize Fixtures.services_with_llm "key"
         WeatherChatbot.fresh_state)
      "user" "What's the current weather in Tokyo?".
Proof.
  apply (proj1 (proj2 (sidebar_questions_get_no_reply
                         Fixtures.services_with_llm "key"
                         WeatherChatbot.fresh_state eq_refl eq_refl))
           3 "Tokyo").
  - reflexivity.
  - discriminate.
Defined.

(** ** The three code tables, continued *)

(** X20: the analysis page and the insights page know the same weather
    codes, and every code the chatbot knows is known to them: a code gets
    a label other than "Unknown" on the insights page exactly when it does
    on the analysis page, which is exactly when it is in the analysis
    table; and it gets one in the chatbot only if it gets one there. *)
Theorem tables_know_the_same_codes (code : Z) :
  (WeatherInsights.get_weather_description code = "Unknown"
   ↔ (WeatherAnalysis.get_weather_description code).1 = "Unknown")
  ∧ ((WeatherAnalysis.get_weather_description code).1 = "Unknown"
     ↔ WeatherAnalysis.weather_codes !! code = None)
  ∧ (WeatherChatbot.weather_desc code ≠ "Unknown" →
     WeatherInsights.get_weather_description code ≠ "Unknown").
Proof.
  destruct (decide (0 ≤ code ≤ 99)%Z) as [Hin | Hout].
  - revert code Hin. by_evaluation_on_codes.
  - unfold WeatherAnalysis.get_weather_description,
      WeatherInsights.get_weather_description, WeatherChatbot.weather_desc.
    rewrite analysis_code_out_of_range, insights_code_out_of_range,
      chatbot_code_out_of_range by done.
    simpl. done.
Qed.

Lemma tables_know_the_same_codes_witness :
  WeatherInsights.get_weather_description 61 ≠ "Unknown".
Proof.
  apply (proj2 (proj2 (tables_know_the_same_codes 61))).
  vm_compute. discriminate.
Defined.

(** ** The chart of the weather conditions *)

Lemma elem_of_unique (column : list string) (value : string) :
  value ∈ WeatherAnalysis.unique column ↔ value ∈ column.
Proof.
  induction column as [| x rest IH]; simpl; [done |].
  rewrite !elem_of_cons, list_elem_of_In, filter_In, <- list_elem_of_In, IH.
  destruct (String.eqb_spec value x) as [-> | Hother]; simpl.
  - split; intros _; by left.
  - split; intros [? | ?]; try done; right; try done. tauto.
Qed.

Lemma NoDup_unique (column : list string) :
  NoDup (WeatherAnalysis.unique column).
Proof.
  induction column as [| x rest IH]; simpl; [constructor |].
  constructor.
  - rewrite list_elem_of_In, filter_In.
    intros [_ Hsame]. by rewrite String.eqb_refl in Hsame.
  - by apply NoDup_ListNoDup, List.NoDup_filter, NoDup_ListNoDup.
Qed.

(** A list that is a rearrangement of two entries is one of the two
    orders. *)
Lemma two_entries_inv {A : Type} (x y : A) (l : list A) :
  l ≡ₚ [x; y] → l = [x; y] ∨ l = [y; x].
Proof. intros Hperm. symmetry in Hperm. by apply Permutation_length_2_inv. Qed.

(** X21: the label of a bar of the conditions chart is made of a condition
    taken in order of frequency and of an icon taken in alphabetical order
    of the conditions. So over a forecast with two conditions, the more
    frequent of which comes later in the alphabet, each bar shows one
    condition with the icon of the other. *)
Theorem chart_swaps_icons_of_two_conditions {Timestamp : Type}
    (sort_counts : list (string * nat) → list (string * nat))
    (df : WeatherAnalysis.DataFrame Timestamp) (a b : string) :
  Behaviour.sorts_counts_descending sort_counts →
  a ∈ WeatherAnalysis.row_weather_desc <$> df →
  b ∈ WeatherAnalysis.row_weather_desc <$> df →
  (∀ value, value ∈ WeatherAnalysis.row_weather_desc <$> df →
     value = a ∨ value = b) →
  String.le a b →
  a ≠ b →
  WeatherAnalysis.value_count (WeatherAnalysis.row_weather_desc <$> df) a
  < WeatherAnalysis.value_count (WeatherAnalysis.row_weather_desc <$> df) b →
  WeatherAnalysis.weather_conditions sort_counts df
  = Return [
      {| WeatherAnalysis.Condition := b;
         WeatherAnalysis.Count :=
           WeatherAnalysis.value_count
             (WeatherAnalysis.row_weather_desc <$> df) b;
         WeatherAnalysis.Emoji := Behaviour.first_emoji df a;
         WeatherAnalysis.Display :=
           (Behaviour.first_emoji df a ++ " " ++ b)%string |};
      {| WeatherAnalysis.Condition := a;
         WeatherAnalysis.Count :=
           WeatherAnalysis.value_count
             (WeatherAnalysis.row_weather_desc <$> df) a;
         WeatherAnalysis.Emoji := Behaviour.first_emoji df b;
         WeatherAnalysis.Display :=
           (Behaviour.first_emoji df b ++ " " ++ a)%string |}
    ].
Proof.
  intros Hsort Ha Hb Honly Hle Hdistinct Hcount.
  set (column := WeatherAnalysis.row_weather_desc <$> df) in *.
  assert (WeatherAnalysis.unique column ≡ₚ [a; b]) as Hvalues.
  { apply NoDup_Permutation.
    - apply NoDup_unique.
    - constructor.
      + intros [Hsame | Hnil]%elem_of_cons; [done |].
        by apply elem_of_nil in Hnil.
      + constructor; [apply not_elem_of_nil | constructor].
    - intros value. rewrite elem_of_unique. split.
      + intros Hvalue.
        destruct (Honly value Hvalue) as [-> | ->]; [by left | right; by left].
      + intros [-> | [-> | Hnil]%elem_of_cons]%elem_of_cons; try done.
        by apply elem_of_nil in Hnil. }
  assert (merge_sort String.le (WeatherAnalysis.unique column) = [a; b])
    as Hkeys.
  { apply (StronglySorted_unique String.le).
    - apply StronglySorted_merge_sort; apply _.
    - repeat constructor. done.
    - by rewrite merge_sort_Permutation. }
  assert (WeatherAnalysis.value_counts sort_counts column
          = [(b, WeatherAnalysis.value_count column b);
             (a, WeatherAnalysis.value_count column a)]) as Hcounts.
  { unfold WeatherAnalysis.value_counts.
    destruct (Hsort ((fun value =>
                        (value, WeatherAnalysis.value_count column value))
                     <$> WeatherAnalysis.unique column)) as [Hperm Hsorted].
    assert (sort_counts
              ((fun value => (value, WeatherAnalysis.value_count column value))
               <$> WeatherAnalysis.unique column)
            ≡ₚ [(a, WeatherAnalysis.value_count column a);
                (b, WeatherAnalysis.value_count column b)]) as Hboth.
    { etransitivity; [exact Hperm |].
      by apply (fmap_Permutation
                  (fun value =>
                     (value, WeatherAnalysis.value_count column value))
                  _ [a; b]). }
    apply two_entries_inv in Hboth as [Hsame | Hswapped]; [| done].
    exfalso. rewrite Hsame in Hsorted.
    apply Sorted_inv in Hsorted as [_ Hhead].
    inversion Hhead as [| ? ? Hbad]; subst. simpl in Hbad. lia. }
  unfold WeatherAnalysis.weather_conditions, WeatherAnalysis.first_emojis.
  cbv zeta. fold column. rewrite Hkeys, Hcounts. reflexivity.
Qed.

Lemma chart_swaps_icons_of_two_conditions_witness :
  WeatherAnalysis.Display
  <$> default []
        (match WeatherAnalysis.weather_conditions Fixtures.sort_counts
                 Fixtures.three_rows with
         | Return rows => Some rows
         | Raise _ => None
         end)
  = ["☀️ Overcast"; "☁️ Clear sky"].
Proof.
  rewrite (chart_swaps_icons_of_two_conditions Fixtures.sort_counts
             Fixtures.three_rows "Clear sky" "Overcast").
  - reflexivity.
  - intros counts. unfold Fixtures.sort_counts. split.
    + apply merge_sort_Permutation.
    + apply Sorted_merge_sort. intros x y. lia.
  - vm_compute. right. left.
  - vm_compute. left.
  - intros value Hvalue. vm_compute in Hvalue.
    apply elem_of_cons in Hvalue as [-> | Hvalue]; [by right |].
    apply elem_of_cons in Hvalue as [-> | Hvalue]; [by left |].
    apply elem_of_cons in Hvalue as [-> | Hvalue]; [by right |].
    by apply elem_of_nil in Hvalue.
  - vm_compute. reflexivity.
  - discriminate.
  - vm_compute. lia.
Defined.
